(** * qkernel: session store, session supervisor and execution loop

    A shallow embedding of [kernel.py]: the persisted kernel state
    ([load_state], [save_state], [clear_state]), the lifecycle functions
    ([start_kernel], [stop_kernel], [restart_kernel], [is_kernel_running])
    and the message loop of [execute_code]; of [output.py], which prints
    the output of a cell and saves its images; and of the commands of
    [cli.py].

    Python values are kept dynamically typed, as the code has them: a
    message content, a state file and a [KernelState] field can hold any
    JSON value, and a missing key or a wrong type raises the exception
    Python raises. *)

From Stdlib Require Import Ascii.
From stdpp Require Import gmap strings list fin_maps pretty.

Set Warnings "-register-all".
#[local] Open Scope Z_scope.

(** ** Python values, exceptions and results *)

Module Py.

(** The values JSON can carry: what [json.loads] returns and what a Jupyter
    message holds. A [dict] is a finite map keyed by strings. A number
    with a fraction has no constructor of its own: wherever this code looks
    at a value (as a process id, a path, a text to join, a string to
    compare) a [float] fares as [None] does. *)
Inductive pyval : Type :=
| PNone
| PBool (b : bool)
| PInt (z : Z)
| PStr (s : string)
| PList (l : list pyval)
| PDict (d : gmap string pyval).

(** The exception classes the code raises, catches or lets through.
    [ProcessLookupError] and [PermissionError] are the subclasses of
    [OSError] that [os.kill] raises; [Empty] is [queue.Empty], raised by a
    receive that timed out; [OtherError] stands for any further subclass of
    [Exception], by name. *)
Inductive exc : Type :=
| JSONDecodeError
| KeyError (key : string)
| TypeError
| OverflowError
| ProcessLookupError
| PermissionError
| RuntimeError (msg : string)
| Empty
| OtherError (name : string).

(** [isinstance(e, OSError)] *)
Definition is_OSError (e : exc) : bool :=
  match e with
  | ProcessLookupError | PermissionError => true
  | _ => false
  end.

(** [isinstance(e, (json.JSONDecodeError, KeyError, TypeError))] *)
Definition is_decode_error (e : exc) : bool :=
  match e with
  | JSONDecodeError | KeyError _ | TypeError => true
  | _ => false
  end.

(** [isinstance(e, Exception)]: every class above derives from it. *)
Definition is_Exception (e : exc) : bool := true.

(** A computation either returns a value or raises. *)
Inductive res (A : Type) : Type :=
| Ok (a : A)
| Raise (e : exc).
Arguments Ok {A} a.
Arguments Raise {A} e.

#[global] Instance res_ret : MRet res := λ A a, Ok a.
#[global] Instance res_bind : MBind res := λ A B f r,
  match r with
  | Ok a => f a
  | Raise e => Raise e
  end.

Definition is_Ok {A} (r : res A) : bool :=
  match r with Ok _ => true | Raise _ => false end.

(** [v == s] for a string literal [s]: only the string [s] itself is equal
    to it. *)
Definition py_eq_str (v : pyval) (s : string) : bool :=
  match v with
  | PStr t => bool_decide (t = s)
  | _ => false
  end.

(** [d[k]] on a dict: [KeyError] when the key is missing. *)
Definition subscript (d : gmap string pyval) (k : string) : res pyval :=
  match d !! k with
  | Some v => Ok v
  | None => Raise (KeyError k)
  end.

(** ["".join(parts)]: [TypeError] as soon as an item is not a [str]. *)
Fixpoint str_join (parts : list pyval) : res string :=
  match parts with
  | [] => Ok EmptyString
  | PStr s :: rest => t ← str_join rest; Ok (s +:+ t)
  | _ :: _ => Raise TypeError
  end.

(** [timeout or default]: [None] and [0] are both falsy. *)
Definition py_or (timeout : option N) (default : N) : N :=
  match timeout with
  | Some t => if (t =? 0)%N then default else t
  | None => default
  end.

End Py.
Import Py.

(** ** The machine the controller runs on *)

Module Os.

(** What the state file holds, seen through
    [json.loads(state_file.read_text())]: a file the caller may write but
    not read, bytes that are not text in the default encoding, text that
    is not JSON, JSON nested deeper than the parser goes, JSON with an
    integer of more digits than [int] converts, or the value the text
    parses to. *)
Inductive stored : Type :=
| Unreadable
| NotText
| NotJson
| TooDeep
| TooManyDigits
| Json (v : pyval).

(** A process the caller can name: one it may signal, or one that belongs
    to somebody else. *)
Inductive process : Type :=
| Ours
| Foreign.

#[global] Instance process_eq_dec : EqDecision process.
Proof. solve_decision. Defined.

(** The state file [~/.local/share/qkernel/state.json] ([None]: no file),
    the process table, the connection files that exist and those among
    them the caller is not allowed to remove. *)
Record world : Type := World {
  state_file : option stored;
  procs : gmap Z process;
  paths : gset string;
  locked : gset string
}.

(** Stateful, fallible computations over the machine. *)
Definition M (A : Type) : Type := world → res A * world.

#[global] Instance M_ret : MRet M := λ A a w, (Ok a, w).
#[global] Instance M_bind : MBind M := λ A B f m w,
  match m w with
  | (Ok a, w') => f a w'
  | (Raise e, w') => (Raise e, w')
  end.

Definition raise {A} (e : exc) : M A := λ w, (Raise e, w).

(** [try: body  except <classes>: handler] *)
Definition try_except {A} (body : M A) (catches : exc → bool)
    (handler : exc → M A) : M A := λ w,
  match body w with
  | (Ok a, w') => (Ok a, w')
  | (Raise e, w') => if catches e then handler e w' else (Raise e, w')
  end.

Definition lift {A} (r : res A) : M A := λ w, (r, w).

Inductive signal : Type :=
| Sig0      (* the null signal: existence and permission check only *)
| SIGTERM.

(** [os.kill] converts its first argument to a C [int]: a [bool] is an
    [int], any other non-integer raises [TypeError], and an integer that
    does not fit raises [OverflowError]. *)
Definition as_pid (v : pyval) : res Z :=
  match v with
  | PInt z => if bool_decide (-2147483648 ≤ z ≤ 2147483647) then Ok z
              else Raise OverflowError
  | PBool b => Ok (if b then 1 else 0)
  | _ => Raise TypeError
  end.

(** [os.kill(pid, sig)]: no such process, a process of another user, or
    the signal is delivered; [SIGTERM] ends the process. *)
Definition os_kill (pid : pyval) (sig : signal) : M unit := λ w,
  match as_pid pid with
  | Raise e => (Raise e, w)
  | Ok z =>
      match procs w !! z with
      | None => (Raise ProcessLookupError, w)
      | Some Foreign => (Raise PermissionError, w)
      | Some Ours =>
          match sig with
          | Sig0 => (Ok (), w)
          | SIGTERM =>
              (Ok (), World (state_file w) (delete z (procs w)) (paths w)
                            (locked w))
          end
      end
  end.

(** [Path(p).exists()]: [Path] of anything but a string is a [TypeError]. *)
Definition path_exists (p : pyval) : M bool := λ w,
  match p with
  | PStr s => (Ok (bool_decide (s ∈ paths w)), w)
  | _ => (Raise TypeError, w)
  end.

(** [Path(p).unlink(missing_ok=True)] *)
Definition path_unlink (p : pyval) : M unit := λ w,
  match p with
  | PStr s =>
      if bool_decide (s ∈ locked w) then (Raise PermissionError, w)
      else (Ok (), World (state_file w) (procs w) (paths w ∖ {[s]})
                         (locked w))
  | _ => (Raise TypeError, w)
  end.

(** [state_file.exists()] *)
Definition state_file_exists : M bool := λ w,
  (Ok (bool_decide (is_Some (state_file w))), w).

(** [json.loads(state_file.read_text())]: [read_text] raises an [OSError]
    on a file that cannot be read and [UnicodeDecodeError] on bytes it
    cannot decode; [json.loads] raises [JSONDecodeError] on text that is
    not JSON, [RecursionError] on nesting that is too deep and [ValueError]
    on an integer with too many digits. *)
Definition state_file_read_json : M pyval := λ w,
  match state_file w with
  | None => (Raise (OtherError "FileNotFoundError"), w)
  | Some Unreadable => (Raise PermissionError, w)
  | Some NotText => (Raise (OtherError "UnicodeDecodeError"), w)
  | Some NotJson => (Raise JSONDecodeError, w)
  | Some TooDeep => (Raise (OtherError "RecursionError"), w)
  | Some TooManyDigits => (Raise (OtherError "ValueError"), w)
  | Some (Json v) => (Ok v, w)
  end.

(** [state_file.unlink(missing_ok=True)] *)
Definition state_file_unlink : M unit := λ w,
  (Ok (), World None (procs w) (paths w) (locked w)).

(** [state_file.write_text(json.dumps(v))] *)
Definition state_file_write_json (v : pyval) : M unit := λ w,
  (Ok (), World (Some (Json v)) (procs w) (paths w) (locked w)).

End Os.
Import Os.

(** ** Session store: [KernelState], [load_state], [save_state], [clear_state] *)

Module Store.

(** The dataclass [KernelState]. A dataclass does not check the annotated
    types ([str], [str], [int]): each field holds whatever it was given. *)
Record KernelState : Type := mkKernelState {
  connection_file : pyval;
  kernel_name : pyval;
  pid : pyval
}.

(** [KernelState( **data)]: [data] must be a mapping whose keys are exactly
    the three field names; [TypeError] otherwise. *)
Definition new_KernelState (data : pyval) : res KernelState :=
  match data with
  | PDict d =>
      match d !! "connection_file", d !! "kernel_name", d !! "pid" with
      | Some c, Some k, Some p =>
          if bool_decide (size d = 3%nat) then Ok (mkKernelState c k p)
          else Raise TypeError
      | _, _, _ => Raise TypeError
      end
  | _ => Raise TypeError
  end.

(** [asdict(state)] *)
Definition asdict (state : KernelState) : gmap string pyval :=
  <["connection_file" := connection_file state]>
    (<["kernel_name" := kernel_name state]>
       (<["pid" := pid state]> ∅)).

Definition load_state : M (option KernelState) :=
  present ← state_file_exists;
  if negb present then mret None
  else
    try_except
      (data ← state_file_read_json;
       state ← lift (new_KernelState data);
       (* Verify the kernel is still running *)
       alive ← try_except (os_kill (pid state) Sig0;; mret true)
                 is_OSError (λ _, mret false);
       if negb alive then state_file_unlink;; mret None
       else
         (* Verify connection file exists *)
         resolves ← path_exists (connection_file state);
         if negb resolves then state_file_unlink;; mret None
         else mret (Some state))
      is_decode_error
      (λ _, state_file_unlink;; mret None).

Definition save_state (state : KernelState) : M unit :=
  state_file_write_json (PDict (asdict state)).

Definition clear_state : M unit := state_file_unlink.

Definition is_kernel_running : M bool :=
  state ← load_state; mret (bool_decide (is_Some state)).

End Store.
Import Store.

(** ** Session supervisor: [start_kernel], [stop_kernel], [restart_kernel] *)

Module Supervisor.

Definition already_running : string :=
  "A kernel is already running. Use 'qkernel stop' first or 'qkernel restart'.".

Section WithKernelManager.

(** [jupyter_client.KernelManager] is an external library. Its two entry
    points are taken as they come: [km_start_kernel name] is
    [km = KernelManager(kernel_name=name); km.start_kernel()] followed by
    reading [km.connection_file] and [km.kernel.pid], and
    [km_shutdown_kernel file] is [km.load_connection_file(file);
    km.shutdown_kernel(now=True)] on a fresh manager. Both may change the
    machine in any way and may raise. *)
Variable km_start_kernel : string → M (string * Z).
Variable km_shutdown_kernel : pyval → M unit.

Definition start_kernel (name : string) : M KernelState :=
  existing ← load_state;
  match existing with
  | Some _ => raise (RuntimeError already_running)
  | None =>
      '(file, child) ← km_start_kernel name;
      let state := mkKernelState (PStr file) (PStr name) (PInt child) in
      save_state state;;
      mret state
  end.

Definition stop_kernel : M bool :=
  state ← load_state;
  match state with
  | None => mret false
  | Some state =>
      (* Try graceful shutdown first *)
      try_except (km_shutdown_kernel (connection_file state))
        is_Exception
        (λ _, (* Fall back to killing the process directly *)
              try_except (os_kill (pid state) SIGTERM)
                is_OSError (λ _, mret ()));;
      (* Clean up connection file *)
      try_except (path_unlink (connection_file state))
        is_Exception (λ _, mret ());;
      clear_state;;
      mret true
  end.

Definition restart_kernel (name : string) : M KernelState :=
  stop_kernel;; start_kernel name.

End WithKernelManager.

End Supervisor.
Import Supervisor.

(** ** Execution engine: the message loop of [execute_code] *)

Module Engine.

(** A message as [get_iopub_msg] hands it over. [msg_type] is
    [msg["header"]["msg_type"]], [content] is [msg["content"]] (the
    transport always fills both in), and [parent_header] is [None] when
    the message has no ["parent_header"] key. *)
Record message : Type := mkMessage {
  msg_type : pyval;
  parent_header : option (gmap string pyval);
  content : gmap string pyval
}.

(** What the IOPub channel will do, receive after receive: the next
    message becomes available [wait] time units after the receive starts,
    or the receive fails with an exception (closed socket, undecodable
    frame, ...). A channel with nothing left stays silent. *)
Inductive event : Type :=
| Arrival (wait : N) (msg : message)
| Failure (e : exc).

Abbreviation channel := (list event).

(** A connected [BlockingKernelClient]: the identifiers its session will
    give to the next requests, and its IOPub channel. *)
Record client : Type := mkClient {
  msg_ids : list string;
  iopub : channel
}.

(** [client.execute(code)]: sends the request and returns its [msg_id]. *)
Definition client_execute (code : string) (c : client) : res string * client :=
  match msg_ids c with
  | [] => (Raise (OtherError "RuntimeError"), c)
  | i :: ids => (Ok i, mkClient ids (iopub c))
  end.

(** [client.get_iopub_msg(timeout=t)]: the message when it arrives within
    [t], [queue.Empty] once [t] has elapsed without one. *)
Definition get_iopub_msg (t : N) (ch : channel) : res message * channel :=
  match ch with
  | [] => (Raise Empty, [])
  | Failure e :: rest => (Raise e, rest)
  | Arrival wait msg :: rest =>
      if (wait <=? t)%N then (Ok msg, rest)
      else (Raise Empty, Arrival (wait - t) msg :: rest)
  end.

(** The local variables of the loop. *)
Module Loop.
Record vars : Type := mkVars {
  stdout_parts : list pyval;
  stderr_parts : list pyval;
  result : pyval;
  display_data : list pyval;
  error : option (gmap string pyval)
}.
End Loop.
Import Loop.

Definition initial : vars := mkVars [] [] PNone [] None.

(** How one turn of the loop body ends: at its end or by [continue]
    ([Next]), or by [break] ([Stop]). *)
Inductive flow : Type :=
| Next (v : vars)
| Stop (v : vars).

(** [msg.get("parent_header", {}).get("msg_id") == msg_id] *)
Definition own (msg_id : string) (msg : message) : bool :=
  match default ∅ (parent_header msg) !! "msg_id" with
  | Some v => py_eq_str v msg_id
  | None => false
  end.

(** The body of the loop after a message was received. *)
Definition handle (msg_id : string) (msg : message) (v : vars) : res flow :=
  let msg_type := msg_type msg in
  let content := content msg in
  (* Check if this message is for our execution *)
  if negb (own msg_id msg) then Ok (Next v)
  else if py_eq_str msg_type "stream" then
    name ← subscript content "name";
    if py_eq_str name "stdout" then
      text ← subscript content "text";
      Ok (Next (mkVars (stdout_parts v ++ [text]) (stderr_parts v)
                       (result v) (display_data v) (error v)))
    else if py_eq_str name "stderr" then
      text ← subscript content "text";
      Ok (Next (mkVars (stdout_parts v) (stderr_parts v ++ [text])
                       (result v) (display_data v) (error v)))
    else Ok (Next v)
  else if py_eq_str msg_type "execute_result" then
    data ← subscript content "data";
    Ok (Next (mkVars (stdout_parts v) (stderr_parts v) data
                     (display_data v) (error v)))
  else if py_eq_str msg_type "display_data" then
    data ← subscript content "data";
    Ok (Next (mkVars (stdout_parts v) (stderr_parts v) (result v)
                     (display_data v ++ [data]) (error v)))
  else if py_eq_str msg_type "error" then
    ename ← subscript content "ename";
    evalue ← subscript content "evalue";
    traceback ← subscript content "traceback";
    Ok (Next (mkVars (stdout_parts v) (stderr_parts v) (result v)
                     (display_data v)
                     (Some (<["ename" := ename]>
                              (<["evalue" := evalue]>
                                 (<["traceback" := traceback]> ∅))))))
  else if py_eq_str msg_type "status" then
    state ← subscript content "execution_state";
    if py_eq_str state "idle" then Ok (Stop v) else Ok (Next v)
  else Ok (Next v).

(** [while True: try: msg = client.get_iopub_msg(timeout=t)
    except Exception: break; ...]. Every turn either leaves the loop or has
    taken an event off the channel, so the loop is written by recursion on
    the channel; [receive_loop_unfold] below gives it back as the loop
    around [get_iopub_msg]. *)
Fixpoint receive_loop (t : N) (msg_id : string) (ch : channel) (v : vars)
    : res vars * channel :=
  match ch with
  | [] => (Ok v, [])
  | Failure e :: rest => (Ok v, rest)
  | Arrival wait msg :: rest =>
      if (wait <=? t)%N then
        match handle msg_id msg v with
        | Ok (Next v') => receive_loop t msg_id rest v'
        | Ok (Stop v') => (Ok v', rest)
        | Raise e => (Raise e, rest)
        end
      else (Ok v, Arrival (wait - t) msg :: rest)
  end.

(** The dataclass [CellOutput]. *)
Record CellOutput : Type := mkCellOutput {
  stdout : string;
  stderr : string;
  result : pyval;
  display_data : list pyval;
  error : option (gmap string pyval)
}.

(** [CellOutput(stdout="".join(stdout_parts), ...)] *)
Definition make_output (v : vars) : res CellOutput :=
  out ← str_join (stdout_parts v);
  err ← str_join (stderr_parts v);
  Ok (mkCellOutput out err (Loop.result v) (Loop.display_data v)
                   (Loop.error v)).

(** [execute_code(code, client, timeout)] with a client supplied by the
    caller, as the batch runner calls it. *)
Definition execute_code (code : string) (c : client) (timeout : option N)
    : res CellOutput * client :=
  match client_execute code c with
  | (Raise e, c') => (Raise e, c')
  | (Ok msg_id, c') =>
      let '(r, ch) := receive_loop (py_or timeout 600) msg_id (iopub c') initial in
      (v ← r; make_output v, mkClient (msg_ids c') ch)
  end.

End Engine.
Import Engine.

(** ** Vocabulary of the specification *)

Module Spec.

(** *** Session store *)

(** The machine once the state file is gone. *)
Definition forget (w : world) : world :=
  World None (procs w) (paths w) (locked w).

(** The record the state file parses to: a JSON object with exactly the
    three fields. *)
Definition recorded (w : world) : option KernelState :=
  match state_file w with
  | Some (Json v) =>
      match new_KernelState v with
      | Ok state => Some state
      | Raise _ => None
      end
  | _ => None
  end.

(** The state file, when there is one, holds text that [json.loads] either
    parses or rejects as not being JSON. *)
Definition legible (w : world) : bool :=
  match state_file w with
  | None | Some NotJson | Some (Json _) => true
  | Some _ => false
  end.

(** The liveness probe as the code runs it: the recorded process id is an
    integer the null signal can be delivered to. *)
Definition signalable (w : world) (p : pyval) : bool :=
  match as_pid p with
  | Ok z => bool_decide (procs w !! z = Some Ours)
  | Raise _ => false
  end.

(** The liveness probe as the specification words it: a process with the
    recorded id exists. *)
Definition process_exists (w : world) (p : pyval) : bool :=
  match as_pid p with
  | Ok z => bool_decide (is_Some (procs w !! z))
  | Raise _ => false
  end.

(** The connection handle names an existing file. *)
Definition resolves (w : world) (f : pyval) : bool :=
  match f with
  | PStr s => bool_decide (s ∈ paths w)
  | _ => false
  end.

(** The recorded process id, when it is an integer, fits a C [int]. *)
Definition pid_fits (w : world) : bool :=
  match recorded w with
  | Some state =>
      match as_pid (pid state) with
      | Raise OverflowError => false
      | _ => true
      end
  | None => true
  end.

(** The machine once [state] has been written to the state file. *)
Definition persisted (state : KernelState) (w : world) : world :=
  World (Some (Json (PDict (asdict state)))) (procs w) (paths w) (locked w).

(** *** Session supervisor *)

(** [n] calls of [start_kernel] in a row, each failure caught by the
    caller: the outcomes, oldest first. *)
Fixpoint attempts (km_start_kernel : string → M (string * Z))
    (n : nat) (name : string) (w : world) : list (res KernelState) * world :=
  match n with
  | O => ([], w)
  | S n' =>
      let '(r, w') := start_kernel km_start_kernel name w in
      let '(rs, w'') := attempts km_start_kernel n' name w' in
      (r :: rs, w'')
  end.

(** *** Execution engine *)

(** The kinds of notification the loop tells apart, and the value of
    [msg_type] each one goes by. *)
Inductive kind : Type :=
| Stream | ExecuteResult | DisplayData | Error | Status | Unknown.

Definition kind_name (k : kind) : option string :=
  match k with
  | Stream => Some "stream"
  | ExecuteResult => Some "execute_result"
  | DisplayData => Some "display_data"
  | Error => Some "error"
  | Status => Some "status"
  | Unknown => None
  end.

Definition kind_of (ty : pyval) : kind :=
  if py_eq_str ty "stream" then Stream
  else if py_eq_str ty "execute_result" then ExecuteResult
  else if py_eq_str ty "display_data" then DisplayData
  else if py_eq_str ty "error" then Error
  else if py_eq_str ty "status" then Status
  else Unknown.

Definition field_is (msg : message) (k s : string) : bool :=
  match content msg !! k with
  | Some v => py_eq_str v s
  | None => false
  end.

(** A notification of kind [kind] that answers request [tok]. *)
Definition answers (tok : string) (kind : string) (msg : message) : bool :=
  own tok msg && py_eq_str (msg_type msg) kind.

(** The completion signal: a status notification for [tok] reporting idle. *)
Definition is_idle (tok : string) (msg : message) : bool :=
  answers tok "status" msg && field_is msg "execution_state" "idle".

(** The notifications the loop has dealt with when it ends: those
    delivered in time before the completion signal, the first late or
    failed receive, or the end of the channel. *)
Fixpoint seen (t : N) (tok : string) (ch : channel) : list message :=
  match ch with
  | Arrival wait msg :: rest =>
      if (wait <=? t)%N && negb (is_idle tok msg)
      then msg :: seen t tok rest else []
  | _ => []
  end.

(** Every notification the channel holds. *)
Definition notifications (ch : channel) : list message :=
  omap (λ ev, match ev with Arrival _ msg => Some msg | Failure _ => None end) ch.

(** The texts of the stream fragments for [tok] tagged [name], in order. *)
Definition stream_texts (tok name : string) (ms : list message) : list pyval :=
  (λ msg, default PNone (content msg !! "text"))
    <$> List.filter (λ msg, answers tok "stream" msg && field_is msg "name" name) ms.

(** The payloads of the notifications of kind [kind] for [tok], in order. *)
Definition payloads (tok kind : string) (ms : list message) : list pyval :=
  (λ msg, default PNone (content msg !! "data"))
    <$> List.filter (answers tok kind) ms.

(** The failure a failure notification carries: kind, message and trace. *)
Definition failure_of (msg : message) : gmap string pyval :=
  <["ename" := default PNone (content msg !! "ename")]>
    (<["evalue" := default PNone (content msg !! "evalue")]>
       (<["traceback" := default PNone (content msg !! "traceback")]> ∅)).

(** The failures carried by the failure notifications for [tok], in order. *)
Definition failures (tok : string) (ms : list message)
    : list (gmap string pyval) :=
  failure_of <$> List.filter (answers tok "error") ms.

(** The loop variables after the notifications [ms], read off the
    notifications kind by kind rather than by running the loop. *)
Definition collect (tok : string) (ms : list message) (v : Loop.vars)
    : Loop.vars :=
  Loop.mkVars
    (Loop.stdout_parts v ++ stream_texts tok "stdout" ms)
    (Loop.stderr_parts v ++ stream_texts tok "stderr" ms)
    (default (Loop.result v) (last (payloads tok "execute_result" ms)))
    (Loop.display_data v ++ payloads tok "display_data" ms)
    (match last (failures tok ms) with
     | Some f => Some f
     | None => Loop.error v
     end).

Definition is_str (v : pyval) : bool :=
  match v with PStr _ => true | _ => false end.

Definition is_dict (v : pyval) : bool :=
  match v with PDict _ => true | _ => false end.

Definition is_list (v : pyval) : bool :=
  match v with PList _ => true | _ => false end.

Definition has (msg : message) (k : string) (ty : pyval → bool) : bool :=
  match content msg !! k with
  | Some v => ty v
  | None => false
  end.

(** The content has the fields the Jupyter messaging protocol gives to a
    message of its kind. *)
Definition conforms (msg : message) : bool :=
  if py_eq_str (msg_type msg) "stream" then
    has msg "name" is_str && has msg "text" is_str
  else if py_eq_str (msg_type msg) "execute_result" then has msg "data" is_dict
  else if py_eq_str (msg_type msg) "display_data" then has msg "data" is_dict
  else if py_eq_str (msg_type msg) "error" then
    has msg "ename" is_str && has msg "evalue" is_str
    && has msg "traceback" is_list
  else if py_eq_str (msg_type msg) "status" then
    has msg "execution_state" is_str
  else true.

(** A run of notifications, each with the time it takes to arrive. *)
Definition arrivals (l : list (N * message)) : channel :=
  map (λ '(wait, msg), Arrival wait msg) l.

(** A notification the loop receives in time, that follows the protocol
    and is not the completion signal. *)
Definition passes (t : N) (tok : string) (timed : N * message) : bool :=
  (timed.1 <=? t)%N && conforms timed.2 && negb (is_idle tok timed.2).

(** The back-reference of a notification: the identifier its parent
    header carries, when it has a parent header and that header an
    identifier. *)
Definition back_reference (msg : message) : option pyval :=
  match parent_header msg with
  | Some ph => ph !! "msg_id"
  | None => None
  end.

(** The notification carries the correlation token [tok]: its
    back-reference is the string [tok]. *)
Definition matching (tok : string) (msg : message) : Prop :=
  back_reference msg = Some (PStr tok).

(** Whether a value is a given string can be decided. *)
#[global] Instance PStr_dec (v : pyval) (s : string) : Decision (v = PStr s).
Proof.
  destruct v as [| | |s'| |]; try (right; discriminate).
  destruct (decide (s' = s)) as [->|Hne]; [by left|right; congruence].
Defined.

#[global] Instance Some_PStr_dec (o : option pyval) (s : string) :
  Decision (o = Some (PStr s)).
Proof.
  destruct o as [v|]; [|right; discriminate].
  destruct (decide (v = PStr s)) as [->|Hne]; [by left|right; congruence].
Defined.

#[global] Instance matching_dec tok msg : Decision (matching tok msg).
Proof. unfold matching. apply _. Defined.

(** The completion signal of request [tok], in the words of the
    specification: a status notification that carries the token of the
    request and reports the idle state. *)
Definition completes (tok : string) (msg : message) : Prop :=
  matching tok msg ∧ msg_type msg = PStr "status"
  ∧ content msg !! "execution_state" = Some (PStr "idle").

#[global] Instance completes_dec tok msg : Decision (completes tok msg).
Proof. unfold completes. apply _. Defined.

(** A notification that is delivered in time, follows the protocol and is
    not the completion signal of [tok]. *)
Definition before_completion (t : N) (tok : string) (timed : N * message)
    : Prop :=
  (timed.1 ≤ t)%N ∧ conforms timed.2 = true ∧ ¬ completes tok timed.2.

#[global] Instance before_completion_dec t tok timed :
  Decision (before_completion t tok timed).
Proof. unfold before_completion. apply _. Defined.

(** A notification that does not carry the token of the request and is
    delivered in time. *)
Definition foreign (t : N) (tok : string) (ev : event) : Prop :=
  match ev with
  | Arrival wait msg => (wait ≤ t)%N ∧ ¬ matching tok msg
  | Failure _ => False
  end.

#[global] Instance foreign_dec t tok ev : Decision (foreign t tok ev).
Proof. destruct ev; simpl; apply _. Defined.

(** The channel without those notifications, every other receive finding
    what it found, after the same wait. *)
Definition drop_foreign (t : N) (tok : string) (ch : channel) : channel :=
  filter (λ ev, ¬ foreign t tok ev) ch.

(** The matching notifications of a channel up to its first failure, each
    with the instant it arrives at, the clock reading [now] when the
    channel is first listened to. *)
Fixpoint matching_arrivals (tok : string) (now : N) (ch : channel)
    : list (N * message) :=
  match ch with
  | Arrival wait msg :: rest =>
      if decide (matching tok msg)
      then ((now + wait)%N, msg) :: matching_arrivals tok (now + wait) rest
      else matching_arrivals tok (now + wait) rest
  | _ => []
  end.

(** An event of the channel that is not a notification of another
    request. *)
Definition concerns (tok : string) (ev : event) : Prop :=
  match ev with
  | Arrival _ msg => matching tok msg
  | Failure _ => True
  end.

#[global] Instance concerns_dec tok ev : Decision (concerns tok ev).
Proof. destruct ev; simpl; apply _. Defined.

(** The channel without the notifications that do not carry the token,
    whenever they are delivered. *)
Definition matching_only (tok : string) (ch : channel) : channel :=
  filter (concerns tok) ch.

(** The output built from the notifications [ms] alone. *)
Definition expected (tok : string) (ms : list message) : res CellOutput :=
  make_output (collect tok ms initial).

End Spec.
Import Spec.

(** ** Sample machines, kernels and channels *)

Module Samples.

Definition kernel_4242 : KernelState :=
  mkKernelState (PStr "/run/user/kernel-4242.json") (PStr "python3") (PInt 4242).

(** A kernel that is up, with its record and its connection file. *)
Definition running : world :=
  World (Some (Json (PDict (asdict kernel_4242)))) {[ 4242 := Ours ]}
        {[ "/run/user/kernel-4242.json" ]} ∅.

(** The same record after the kernel has died. *)
Definition stale : world :=
  World (Some (Json (PDict (asdict kernel_4242)))) ∅
        {[ "/run/user/kernel-4242.json" ]} ∅.

(** The same record when process 4242 belongs to another user. *)
Definition reused_pid : world :=
  World (Some (Json (PDict (asdict kernel_4242)))) {[ 4242 := Foreign ]}
        {[ "/run/user/kernel-4242.json" ]} ∅.

(** A state file that holds no JSON. *)
Definition garbled : world :=
  World (Some NotJson) {[ 4242 := Ours ]} {[ "/run/user/kernel-4242.json" ]} ∅.

(** A state file whose bytes are not text: a lone byte 0xff. *)
Definition scrambled : world :=
  World (Some NotText) {[ 4242 := Ours ]} {[ "/run/user/kernel-4242.json" ]} ∅.

(** A record whose process id does not fit a C [int]. *)
Definition huge_pid : world :=
  World (Some (Json (PDict (asdict
           (mkKernelState (PStr "/run/user/kernel-4242.json") (PStr "python3")
                          (PInt 2147483648))))))
        ∅ {[ "/run/user/kernel-4242.json" ]} ∅.

(** No state file at all. *)
Definition idle_machine : world := World None ∅ ∅ ∅.

(** A kernel that is up and whose connection file cannot be removed. *)
Definition stubborn : world :=
  World (Some (Json (PDict (asdict kernel_4242)))) {[ 4242 := Ours ]}
        {[ "/run/user/kernel-4242.json" ]} {[ "/run/user/kernel-4242.json" ]}.

(** A kernel manager that starts process 7. *)
Definition spawn_7 (name : string) : M (string * Z) := λ w,
  (Ok ("/run/user/kernel-7.json", 7),
   World (state_file w) (<[7 := Ours]> (procs w))
         ({[ "/run/user/kernel-7.json" ]} ∪ paths w) (locked w)).

(** A graceful shutdown that gets the kernel down and then fails, so that
    the termination signal that follows finds no process. *)
Definition shutdown_breaks (file : pyval) : M unit := λ w,
  (Raise (OtherError "TimeoutError"),
   World (state_file w) ∅ (paths w) (locked w)).

(** [stubborn] after [stop_kernel] with [shutdown_breaks]. *)
Definition torn_down : world :=
  World None ∅ {[ "/run/user/kernel-4242.json" ]}
        {[ "/run/user/kernel-4242.json" ]}.

(** The machine and the record after [spawn_7] on [idle_machine]. *)
Definition kernel_7 : KernelState :=
  mkKernelState (PStr "/run/user/kernel-7.json") (PStr "python3") (PInt 7).

Definition spawned_7 : world :=
  World None {[ 7 := Ours ]} {[ "/run/user/kernel-7.json" ]} ∅.

Definition parent (tok : string) : option (gmap string pyval) :=
  Some {[ "msg_id" := PStr tok ]}.

Definition stream_msg (tok name text : string) : message :=
  mkMessage (PStr "stream") (parent tok)
            (<["name" := PStr name]> {[ "text" := PStr text ]}).

Definition status_msg (tok state : string) : message :=
  mkMessage (PStr "status") (parent tok) {[ "execution_state" := PStr state ]}.

Definition plain (text : string) : pyval :=
  PDict {[ "text/plain" := PStr text ]}.

Definition result_msg (tok text : string) : message :=
  mkMessage (PStr "execute_result") (parent tok) {[ "data" := plain text ]}.

Definition display_msg (tok text : string) : message :=
  mkMessage (PStr "display_data") (parent tok) {[ "data" := plain text ]}.

Definition error_msg (tok ename evalue : string) : message :=
  mkMessage (PStr "error") (parent tok)
            (<["ename" := PStr ename]>
               (<["evalue" := PStr evalue]> {[ "traceback" := PList [] ]})).

(** The notifications of request ["req-2"], with left-overs of the
    completed request ["req-1"] in between. *)
Definition crosstalk : channel :=
  [ Arrival 1 (stream_msg "req-1" "stdout" "old");
    Arrival 2 (status_msg "req-2" "busy");
    Arrival 1 (stream_msg "req-2" "stdout" "4");
    Arrival 0 (result_msg "req-1" "41");
    Arrival 3 (stream_msg "req-2" "stderr" "warn");
    Arrival 1 (display_msg "req-2" "<plot>");
    Arrival 1 (stream_msg "req-2" "stdout" "2");
    Arrival 2 (result_msg "req-2" "42");
    Arrival 1 (status_msg "req-1" "idle");
    Arrival 1 (status_msg "req-2" "idle");
    Arrival 5 (stream_msg "req-2" "stdout" "too late") ].

(** Two requests in a row on one client: request ["req-1"] completes, and
    a fragment and a computed value of it are still under way when request
    ["req-2"] is submitted. *)
Definition two_requests : client :=
  mkClient ["req-1"; "req-2"]
    [ Arrival 1 (stream_msg "req-1" "stdout" "one");
      Arrival 1 (status_msg "req-1" "idle");
      Arrival 1 (stream_msg "req-1" "stdout" "left over");
      Arrival 1 (result_msg "req-1" "1");
      Arrival 1 (stream_msg "req-2" "stdout" "two");
      Arrival 1 (status_msg "req-2" "idle") ].

(** The same request on a channel of its own. *)
Definition alone : channel :=
  [ Arrival 2 (status_msg "req-2" "busy");
    Arrival 1 (stream_msg "req-2" "stdout" "4");
    Arrival 3 (stream_msg "req-2" "stderr" "warn");
    Arrival 1 (display_msg "req-2" "<plot>");
    Arrival 1 (stream_msg "req-2" "stdout" "2");
    Arrival 2 (result_msg "req-2" "42");
    Arrival 1 (status_msg "req-2" "idle");
    Arrival 5 (stream_msg "req-2" "stdout" "too late") ].

(** What arrives before the kernel goes quiet. *)
Definition started : list (N * message) :=
  [ (2%N, status_msg "req-2" "busy");
    (1%N, stream_msg "req-2" "stdout" "4");
    (1%N, error_msg "req-2" "NameError" "name 'x' is not defined") ].

Definition too_late : channel :=
  [ Arrival 5 (stream_msg "req-2" "stdout" "too late") ].

Definition idle_2 : message := status_msg "req-2" "idle".

(** A fragment without a parent header, and an idle status whose parent
    header is empty, as a kernel broadcasts them on its own account. *)
Definition orphan : message :=
  mkMessage (PStr "stream") None
            (<["name" := PStr "stdout"]> {[ "text" := PStr "boot" ]}).

Definition unprompted_idle : message :=
  mkMessage (PStr "status") (Some ∅) {[ "execution_state" := PStr "idle" ]}.

(** [crosstalk] with the two of them in front. *)
Definition noisy : channel :=
  Arrival 1 orphan :: Arrival 1 unprompted_idle :: crosstalk.

(** What arrives for ["req-2"] while request ["req-1"] and the kernel
    itself report idle. *)
Definition overlapping : list (N * message) :=
  [ (2%N, status_msg "req-2" "busy");
    (1%N, stream_msg "req-2" "stdout" "4");
    (1%N, status_msg "req-1" "idle");
    (1%N, unprompted_idle);
    (1%N, error_msg "req-2" "NameError" "name 'x' is not defined") ].

(** A fragment of ["req-2"] that arrives 800 time units after the
    submission, with and without a left-over of ["req-1"] half-way. *)
Definition slow_with_leftover : channel :=
  [ Arrival 400 (stream_msg "req-1" "stdout" "old");
    Arrival 400 (stream_msg "req-2" "stdout" "4");
    Arrival 1 idle_2 ].

Definition slow : channel :=
  [ Arrival 800 (stream_msg "req-2" "stdout" "4");
    Arrival 1 idle_2 ].

(** A prompt fragment of ["req-2"], with and without a left-over of
    ["req-1"] that takes 700 time units to arrive. *)
Definition prompt_after_leftover : channel :=
  [ Arrival 700 (stream_msg "req-1" "stdout" "old");
    Arrival 1 (stream_msg "req-2" "stdout" "4");
    Arrival 1 idle_2 ].

Definition prompt : channel :=
  [ Arrival 1 (stream_msg "req-2" "stdout" "4");
    Arrival 1 idle_2 ].

Definition answer_42 : CellOutput :=
  mkCellOutput "42" "warn" (plain "42") [plain "<plot>"] None.

Definition partial_4 : CellOutput :=
  mkCellOutput "4" "" PNone []
    (Some (<["ename" := PStr "NameError"]>
             (<["evalue" := PStr "name 'x' is not defined"]>
                {[ "traceback" := PList [] ]}))).

End Samples.

(** ** Kernel client: [get_client] and [execute_code] without a client *)

Module Transport.

Definition no_kernel : string :=
  "No kernel is running. Use 'qkernel start' first.".

(** [try: body  finally: cleanup]: the cleanup runs however the body
    ends, and an exception it raises replaces the outcome of the body. *)
Definition finally {A} (body : M A) (cleanup : M unit) : M A := λ w,
  let '(r, w1) := body w in
  match cleanup w1 with
  | (Ok _, w2) => (r, w2)
  | (Raise e, w2) => (Raise e, w2)
  end.

Section WithBlockingKernelClient.

(** [jupyter_client.BlockingKernelClient] is an external library.
    [connect file ready] is [client = BlockingKernelClient();
    client.load_connection_file(file); client.start_channels();
    client.wait_for_ready(timeout=ready)], yielding the connected client;
    [stop_channels client] is [client.stop_channels()]. Both may change the
    machine in any way and may raise. *)
Variable connect : pyval → N → M client.
Variable stop_channels : client → M unit.

Definition get_client (state : option KernelState) (timeout : option N)
    : M client :=
  state ← match state with
          | None => load_state
          | Some _ => mret state
          end;
  match state with
  | None => raise (RuntimeError no_kernel)
  | Some state =>
      (* Wait for kernel to be ready *)
      connect (connection_file state) (py_or timeout 30)
  end.

(** [execute_code(code, None, timeout)]: the client is created by
    [get_client] before the [try], the request runs as it does on a
    client of the caller, and the [finally] clause stops the channels of
    the client. *)
Definition execute_code_own_client (code : string) (timeout : option N)
    : M CellOutput :=
  client ← get_client None timeout;
  let '(r, client') := execute_code code client timeout in
  finally (lift r) (stop_channels client').

End WithBlockingKernelClient.

End Transport.
Import Transport.

Module Wiring.
Import Samples.

(** A transport that hands out a client on the channel [alone]. *)
Definition attach (file : pyval) (ready : N) : M client := λ w,
  (Ok (mkClient ["req-2"] alone), w).

Definition detach (c : client) : M unit := λ w, (Ok (), w).

(** A graceful shutdown that works. *)
Definition shutdown_4242 (file : pyval) : M unit := λ w,
  (Ok (), World (state_file w) (delete 4242 (procs w)) (paths w) (locked w)).

End Wiring.

(** ** Python strings, containers and truth values *)

Module PyStr.

Definition nl : string := String "010"%char EmptyString.
Definition esc : string := String "027"%char EmptyString.

(** [bool(v)]. A number with a fraction, which [pyval] leaves out, would
    be truthy unless it is zero. *)
Definition truthy (v : pyval) : bool :=
  match v with
  | PNone => false
  | PBool b => b
  | PInt z => negb (z =? 0)
  | PStr s => negb (bool_decide (s = EmptyString))
  | PList l => negb (bool_decide (l = []))
  | PDict d => negb (bool_decide (d = ∅))
  end.

(** [k in s] for two strings *)
Fixpoint is_substring (k s : string) : bool :=
  String.prefix k s
  || match s with
     | EmptyString => false
     | String _ s' => is_substring k s'
     end.

(** [k in v] for a string [k] *)
Definition py_in (v : pyval) (k : string) : res bool :=
  match v with
  | PDict d => Ok (bool_decide (is_Some (d !! k)))
  | PStr s => Ok (is_substring k s)
  | PList l => Ok (existsb (λ x, py_eq_str x k) l)
  | _ => Raise TypeError
  end.

(** [v[k]] for a string [k] *)
Definition py_getitem (v : pyval) (k : string) : res pyval :=
  match v with
  | PDict d => subscript d k
  | _ => Raise TypeError
  end.

(** [s.split(sep)] for a separator of one character *)
Fixpoint str_split (sep : ascii) (s : string) : list string :=
  match s with
  | EmptyString => [EmptyString]
  | String c s' =>
      if decide (c = sep) then EmptyString :: str_split sep s'
      else match str_split sep s' with
           | [] => [String c EmptyString]
           | x :: xs => String c x :: xs
           end
  end.

(** [c.isspace()] for a character below U+0100. *)
Definition is_space (c : ascii) : bool :=
  let n := N_of_ascii c in
  ((9 <=? n) && (n <=? 13) || (28 <=? n) && (n <=? 32)
   || (n =? 133) || (n =? 160))%N.

Fixpoint lstrip (s : string) : string :=
  match s with
  | EmptyString => EmptyString
  | String c s' => if is_space c then lstrip s' else s
  end.

Fixpoint rstrip (s : string) : string :=
  match s with
  | EmptyString => EmptyString
  | String c s' =>
      let rest := rstrip s' in
      if is_space c && bool_decide (rest = EmptyString) then EmptyString
      else String c rest
  end.

(** [s.strip()]: a [string] stands for a [str] whose characters are below
    U+0100. *)
Definition str_strip (s : string) : string := lstrip (rstrip s).

End PyStr.
Import PyStr.


(** ** Output handling: [output.py] *)

Module Output.

(** A [pathlib.Path] on a POSIX system, as [Path.parts] lists it: the
    anchor (["/"] or ["//"]) first when the path is absolute, then the
    names. *)
Abbreviation Path := (list string).

(** The number of times [c] is repeated at the start of [s]. *)
Fixpoint leading (c : ascii) (s : string) : nat :=
  match s with
  | EmptyString => 0
  | String a s' => if decide (a = c) then S (leading c s') else 0
  end.

(** The anchor a string starts with: exactly two leading slashes are kept,
    any other number of them is one. *)
Definition anchor (s : string) : option string :=
  match leading "/" s with
  | 0%nat => None
  | 2%nat => Some "//"
  | _ => Some "/"
  end.

(** The names a string is made of: empty names and ["."] are dropped. *)
Definition segments (s : string) : list string :=
  filter (λ x, x ≠ EmptyString ∧ x ≠ ".") (str_split "/" s).

(** [p / s]: an absolute [s] replaces [p]. *)
Definition joinpath (p : Path) (s : string) : Path :=
  match anchor s with
  | Some root => root :: segments s
  | None => p ++ segments s
  end.

(** [p.parent] *)
Definition path_parent (p : Path) : Path :=
  match p with
  | [a] => if bool_decide (a = "/" ∨ a = "//") then p else []
  | _ => removelast p
  end.

(** Modelled from the spec: the dataclass [CodeCell] of [parser.py], which
    is not part of the sources at hand. An executable unit has a zero-based
    index, an optional label and a source-code string. *)
Record CodeCell : Type := mkCodeCell {
  index : N;
  label : option string;
  source : string
}.

(** MIME type to file extension mapping, in the order of the [dict]. *)
Definition MIME_TO_EXT : list (string * string) :=
  [ ("image/png", "png");
    ("image/jpeg", "jpg");
    ("image/jpg", "jpg");
    ("image/gif", "gif");
    ("image/svg+xml", "svg");
    ("image/webp", "webp");
    ("application/pdf", "pdf") ].

(** MIME types that are base64 encoded. *)
Definition BASE64_MIMES : gset string :=
  {[ "image/png"; "image/jpeg"; "image/jpg"; "image/gif"; "image/webp";
     "application/pdf" ]}.

Inductive stream : Type :=
| Stdout
| Stderr.

(** What a printed text is put together from: literal text, [str(v)] of a
    value, [str(p)] of a path and [str(e)] of a caught exception. *)
Inductive piece : Type :=
| Lit (s : string)
| Str (v : pyval)
| Loc (p : Path)
| Why (e : exc).

(** What the program does to the terminal and to the disk. [PrintEach v]
    is [for line in v: print(line)]; [RemoveTree p] is
    [if p.exists(): shutil.rmtree(p)]; [Mkdir p] is
    [p.mkdir(parents=True, exist_ok=True)]. The disk accepts every
    operation. *)
Inductive effect : Type :=
| Print (to : stream) (text : list piece)
| PrintEach (v : pyval)
| RemoveTree (p : Path)
| Mkdir (p : Path)
| WriteBytes (p : Path) (data : list Byte.byte)
| WriteText (p : Path) (text : string).

(** A computation that returns or raises, with the effects it had on the
    way, oldest first. *)
Definition W (A : Type) : Type := res A * list effect.

#[global] Instance W_ret : MRet W := λ A a, (Ok a, []).
#[global] Instance W_bind : MBind W := λ A B f m,
  match m with
  | (Ok a, t) => let '(r, t') := f a in (r, t ++ t')
  | (Raise e, t) => (Raise e, t)
  end.

Definition emit (e : effect) : W unit := (Ok (), [e]).

Definition wlift {A} (r : res A) : W A := (r, []).

(** [print(text)] *)
Definition print (text : list piece) : W unit :=
  emit (Print Stdout (text ++ [Lit nl])).

(** [print(text, end=..., file=to)] with an empty [end] *)
Definition print_to (to : stream) (text : list piece) : W unit :=
  emit (Print to text).

(** [for line in v: print(line)]: [None], a [bool] and an [int] cannot be
    iterated over. *)
Definition print_each (v : pyval) : W unit :=
  match v with
  | PStr _ | PList _ | PDict _ => emit (PrintEach v)
  | _ => wlift (Raise TypeError)
  end.

(** [cell.label if cell.label else None]: an empty label is falsy. *)
Definition label_of (cell : CodeCell) : option string :=
  match label cell with
  | Some l => if bool_decide (l = EmptyString) then None else Some l
  | None => None
  end.

(** [cell.label if cell.label else str(cell.index)] *)
Definition cell_id (cell : CodeCell) : string :=
  default (pretty (index cell)) (label_of cell).

Section WithEnvironment.

(** [Path.home()], [sys.stderr.isatty()] and [base64.b64decode] on a
    [str], which raises when the text is not base64. *)
Variable home : Path.
Variable isatty : bool.
Variable b64decode : string → res (list Byte.byte).

Definition get_cache_dir : Path :=
  joinpath (joinpath home ".cache") "qkernel".

Definition get_file_cache_dir (filename : string) : Path :=
  joinpath get_cache_dir filename.

Definition clear_file_cache (filename : string) : W unit :=
  let cache_dir := get_file_cache_dir filename in
  emit (RemoveTree cache_dir);;
  emit (Mkdir cache_dir).

Definition get_cell_cache_dir (filename : string) (cell : CodeCell) : Path :=
  (* Use label if available, otherwise use index *)
  joinpath (get_file_cache_dir filename) (cell_id cell).

(** [data] comes out of a JSON message and is never [bytes]:
    [write_bytes] and [write_text] check their argument before they open
    the file and raise [TypeError] on anything but what they can write. *)
Definition save_image (data : pyval) (mime_type : string) (output_path : Path)
    : W Path :=
  emit (Mkdir (path_parent output_path));;
  (if bool_decide (mime_type ∈ BASE64_MIMES) then
     (* Decode base64 data *)
     match data with
     | PStr s =>
         image_bytes ← wlift (b64decode s);
         emit (WriteBytes output_path image_bytes)
     | _ => wlift (Raise TypeError)
     end
   else
     (* Text-based format (e.g., SVG) *)
     match data with
     | PStr s => emit (WriteText output_path s)
     | _ => wlift (Raise TypeError)
     end);;
  mret output_path.

(** [for mime_type, ext in MIME_TO_EXT.items(): if mime_type in data: ...
    break]: the entry the loop breaks at, [None] when it runs to its
    [else]. *)
Fixpoint find_mime (table : list (string * string)) (data : pyval)
    : res (option (string * string)) :=
  match table with
  | [] => Ok None
  | (mime_type, ext) :: rest =>
      found ← py_in data mime_type;
      if found : bool then Ok (Some (mime_type, ext)) else find_mime rest data
  end.

(** One turn of the loop over [enumerate(output.display_data)]; [many] is
    [len(output.display_data) > 1]. *)
Definition show_display (filename : string) (cell : CodeCell) (verbose : bool)
    (many : bool) (i : N) (data : pyval) : W (option Path) :=
  (* Check for image data *)
  hit ← wlift (find_mime MIME_TO_EXT data);
  match hit with
  | Some (mime_type, ext) =>
      (* Save the image *)
      let cell_cache := get_cell_cache_dir filename cell in
      let output_path :=
        if many then joinpath cell_cache ("output_" +:+ pretty i +:+ "." +:+ ext)
        else joinpath cell_cache ("output." +:+ ext) in
      payload ← wlift (py_getitem data mime_type);
      save_image payload mime_type output_path;;
      (if verbose then print [Lit "[Image saved to: "; Loc output_path; Lit "]"]
       else mret ());;
      mret (Some output_path)
  | None =>
      (* No image found, try to print text representation *)
      plain ← wlift (py_in data "text/plain");
      if plain : bool then
        text ← wlift (py_getitem data "text/plain");
        print [Str text];;
        mret None
      else
        html ← wlift (py_in data "text/html");
        (if html : bool then print [Lit "[HTML output produced]"] else mret ());;
        mret None
  end.

Fixpoint display_loop (filename : string) (cell : CodeCell) (verbose : bool)
    (many : bool) (i : N) (items : list pyval) (saved_images : list Path)
    : W (list Path) :=
  match items with
  | [] => mret saved_images
  | data :: rest =>
      saved ← show_display filename cell verbose many i data;
      display_loop filename cell verbose many (i + 1)%N rest
        (saved_images ++ option_list saved)
  end.

Definition process_cell_output (output : CellOutput) (cell : CodeCell)
    (filename : string) (verbose : bool) : W (list Path) :=
  (* Print cell identifier *)
  (if verbose then
     print [Lit (nl +:+ "--- Cell " +:+ pretty (index cell)
                 +:+ match label_of cell with
                     | Some l => " [" +:+ l +:+ "]"
                     | None => EmptyString
                     end
                 +:+ " ---")]
   else mret ());;
  (* Print stdout *)
  (if truthy (PStr (stdout output)) then print_to Stdout [Lit (stdout output)]
   else mret ());;
  (* Print stderr (in red if terminal supports it) *)
  (if truthy (PStr (stderr output)) then
     if isatty then
       print_to Stderr [Lit (esc +:+ "[91m" +:+ stderr output +:+ esc +:+ "[0m")]
     else print_to Stderr [Lit (stderr output)]
   else mret ());;
  (* Print execute_result (text representation) *)
  (if truthy (result output) then
     (* Prefer text/plain for display *)
     plain ← wlift (py_in (result output) "text/plain");
     if plain : bool then
       text ← wlift (py_getitem (result output) "text/plain");
       print [Str text]
     else mret ()
   else mret ());;
  (* Process display_data (may contain images) *)
  saved_images ← display_loop filename cell verbose
                   (bool_decide (1 < length (display_data output))%nat)
                   0%N (display_data output) [];
  (* Print error if present *)
  match error output with
  | Some err =>
      if truthy (PDict err) then
        ename ← wlift (subscript err "ename");
        evalue ← wlift (subscript err "evalue");
        print [Lit (nl +:+ esc +:+ "[91mError: "); Str ename; Lit ": ";
               Str evalue; Lit (esc +:+ "[0m")];;
        traceback ← wlift (subscript err "traceback");
        print_each traceback
      else mret ()
  | None => mret ()
  end;;
  mret saved_images.

Definition print_summary (cells_executed : N) (images_saved : list Path)
    (errors : N) : W unit :=
  print [Lit (nl +:+ "========================================")];;
  print [Lit ("Executed " +:+ pretty cells_executed +:+ " cell(s)")];;
  (if bool_decide (images_saved ≠ []) then
     print [Lit ("Saved " +:+ pretty (N.of_nat (length images_saved))
                 +:+ " image(s):")];;
     foldr (λ path rest, print [Lit "  - "; Loc path];; rest) (mret ())
           images_saved
   else mret ());;
  if bool_decide (errors ≠ 0%N) then
    print [Lit ("Encountered " +:+ pretty errors +:+ " error(s)")]
  else mret ().

End WithEnvironment.

End Output.
Import Output.


Module OutputSpec.

(** [c] occurs in [s]. *)
Fixpoint has_char (c : ascii) (s : string) : bool :=
  match s with
  | EmptyString => false
  | String a s' => bool_decide (a = c) || has_char c s'
  end.

(** The first entry of the table whose MIME type is a key of [d]. *)
Definition image_type (d : gmap string pyval) : option (string * string) :=
  List.find (λ entry, bool_decide (is_Some (d !! entry.1))) MIME_TO_EXT.

(** The name of the file the image of display item [i] goes to. *)
Definition image_name (many : bool) (i : N) (ext : string) : string :=
  if many then "output_" +:+ pretty i +:+ "." +:+ ext else "output." +:+ ext.

(** The file display item [i] is saved to, if it holds an image. *)
Definition image_of (dir : Path) (many : bool) (i : N) (data : pyval)
    : option Path :=
  match data with
  | PDict d => entry ← image_type d; Some (dir ++ [image_name many i entry.2])
  | _ => None
  end.

(** The files the display items are saved to, item by item from index
    [i] on. *)
Fixpoint images_from (dir : Path) (many : bool) (i : N) (items : list pyval)
    : list Path :=
  match items with
  | [] => []
  | data :: rest =>
      option_list (image_of dir many i data)
      ++ images_from dir many (i + 1)%N rest
  end.

(** The files written, the directories created and the trees removed, in
    order. *)
Definition written (t : list effect) : list Path :=
  omap (λ e, match e with
             | WriteBytes p _ | WriteText p _ => Some p
             | _ => None
             end) t.

Definition made (t : list effect) : list Path :=
  omap (λ e, match e with Mkdir p => Some p | _ => None end) t.

Definition removed (t : list effect) : list Path :=
  omap (λ e, match e with RemoveTree p => Some p | _ => None end) t.

(** The disk is touched in the directory [dir] only: files are written
    directly in it, it is the one directory created, nothing is removed. *)
Definition tidy (dir : Path) (t : list effect) : Prop :=
  Forall (λ p, ∃ name, has_char "/" name = false ∧ p = dir ++ [name]) (written t)
  ∧ Forall (λ p, p = dir) (made t)
  ∧ removed t = [].

(** The disk is not touched at all. *)
Definition silent (t : list effect) : Prop :=
  written t = [] ∧ made t = [] ∧ removed t = [].

(** A computation that only prints. *)
Definition quiet {A} (m : W A) : Prop := silent m.2.

End OutputSpec.

Module Gallery.

Definition ada : Path := ["/"; "home"; "ada"].

(** A decoder that knows one text. *)
Definition decode_hi (s : string) : res (list Byte.byte) :=
  if bool_decide (s = "aGk=") then Ok [Byte.x68; Byte.x69]
  else Raise (OtherError "binascii.Error").

Definition fig_1 : CodeCell := mkCodeCell 1 (Some "fig-1") "plot()".

(** A figure that comes as PNG and as text, a text, and a drawing that comes
    as SVG and as JPEG. *)
Definition plots : CellOutput :=
  mkCellOutput "drawing" EmptyString PNone
    [ PDict (<["image/png" := PStr "aGk="]> {[ "text/plain" := PStr "<Figure>" ]});
      PDict {[ "text/plain" := PStr "done" ]};
      PDict (<["image/svg+xml" := PStr "<svg/>"]> {[ "image/jpeg" := PStr "aGk=" ]}) ]
    None.

(** The same, the drawing's JPEG being damaged. *)
Definition garbled_plots : CellOutput :=
  mkCellOutput "drawing" EmptyString PNone
    [ PDict (<["image/png" := PStr "aGk="]> {[ "text/plain" := PStr "<Figure>" ]});
      PDict {[ "text/plain" := PStr "done" ]};
      PDict (<["image/svg+xml" := PStr "<svg/>"]> {[ "image/jpeg" := PStr "aGk" ]}) ]
    None.

Definition fig_1_dir : Path :=
  ["/"; "home"; "ada"; ".cache"; "qkernel"; "report"; "fig-1"].

(** A cell without a label, and a cell whose label is the index of the
    former. *)
Definition third : CodeCell := mkCodeCell 3 None "x = 1".
Definition labelled_3 : CodeCell := mkCodeCell 5 (Some "3") "y = 2".

End Gallery.
Import OutputSpec.

(** ** Commands: [cli.py] *)

Module Cli.

(** How a command goes on: it returns, it raises, or it calls
    [sys.exit]. [SystemExit] is no [Exception]: no [except] clause of the
    commands catches it. *)
Inductive ctl (A : Type) : Type :=
| Return (a : A)
| Throw (e : exc)
| Exit (code : Z).
Arguments Return {A} a.
Arguments Throw {A} e.
Arguments Exit {A} code.

(** The exit status of the process: that of [sys.exit]; 0 when the
    command returns; 1 when an exception gets out of it. *)
Definition exit_status {A} (r : ctl A) : Z :=
  match r with
  | Return _ => 0
  | Throw _ => 1
  | Exit code => code
  end.

(** A command works on the machine and has effects on the terminal and
    the disk. *)
Definition IO (A : Type) : Type := world → ctl A * list effect * world.

#[global] Instance IO_ret : MRet IO := λ A a w, (Return a, [], w).
#[global] Instance IO_bind : MBind IO := λ A B f m w,
  match m w with
  | (Return a, t, w') => let '(r, t', w'') := f a w' in (r, t ++ t', w'')
  | (Throw e, t, w') => (Throw e, t, w')
  | (Exit code, t, w') => (Exit code, t, w')
  end.

Definition on_machine {A} (m : M A) : IO A := λ w,
  match m w with
  | (Ok a, w') => (Return a, [], w')
  | (Raise e, w') => (Throw e, [], w')
  end.

Definition on_terminal {A} (m : W A) : IO A := λ w,
  match m with
  | (Ok a, t) => (Return a, t, w)
  | (Raise e, t) => (Throw e, t, w)
  end.

(** [sys.exit(code)] *)
Definition sys_exit {A} (code : Z) : IO A := λ w, (Exit code, [], w).

(** [click.echo(text)] and [click.echo(text, err=True)] *)
Definition echo (text : list piece) : IO unit := on_terminal (print text).

Definition echo_err (text : list piece) : IO unit :=
  on_terminal (print_to Stderr (text ++ [Lit nl])).

(** [try: body  except <classes> as e: handler] *)
Definition io_try_except {A} (body : IO A) (catches : exc → bool)
    (handler : exc → IO A) : IO A := λ w,
  match body w with
  | (Throw e, t, w') =>
      if catches e then let '(r, t', w'') := handler e w' in (r, t ++ t', w'')
      else (Throw e, t, w')
  | other => other
  end.

(** [try: body  finally: cleanup]: the cleanup runs however the body
    ends; when it raises or exits, that replaces the outcome of the
    body. *)
Definition io_try_finally {A} (body : IO A) (cleanup : IO unit) : IO A := λ w,
  let '(r, t, w1) := body w in
  match cleanup w1 with
  | (Return _, t', w2) => (r, t ++ t', w2)
  | (Throw e, t', w2) => (Throw e, t ++ t', w2)
  | (Exit code, t', w2) => (Exit code, t ++ t', w2)
  end.

(** [isinstance(e, RuntimeError)] and [isinstance(e, ValueError)]; an
    [OtherError] goes by its name, for the classes of the standard
    library. *)
Definition is_RuntimeError (e : exc) : bool :=
  match e with
  | RuntimeError _ => true
  | OtherError name =>
      bool_decide (name ∈ ["RuntimeError"; "NotImplementedError";
                           "RecursionError"])
  | _ => false
  end.

Definition is_ValueError (e : exc) : bool :=
  match e with
  | JSONDecodeError => true
  | OtherError name =>
      bool_decide (name ∈ ["ValueError"; "UnicodeError"; "UnicodeDecodeError";
                           "UnicodeEncodeError"; "UnicodeTranslateError";
                           "binascii.Error"])
  | _ => false
  end.

(** [bool(output.error)] *)
Definition failed (output : CellOutput) : bool :=
  match error output with
  | Some err => truthy (PDict err)
  | None => false
  end.

Section WithCollaborators.

(** The kernel manager, the kernel client and the environment of
    [output.py], as above; and the functions of [parser.py], which is not
    part of the sources at hand: [get_file_stem], [parse_qmd], which reads
    the file and may raise, and [filter_cells], which raises [ValueError]
    on a selector that matches nothing. *)
Variable km_start_kernel : string → M (string * Z).
Variable km_shutdown_kernel : pyval → M unit.
Variable connect : pyval → N → M client.
Variable stop_channels : client → M unit.
Variable home : Path.
Variable isatty : bool.
Variable b64decode : string → res (list Byte.byte).
Variable get_file_stem : Path → string.
Variable parse_qmd : Path → res (list CodeCell).
Variable filter_cells : list CodeCell → list string → res (list CodeCell).

(** [state.kernel_name] and the like on [None] raise [AttributeError]. *)
Definition status : IO unit :=
  running ← on_machine is_kernel_running;
  if running : bool then
    state ← on_machine load_state;
    echo [Lit "Kernel is running:"];;
    match state with
    | Some state =>
        echo [Lit "  Name: "; Str (kernel_name state)];;
        echo [Lit "  PID: "; Str (pid state)];;
        echo [Lit "  Connection file: "; Str (connection_file state)]
    | None => on_machine (raise (OtherError "AttributeError"))
    end
  else echo [Lit "No kernel is running."].

(** The [for] loop of [run]: the client, the saved images and the error
    count as they are when the loop ends or raises. *)
Fixpoint run_cells (filename : string) (timeout : option N)
    (cells_to_run : list CodeCell) (client : client)
    (all_saved_images : list Path) (error_count : N)
    : res (list Path * N) * list effect * Engine.client :=
  match cells_to_run with
  | [] => (Ok (all_saved_images, error_count), [], client)
  | cell :: rest =>
      match execute_code (source cell) client timeout with
      | (Raise e, client) => (Raise e, [], client)
      | (Ok output, client) =>
          match process_cell_output home isatty b64decode output cell
                  filename true with
          | (Raise e, t) => (Raise e, t, client)
          | (Ok saved_images, t) =>
              let '(r, t', client) :=
                run_cells filename timeout rest client
                  (all_saved_images ++ saved_images)
                  (if failed output then (error_count + 1)%N else error_count) in
              (r, t ++ t', client)
          end
      end
  end.

(** [--timeout] is an [int]; a negative one is left out, as it is in
    [execute_code]. *)
Definition run (file : string) (cells : option string) (timeout : option N)
    (kernel : string) : IO unit :=
  let file_path := joinpath [] file in
  let filename := get_file_stem file_path in
  (* Clear the cache directory for this file *)
  echo [Lit ("Clearing cache for " +:+ filename +:+ "...")];;
  on_terminal (clear_file_cache home filename);;
  (* Parse the QMD file *)
  all_cells ← io_try_except (on_terminal (wlift (parse_qmd file_path)))
                is_Exception
                (λ e, echo_err [Lit ("Error parsing " +:+ file +:+ ": "); Why e];;
                      sys_exit 1);
  if bool_decide (all_cells = []) then
    echo [Lit ("No code cells found in " +:+ file)]
  else
    echo [Lit ("Found " +:+ pretty (length all_cells) +:+ " code cell(s) in "
               +:+ file)];;
    (* Filter cells if specified *)
    cells_to_run ←
      match cells with
      | Some cells =>
          if truthy (PStr cells) then
            let selectors := str_strip <$> str_split "," cells in
            io_try_except
              (on_terminal (wlift (filter_cells all_cells selectors)))
              is_ValueError
              (λ e, echo_err [Lit "Error: "; Why e];; sys_exit 1)
          else mret all_cells
      | None => mret all_cells
      end;
    echo [Lit ("Running " +:+ pretty (length cells_to_run) +:+ " cell(s)...")];;
    (* Check if we need to start a temporary kernel *)
    had_kernel ← on_machine is_kernel_running;
    temp_kernel ←
      (if negb had_kernel then
         echo [Lit ("Starting temporary " +:+ kernel +:+ " kernel...")];;
         io_try_except
           (on_machine (start_kernel km_start_kernel kernel);; mret true)
           is_RuntimeError
           (λ e, echo_err [Lit "Error starting kernel: "; Why e];; sys_exit 1)
       else mret false);
    (* Get a client connection *)
    client ← io_try_except (on_machine (get_client connect None timeout))
               is_RuntimeError
               (λ e, echo_err [Lit "Error connecting to kernel: "; Why e];;
                     (if temp_kernel : bool then
                        on_machine (stop_kernel km_shutdown_kernel);; mret ()
                      else mret ());;
                     sys_exit 1);
    (* Execute cells and collect results *)
    let '(r, t, client) := run_cells filename timeout cells_to_run client [] 0%N in
    '(all_saved_images, error_count) ←
      io_try_finally (on_terminal (r, t))
        ((* Clean up client *)
         on_machine (stop_channels client);;
         (* Stop temporary kernel if we started one *)
         if temp_kernel : bool then
           echo [Lit (nl +:+ "Stopping temporary kernel...")];;
           on_machine (stop_kernel km_shutdown_kernel);; mret ()
         else mret ());
    (* Print summary *)
    on_terminal (print_summary (N.of_nat (length cells_to_run))
                   all_saved_images error_count);;
    (* Exit with error code if there were errors *)
    if bool_decide (0 < error_count)%N then sys_exit 1 else mret ().

End WithCollaborators.

End Cli.
Import Cli.

Module CliSpec.

(** The machine a command leaves behind, and how the command ends. *)
Definition machine_after {A} (m : IO A) (w : world) : world := (m w).2.

Definition outcome {A} (m : IO A) (w : world) : ctl A := (m w).1.1.

(** The outputs of the cells of a batch, each request made on the client
    as the request before left it, up to the first request that raises. *)
Fixpoint outputs (timeout : option N) (cells : list CodeCell) (c : client)
    : list CellOutput :=
  match cells with
  | [] => []
  | cell :: rest =>
      match execute_code (source cell) c timeout with
      | (Ok output, c') => output :: outputs timeout rest c'
      | (Raise _, _) => []
      end
  end.

(** The cells a batch is asked to run: all of them when no selectors are
    given, or an empty text. *)
Definition selected (filter_cells : list CodeCell → list string → res (list CodeCell))
    (all_cells : list CodeCell) (cells : option string) : res (list CodeCell) :=
  match cells with
  | Some text =>
      if bool_decide (text = EmptyString) then Ok all_cells
      else filter_cells all_cells (str_strip <$> str_split "," text)
  | None => Ok all_cells
  end.

Section WithCollaborators.

Variable km_start_kernel : string → M (string * Z).
Variable km_shutdown_kernel : pyval → M unit.
Variable connect : pyval → N → M client.
Variable stop_channels : client → M unit.
Variable home : Path.
Variable isatty : bool.
Variable b64decode : string → res (list Byte.byte).

(** The images of one cell of the batch. *)
Definition cell_images (filename : string) (cell : CodeCell)
    (output : CellOutput) : list Path :=
  images_from (get_cell_cache_dir home filename cell)
    (bool_decide (1 < length (display_data output))%nat) 0
    (display_data output).

(** What [run] does once it knows the cells to run: from the check for a
    running kernel to the end. *)
Definition session (filename : string) (timeout : option N) (kernel : string)
    (cells_to_run : list CodeCell) : IO unit :=
  had_kernel ← on_machine is_kernel_running;
  temp_kernel ←
    (if negb had_kernel then
       echo [Lit ("Starting temporary " +:+ kernel +:+ " kernel...")];;
       io_try_except
         (on_machine (start_kernel km_start_kernel kernel);; mret true)
         is_RuntimeError
         (λ e, echo_err [Lit "Error starting kernel: "; Why e];; sys_exit 1)
     else mret false);
  client ← io_try_except (on_machine (get_client connect None timeout))
             is_RuntimeError
             (λ e, echo_err [Lit "Error connecting to kernel: "; Why e];;
                   (if temp_kernel : bool then
                      on_machine (stop_kernel km_shutdown_kernel);; mret ()
                    else mret ());;
                   sys_exit 1);
  let '(r, t, client) :=
    run_cells home isatty b64decode filename timeout cells_to_run client [] 0%N in
  '(all_saved_images, error_count) ←
    io_try_finally (on_terminal (r, t))
      (on_machine (stop_channels client);;
       if temp_kernel : bool then
         echo [Lit (nl +:+ "Stopping temporary kernel...")];;
         on_machine (stop_kernel km_shutdown_kernel);; mret ()
       else mret ());
  on_terminal (print_summary (N.of_nat (length cells_to_run))
                 all_saved_images error_count);;
  if bool_decide (0 < error_count)%N then sys_exit 1 else mret ().

End WithCollaborators.

End CliSpec.
Import CliSpec.

Module Studio.
Import Samples Wiring Gallery.

Definition stem (p : Path) : string := "report".

Definition setup : CodeCell := mkCodeCell 0 (Some "setup") "import math".
Definition answer : CodeCell := mkCodeCell 1 None "6 * 7".

Definition parse_two (p : Path) : res (list CodeCell) := Ok [setup; answer].

Definition parse_nothing (p : Path) : res (list CodeCell) := Ok [].

Definition unreadable (p : Path) : res (list CodeCell) :=
  Raise (OtherError "UnicodeDecodeError").

(** A selector that knows the two cells by index and by label. *)
Definition pick (all_cells : list CodeCell) (selectors : list string)
    : res (list CodeCell) :=
  foldr (λ sel rest,
           picked ← rest;
           if bool_decide (sel = "0" ∨ sel = "setup") then Ok (setup :: picked)
           else if bool_decide (sel = "1") then Ok (answer :: picked)
           else Raise (OtherError "ValueError"))
        (Ok []) selectors.

(** A transport whose client serves two requests, and one whose first
    request fails. *)
Definition attach_two (file : pyval) (ready : N) : M client := λ w,
  (Ok two_requests, w).

Definition failing_first : client :=
  mkClient ["req-1"; "req-2"]
    [ Arrival 1 (error_msg "req-1" "NameError" "name 'math' is not defined");
      Arrival 1 (status_msg "req-1" "idle");
      Arrival 1 (stream_msg "req-2" "stdout" "42");
      Arrival 1 (status_msg "req-2" "idle") ].

Definition attach_failing (file : pyval) (ready : N) : M client := λ w,
  (Ok failing_first, w).

(** A transport that does not find the connection file. *)
Definition attach_lost (file : pyval) (ready : N) : M client := λ w,
  (Raise (OtherError "FileNotFoundError"), w).

End Studio.

(** * Properties *)

(** Unfolds the sequencing of the two monads down to case analyses. *)
Ltac run :=
  repeat (unfold mbind, mret, M_bind, M_ret, res_bind, res_ret, try_except, lift,
            raise, state_file_exists, state_file_read_json, state_file_unlink,
            state_file_write_json, clear_state, save_state, path_exists in *;
          cbn beta iota zeta in *).

(** ** Session store *)

Module StoreTheory.
Import Samples.

Lemma forget_absent w : state_file w = None → forget w = w.
Proof. destruct w; simpl; intros ->; done. Qed.

Lemma os_kill_probe w p :
  os_kill p Sig0 w =
    match as_pid p with
    | Raise e => (Raise e, w)
    | Ok z =>
        match procs w !! z with
        | Some Ours => (Ok (), w)
        | Some Foreign => (Raise PermissionError, w)
        | None => (Raise ProcessLookupError, w)
        end
    end.
Proof.
  unfold os_kill. destruct (as_pid p) as [z|]; [|done].
  by destruct (procs w !! z) as [[]|].
Qed.

Lemma as_pid_raises p e : as_pid p = Raise e → e = TypeError ∨ e = OverflowError.
Proof.
  destruct p; simpl; try (intros [= <-]; auto).
  case_bool_decide; intros [= <-]; auto.
Qed.

Lemma new_KernelState_raises v e : new_KernelState v = Raise e → e = TypeError.
Proof.
  destruct v; simpl; try by intros [= <-].
  repeat case_match; by intros [= <-].
Qed.

(** [asdict] followed by [KernelState( **data)] gives the record back: what
    [save_state] writes is what [load_state] parses. *)
Lemma new_KernelState_asdict state :
  new_KernelState (PDict (asdict state)) = Ok state.
Proof.
  destruct state as [c k p]. unfold new_KernelState, asdict. simpl.
  rewrite lookup_insert_eq.
  rewrite lookup_insert_ne, lookup_insert_eq by done.
  rewrite !lookup_insert_ne, lookup_insert_eq by done.
  rewrite bool_decide_eq_true_2; [done|].
  by rewrite !map_size_insert_None, map_size_empty.
Qed.

(** The outcome of [load_state], one case per path through its two
    [try] blocks. *)
Lemma load_state_unfold w :
  load_state w =
    match state_file w with
    | None => (Ok None, w)
    | Some Unreadable => (Raise PermissionError, w)
    | Some NotText => (Raise (OtherError "UnicodeDecodeError"), w)
    | Some NotJson => (Ok None, forget w)
    | Some TooDeep => (Raise (OtherError "RecursionError"), w)
    | Some TooManyDigits => (Raise (OtherError "ValueError"), w)
    | Some (Json v) =>
        match new_KernelState v with
        | Raise _ => (Ok None, forget w)
        | Ok state =>
            match as_pid (pid state) with
            | Raise OverflowError => (Raise OverflowError, w)
            | Raise _ => (Ok None, forget w)
            | Ok z =>
                if bool_decide (procs w !! z = Some Ours)
                then if resolves w (connection_file state)
                     then (Ok (Some state), w) else (Ok None, forget w)
                else (Ok None, forget w)
            end
        end
    end.
Proof.
  destruct w as [[[| | | | |v]|] pr pa lk]; unfold load_state; run;
    unfold forget; simpl; try done.
  destruct (new_KernelState v) as [state|e] eqn:Hn; simpl.
  - rewrite os_kill_probe.
    destruct (as_pid (pid state)) as [z|e] eqn:Hp; simpl.
    + destruct (pr !! z) as [[]|] eqn:Hz; simpl; try done.
      unfold resolves. destruct (connection_file state); simpl; try done.
      by case_bool_decide.
    + destruct (as_pid_raises _ _ Hp) as [-> | ->]; done.
  - by rewrite (new_KernelState_raises _ _ Hn).
Qed.

Lemma load_state_Some_inv w state w' :
  load_state w = (Ok (Some state), w') →
  recorded w = Some state ∧ signalable w (pid state) = true
  ∧ resolves w (connection_file state) = true ∧ w' = w.
Proof.
  rewrite load_state_unfold. unfold recorded, signalable.
  destruct (state_file w) as [[| | | | |v]|]; try done.
  destruct (new_KernelState v) as [st|]; try done.
  destruct (as_pid (pid st)) as [z|[]] eqn:Hp; try done.
  case_bool_decide; try done.
  destruct (resolves w (connection_file st)) eqn:Hr; try done.
  intros [= <- <-]. rewrite Hp, Hr. by rewrite bool_decide_eq_true_2.
Qed.

Lemma load_state_Some w state :
  recorded w = Some state → signalable w (pid state) = true →
  resolves w (connection_file state) = true →
  load_state w = (Ok (Some state), w).
Proof.
  rewrite load_state_unfold. unfold recorded, signalable.
  destruct (state_file w) as [[| | | | |v]|]; try done.
  destruct (new_KernelState v) as [st|]; try done.
  intros [= ->]. destruct (as_pid (pid state)) as [z|]; try done.
  intros ->%bool_decide_eq_true. by intros ->.
Qed.

Lemma load_state_None_inv w w' :
  load_state w = (Ok None, w') → w' = forget w.
Proof.
  rewrite load_state_unfold.
  destruct (state_file w) as [[| | | | |v]|] eqn:Hf; try discriminate.
  - by intros [= <-].
  - repeat case_match; by intros [= <-].
  - intros [= <-]. by rewrite forget_absent.
Qed.

Lemma load_state_absent w : state_file w = None → load_state w = (Ok None, w).
Proof. intros Hf. by rewrite load_state_unfold, Hf. Qed.

(** [save_state] replaces whatever the state file held by the record. *)
Lemma save_state_overwrites state w :
  save_state state w = (Ok (), persisted state w)
  ∧ recorded (persisted state w) = Some state.
Proof.
  split; [done|]. unfold recorded, persisted. cbn [state_file].
  by rewrite new_KernelState_asdict.
Qed.

(** C7, as amended. [load_state] returns the parsed record exactly when
    the state file holds a JSON object with exactly the three fields, the
    null signal can be delivered to the recorded process id, and the
    connection handle names an existing file; the machine is then left as
    it was. When the state file is absent or holds text, be it JSON or
    not, every other case (no file, no JSON, another shape, a probe that
    fails because the process does not exist or may not be signalled or
    because the recorded id is not an integer, a handle that does not
    resolve) returns [None] and the state file is gone, everything else
    being untouched. A state file that cannot be read, decoded or parsed
    for another reason than not being JSON, and a recorded process id
    outside the range of a C [int], are left out of the second part. *)
Theorem load_state_self_healing (w : world) :
  (∀ state w',
     load_state w = (Ok (Some state), w') ↔
     recorded w = Some state ∧ signalable w (pid state) = true
     ∧ resolves w (connection_file state) = true ∧ w' = w)
  ∧ (legible w = true → pid_fits w = true →
     (recorded w = None
      ∨ ∃ state, recorded w = Some state
                 ∧ (signalable w (pid state) = false
                    ∨ resolves w (connection_file state) = false)) →
     load_state w = (Ok None, forget w) ∧ state_file (forget w) = None).
Proof.
  split.
  - intros state w'. split; [apply load_state_Some_inv|].
    intros (Hr & Hs & Hc & ->). by apply load_state_Some.
  - intros Hleg Hfit Hbad. split; [|done].
    rewrite load_state_unfold.
    unfold legible, pid_fits, recorded, signalable in *.
    destruct (state_file w) as [[| | | | |v]|] eqn:Hf; try done.
    + destruct (new_KernelState v) as [st|]; try done.
      destruct Hbad as [|(state & Hs & Hbad)]; [done|]. injection Hs as <-.
      destruct (as_pid (pid st)) as [z|[]]; try done.
      destruct Hbad as [-> | ->]; [done|]. by case_bool_decide.
    + by rewrite forget_absent.
Qed.

(** A live kernel is loaded; a dead one and a garbled file are forgotten. *)
Lemma load_state_self_healing_witness :
  load_state running = (Ok (Some kernel_4242), running)
  ∧ (load_state stale = (Ok None, forget stale)
     ∧ state_file (forget stale) = None)
  ∧ (load_state garbled = (Ok None, forget garbled)
     ∧ state_file (forget garbled) = None).
Proof.
  split; [|split].
  - apply (proj1 (load_state_self_healing running)).
    repeat split; reflexivity.
  - apply (proj2 (load_state_self_healing stale)); [reflexivity..|].
    right. exists kernel_4242. split; [reflexivity|]. left. reflexivity.
  - apply (proj2 (load_state_self_healing garbled)); [reflexivity..|].
    left. reflexivity.
Defined.

(** C7 as stated fails when the recorded process id has been taken over by
    a process of another user: the record is well formed, a process with
    that id exists and the connection handle resolves, so every check the
    claim lists passes; yet the probe raises [PermissionError], an
    [OSError], and [load_state] deletes the record and returns [None]. *)
Lemma load_state_forgets_unsignalable_kernel :
  recorded reused_pid = Some kernel_4242
  ∧ process_exists reused_pid (pid kernel_4242) = true
  ∧ resolves reused_pid (connection_file kernel_4242) = true
  ∧ load_state reused_pid = (Ok None, forget reused_pid)
  ∧ state_file reused_pid ≠ state_file (forget reused_pid).
Proof. repeat split; try reflexivity. discriminate. Qed.

(** A process id that does not fit a C [int] makes the probe raise
    [OverflowError], which neither [except] clause names. *)
Lemma load_state_huge_pid : load_state huge_pid = (Raise OverflowError, huge_pid).
Proof. reflexivity. Qed.

(** Nor do they name [UnicodeDecodeError]: a state file whose bytes are
    not text makes [load_state] raise, and the file stays. *)
Lemma load_state_undecodable :
  load_state scrambled = (Raise (OtherError "UnicodeDecodeError"), scrambled).
Proof. reflexivity. Qed.

(** [load_state] raises only what the reading of the state file or the
    probe raises and no [except] clause names; the machine is then as it
    was. *)
Lemma load_state_raises w e w1 :
  load_state w = (Raise e, w1) →
  w1 = w ∧ (legible w = false ∨ pid_fits w = false)
  ∧ e ∈ [PermissionError; OtherError "UnicodeDecodeError";
         OtherError "RecursionError"; OtherError "ValueError"; OverflowError].
Proof.
  rewrite load_state_unfold. unfold legible, pid_fits, recorded.
  destruct (state_file w) as [[| | | | |v]|]; try discriminate;
    try (intros [= <- <-]; split; [done|]; split; [by left|];
         rewrite !elem_of_cons; tauto).
  destruct (new_KernelState v) as [st|]; [|discriminate].
  destruct (as_pid (pid st)) as [z|[]]; try discriminate.
  - by repeat case_match.
  - intros [= <- <-]. split; [done|]. split; [by right|].
    rewrite !elem_of_cons. tauto.
Qed.

End StoreTheory.
Import StoreTheory.

(** ** Session supervisor *)

Module SupervisorTheory.
Import Samples.

Section WithKernelManager.

Variable km_start_kernel : string → M (string * Z).
Variable km_shutdown_kernel : pyval → M unit.

Lemma os_kill_raises p sig w e w' :
  is_Ok (as_pid p) = true → os_kill p sig w = (Raise e, w') →
  is_OSError e = true.
Proof.
  unfold os_kill. destruct (as_pid p) as [z|]; [|done]. intros _.
  destruct (procs w !! z) as [[]|]; [destruct sig| |]; by intros [= <- <-].
Qed.

Lemma stop_kernel_not_running w w1 :
  load_state w = (Ok None, w1) →
  stop_kernel km_shutdown_kernel w = (Ok false, w1).
Proof. intros H. unfold stop_kernel. run. by rewrite H. Qed.

Lemma stop_kernel_raises w e w1 :
  load_state w = (Raise e, w1) →
  stop_kernel km_shutdown_kernel w = (Raise e, w1).
Proof. intros H. unfold stop_kernel. run. by rewrite H. Qed.

(** Whatever the three teardown steps do, the last step clears the store. *)
Lemma stop_kernel_running w state w1 :
  load_state w = (Ok (Some state), w1) →
  ∃ w2, stop_kernel km_shutdown_kernel w = (Ok true, forget w2).
Proof.
  intros H. destruct (load_state_Some_inv _ _ _ H) as (_ & Hs & _ & _).
  assert (is_Ok (as_pid (pid state)) = true) as Hp.
  { unfold signalable in Hs. by destruct (as_pid (pid state)). }
  unfold stop_kernel. run. rewrite H.
  destruct (km_shutdown_kernel (connection_file state) w1) as [[[]|e] wa]; simpl.
  - destruct (path_unlink (connection_file state) wa) as [[[]|e] wb]; simpl;
      by eexists.
  - destruct (os_kill (pid state) SIGTERM wa) as [[[]|e'] wb] eqn:Hk; simpl.
    + destruct (path_unlink (connection_file state) wb) as [[[]|e'] wc]; simpl;
        by eexists.
    + rewrite (os_kill_raises _ _ _ _ _ Hp Hk).
      destruct (path_unlink (connection_file state) wb) as [[[]|e''] wc]; simpl;
        by eexists.
Qed.

Lemma is_kernel_running_absent w :
  state_file w = None → is_kernel_running w = (Ok false, w).
Proof.
  intros Hf. unfold is_kernel_running. run. by rewrite load_state_absent.
Qed.

(** C5, as amended. When [load_state] returns no record, [stop_kernel]
    returns [False] and touches neither a process nor a connection file:
    the machine is as [load_state] left it, that is unchanged when there
    was no state file and without its state file otherwise. When
    [load_state] returns a record, [stop_kernel] returns [True] whatever
    the graceful shutdown, the termination signal and the removal of the
    connection file do. After any [stop_kernel] that returns, the store
    holds no record, [is_kernel_running] is [False] and a second
    [stop_kernel] returns [False] and changes nothing. *)
Theorem stop_kernel_clears_store (w : world) :
  (∀ w1, load_state w = (Ok None, w1) →
     stop_kernel km_shutdown_kernel w = (Ok false, w1)
     ∧ procs w1 = procs w ∧ paths w1 = paths w ∧ locked w1 = locked w
     ∧ (state_file w = None → w1 = w))
  ∧ (∀ state w1, load_state w = (Ok (Some state), w1) →
     ∃ w2, stop_kernel km_shutdown_kernel w = (Ok true, w2))
  ∧ (∀ b w2, stop_kernel km_shutdown_kernel w = (Ok b, w2) →
     state_file w2 = None
     ∧ is_kernel_running w2 = (Ok false, w2)
     ∧ stop_kernel km_shutdown_kernel w2 = (Ok false, w2)).
Proof.
  split; [|split].
  - intros w1 H. split; [by apply stop_kernel_not_running|].
    rewrite (load_state_None_inv _ _ H). repeat split; try done.
    apply forget_absent.
  - intros state w1 H. destruct (stop_kernel_running _ _ _ H) as [w2 Hs]. eauto.
  - intros b w2 Hstop.
    assert (state_file w2 = None) as Hf.
    { destruct (load_state w) as [[[state|]|e] w1] eqn:H.
      - destruct (stop_kernel_running _ _ _ H) as [w3 Hs].
        rewrite Hs in Hstop. by injection Hstop as <- <-.
      - rewrite (stop_kernel_not_running _ _ H) in Hstop.
        injection Hstop as <- <-. by rewrite (load_state_None_inv _ _ H).
      - by rewrite (stop_kernel_raises _ _ _ H) in Hstop. }
    split; [done|]. split; [by apply is_kernel_running_absent|].
    apply stop_kernel_not_running. by apply load_state_absent.
Qed.

Lemma start_kernel_existing name w state w1 :
  load_state w = (Ok (Some state), w1) →
  start_kernel km_start_kernel name w
  = (Raise (RuntimeError already_running), w).
Proof.
  intros H. destruct (load_state_Some_inv _ _ _ H) as (_ & _ & _ & ->).
  unfold start_kernel. run. by rewrite H.
Qed.

Lemma attempts_existing n name w state w1 :
  load_state w = (Ok (Some state), w1) →
  attempts km_start_kernel n name w
  = (replicate n (Raise (RuntimeError already_running)), w).
Proof.
  intros H. induction n as [|n IH]; simpl; [done|].
  by rewrite (start_kernel_existing _ _ _ _ H), IH.
Qed.

Lemma start_kernel_fresh name w w1 file child w2 :
  load_state w = (Ok None, w1) →
  km_start_kernel name w1 = (Ok (file, child), w2) →
  start_kernel km_start_kernel name w
  = (Ok (mkKernelState (PStr file) (PStr name) (PInt child)),
     persisted (mkKernelState (PStr file) (PStr name) (PInt child)) w2).
Proof. intros H Hk. unfold start_kernel. run. by rewrite H, Hk. Qed.

(** C6. When [load_state] returns a record, [start_kernel] raises the
    "already running" [RuntimeError] and leaves the machine, the persisted
    record included, as it was; so does every further call. When
    [load_state] returns [None] and the kernel manager starts a process,
    [start_kernel] returns the record made of the connection file, the
    kernel name and the process id, and the state file holds that record;
    as long as that process can be signalled and its connection file
    exists, [load_state] returns the record again and calling
    [start_kernel] once more fails, any number of times. *)
Theorem start_kernel_already_running (name : string) (w : world) :
  (∀ state w1, load_state w = (Ok (Some state), w1) →
     start_kernel km_start_kernel name w
     = (Raise (RuntimeError already_running), w)
     ∧ ∀ n, attempts km_start_kernel n name w
            = (replicate n (Raise (RuntimeError already_running)), w))
  ∧ (∀ w1 file child w2,
       load_state w = (Ok None, w1) →
       km_start_kernel name w1 = (Ok (file, child), w2) →
       let state := mkKernelState (PStr file) (PStr name) (PInt child) in
       start_kernel km_start_kernel name w = (Ok state, persisted state w2)
       ∧ recorded (persisted state w2) = Some state
       ∧ (signalable w2 (PInt child) = true →
          resolves w2 (PStr file) = true →
          load_state (persisted state w2) = (Ok (Some state), persisted state w2)
          ∧ ∀ n, attempts km_start_kernel n name (persisted state w2)
                 = (replicate n (Raise (RuntimeError already_running)),
                    persisted state w2))).
Proof.
  split.
  - intros state w1 H. split; [by eapply start_kernel_existing|].
    intros n. by eapply attempts_existing.
  - intros w1 file child w2 H Hk state.
    split; [by eapply start_kernel_fresh|].
    pose proof (proj2 (save_state_overwrites state w2)) as Hrec.
    split; [done|]. intros Hs Hr.
    assert (load_state (persisted state w2)
            = (Ok (Some state), persisted state w2)) as Hload
      by by apply load_state_Some.
    split; [done|]. intros n. by eapply attempts_existing.
Qed.

End WithKernelManager.

(** Stopping [stubborn] when every teardown step fails: the graceful
    shutdown raises, the signal finds no process and the connection file
    cannot be removed; the record is cleared all the same. *)
Lemma stop_kernel_clears_store_witness :
  stop_kernel shutdown_breaks stale = (Ok false, forget stale)
  ∧ procs (forget stale) = procs stale
  ∧ paths (forget stale) = paths stale
  ∧ stop_kernel shutdown_breaks idle_machine = (Ok false, idle_machine)
  ∧ (∃ w2, stop_kernel shutdown_breaks stubborn = (Ok true, w2))
  ∧ state_file torn_down = None
  ∧ is_kernel_running torn_down = (Ok false, torn_down)
  ∧ stop_kernel shutdown_breaks torn_down = (Ok false, torn_down).
Proof.
  destruct (proj1 (stop_kernel_clears_store shutdown_breaks stale)
              (forget stale) eq_refl) as (Hs & Hp & Hf & _).
  destruct (proj1 (stop_kernel_clears_store shutdown_breaks idle_machine)
              idle_machine eq_refl) as (Hi & _).
  pose proof (proj1 (proj2 (stop_kernel_clears_store shutdown_breaks stubborn))
                kernel_4242 stubborn eq_refl) as Hr.
  destruct (proj2 (proj2 (stop_kernel_clears_store shutdown_breaks stubborn))
              true torn_down eq_refl) as (Hn & Hq & Ha).
  exact (conj Hs (conj Hp (conj Hf (conj Hi (conj Hr (conj Hn
           (conj Hq Ha))))))).
Defined.

(** C5 as stated fails on a stale record: no record is loadable, and
    [stop_kernel] returns [False], but the state file that was there is
    gone afterwards, removed by the [load_state] it starts with. *)
Lemma stop_kernel_removes_stale_record :
  load_state stale = (Ok None, forget stale)
  ∧ stop_kernel shutdown_breaks stale = (Ok false, forget stale)
  ∧ state_file stale = Some (Json (PDict (asdict kernel_4242)))
  ∧ state_file (forget stale) = None
  ∧ forget stale ≠ stale.
Proof. repeat split; try reflexivity. discriminate. Qed.

(** Starting on a machine with a live kernel fails three times in a row;
    starting on an idle machine persists the new record, and a second
    start then fails. *)
Lemma start_kernel_already_running_witness :
  start_kernel spawn_7 "python3" running
  = (Raise (RuntimeError already_running), running)
  ∧ attempts spawn_7 3 "python3" running
    = (replicate 3 (Raise (RuntimeError already_running)), running)
  ∧ start_kernel spawn_7 "python3" idle_machine
    = (Ok kernel_7, persisted kernel_7 spawned_7)
  ∧ recorded (persisted kernel_7 spawned_7) = Some kernel_7
  ∧ load_state (persisted kernel_7 spawned_7)
    = (Ok (Some kernel_7), persisted kernel_7 spawned_7)
  ∧ attempts spawn_7 2 "python3" (persisted kernel_7 spawned_7)
    = (replicate 2 (Raise (RuntimeError already_running)),
       persisted kernel_7 spawned_7).
Proof.
  destruct (proj1 (start_kernel_already_running spawn_7 "python3" running)
              kernel_4242 running eq_refl) as [Hfail Hagain].
  destruct (proj2 (start_kernel_already_running spawn_7 "python3" idle_machine)
              idle_machine "/run/user/kernel-7.json" 7 spawned_7
              eq_refl eq_refl) as (Hstart & Hrec & Hnext).
  destruct (Hnext eq_refl eq_refl) as [Hload Hsecond].
  exact (conj Hfail (conj (Hagain 3%nat) (conj Hstart (conj Hrec
           (conj Hload (Hsecond 2%nat)))))).
Defined.

End SupervisorTheory.
Import SupervisorTheory.

(** ** Execution engine *)

Module EngineTheory.
Import Samples.

(** *** The loop body, kind by kind *)

Lemma py_eq_str_true v s : py_eq_str v s = true ↔ v = PStr s.
Proof.
  destruct v; simpl; try (split; [done | by intros [=]]).
  rewrite bool_decide_eq_true. split; [by intros -> | by intros [= ->]].
Qed.

Lemma vars_eta v :
  Loop.mkVars (Loop.stdout_parts v) (Loop.stderr_parts v) (Loop.result v)
    (Loop.display_data v) (Loop.error v) = v.
Proof. by destruct v. Qed.

(** The chain of comparisons on [msg_type] amounts to computing the kind. *)
Lemma kind_of_spec ty s :
  s ∈ ["stream"; "execute_result"; "display_data"; "error"; "status"] →
  py_eq_str ty s = bool_decide (kind_name (kind_of ty) = Some s).
Proof.
  intros Hs. unfold kind_of.
  destruct (py_eq_str ty "stream") eqn:H1;
    [|destruct (py_eq_str ty "execute_result") eqn:H2;
      [|destruct (py_eq_str ty "display_data") eqn:H3;
        [|destruct (py_eq_str ty "error") eqn:H4;
          [|destruct (py_eq_str ty "status") eqn:H5]]]];
  try (match goal with H : py_eq_str _ _ = true |- _ =>
         apply py_eq_str_true in H; subst ty end; simpl;
       repeat case_bool_decide; simplify_eq; done).
  simpl. rewrite ?bool_decide_eq_false_2 by done.
  set_unfold. destruct Hs as [->|[->|[->|[->|[->|[]]]]]]; done.
Qed.

Ltac by_kind m :=
  rewrite ?(kind_of_spec (msg_type m)) by set_solver;
  destruct (kind_of (msg_type m)); simpl.

Ltac crunch := repeat (first [progress simpl | case_match]); simplify_eq.

Ltac use_lookups :=
  repeat match goal with
         | H : content _ !! _ = _ |- _ => rewrite ?H; clear H
         end.

Ltac str_clash :=
  match goal with
  | H1 : py_eq_str ?v ?s1 = true, H2 : py_eq_str ?v ?s2 = true |- _ =>
      apply py_eq_str_true in H1; apply py_eq_str_true in H2; congruence
  end.

(** The check at the head of the loop body compares the back-reference of
    the notification with the token of the request. *)
Lemma own_matching tok m : own tok m = true ↔ matching tok m.
Proof.
  unfold own, matching, back_reference.
  destruct (parent_header m) as [ph|]; simpl.
  - destruct (ph !! "msg_id") as [v|]; [|done].
    rewrite py_eq_str_true. split; [by intros -> | by intros [= ->]].
  - by rewrite lookup_empty.
Qed.

Lemma own_not_matching tok m : ¬ matching tok m → own tok m = false.
Proof.
  intros Hm. destruct (own tok m) eqn:Ho; [|done].
  by apply own_matching in Ho.
Qed.

(** A notification for another request goes through [continue]. *)
Lemma handle_foreign tok m v : own tok m = false → handle tok m v = Ok (Next v).
Proof. intros H. unfold handle. by rewrite H. Qed.

Lemma field_is_true m k s :
  field_is m k s = true ↔ content m !! k = Some (PStr s).
Proof.
  unfold field_is. destruct (content m !! k) as [v|]; [|done].
  rewrite py_eq_str_true. split; [by intros -> | by intros [= ->]].
Qed.

(** The completion signal the loop looks for is the one of the
    specification. *)
Lemma is_idle_completes tok m : is_idle tok m = true ↔ completes tok m.
Proof.
  unfold is_idle, answers, completes.
  rewrite !andb_true_iff, own_matching, py_eq_str_true, field_is_true.
  tauto.
Qed.

(** The only [break] of the loop body is the one for the idle status. *)
Lemma handle_Stop tok m v v' :
  handle tok m v = Ok (Stop v') ↔ is_idle tok m = true ∧ v' = v.
Proof.
  unfold handle, is_idle, answers, field_is, subscript.
  destruct (own tok m); simpl; [|split; [done | by intros [[=] _]]].
  by_kind m; crunch;
    try (split; [done | by intros [[=] _]]);
    try (split; [by intros [= <-] | by intros [_ ->]]).
Qed.

(** A status notification of the request that reports another state than
    idle changes nothing. *)
Lemma handle_other_status tok m v state :
  matching tok m → msg_type m = PStr "status" →
  content m !! "execution_state" = Some state → state ≠ PStr "idle" →
  handle tok m v = Ok (Next v).
Proof.
  intros Hm Hty Hst Hne. unfold handle, subscript.
  rewrite (proj2 (own_matching tok m) Hm), Hty, Hst. simpl.
  destruct (py_eq_str state "idle") eqn:Hi; [|done].
  by apply py_eq_str_true in Hi.
Qed.

Lemma collect_nil tok v : collect tok [] v = v.
Proof. unfold collect. simpl. rewrite !app_nil_r. apply vars_eta. Qed.

(** A turn of the loop that goes on has updated the variables the way
    [collect] reads them off the notification. *)
Lemma handle_Next tok m v v' :
  handle tok m v = Ok (Next v') → v' = collect tok [m] v.
Proof.
  unfold handle, collect, stream_texts, payloads, failures, failure_of, answers,
    field_is, subscript.
  destruct (own tok m) eqn:Ho; simpl; rewrite ?Ho; simpl.
  - by_kind m; crunch; intros; simplify_eq; simpl; try str_clash;
      use_lookups; simpl; by rewrite ?app_nil_r, ?vars_eta.
  - intros [= <-]. simpl. by rewrite !app_nil_r, vars_eta.
Qed.

Lemma has_Some msg k ty :
  has msg k ty = true → ∃ x, content msg !! k = Some x ∧ ty x = true.
Proof. unfold has. destruct (content msg !! k); [eauto|done]. Qed.

(** The loop body raises on no notification that follows the protocol. *)
Lemma conforms_handle tok m v : conforms m = true → is_Ok (handle tok m v) = true.
Proof.
  unfold conforms, handle, subscript. destruct (own tok m); simpl; [|done].
  repeat (match goal with
          | |- context [py_eq_str (msg_type m) ?s] =>
              destruct (py_eq_str (msg_type m) s) eqn:?; simpl
          end); try done;
  rewrite ?andb_true_iff; intros H; destruct_and?;
  repeat match goal with
         | H : has _ _ _ = true |- _ => apply has_Some in H as (? & -> & ?)
         end; simpl; try done.
  all: by repeat case_match.
Qed.

Lemma collect_cons tok m ms v :
  collect tok (m :: ms) v = collect tok ms (collect tok [m] v).
Proof.
  unfold collect, stream_texts, payloads, failures.
  change (m :: ms) with ([m] ++ ms).
  rewrite !List.filter_app, !fmap_app.
  cbn [Loop.stdout_parts Loop.stderr_parts Loop.result Loop.display_data
       Loop.error].
  rewrite !last_app, <- !app_assoc. f_equal.
  - by destruct (last (_ <$> List.filter _ ms)).
  - by destruct (last (_ <$> List.filter _ ms)).
Qed.

(** *** The loop *)

Lemma collect_app tok ms1 ms2 v :
  collect tok (ms1 ++ ms2) v = collect tok ms2 (collect tok ms1 v).
Proof.
  revert v. induction ms1 as [|m ms1 IH]; intros v; simpl.
  - by rewrite collect_nil.
  - by rewrite collect_cons, IH, <- collect_cons.
Qed.

(** [receive_loop] is the loop of the source: receive, leave on any
    exception, run the body otherwise. *)
Lemma receive_loop_unfold t tok ch v :
  receive_loop t tok ch v =
    match get_iopub_msg t ch with
    | (Raise _, ch') => (Ok v, ch')
    | (Ok msg, ch') =>
        match handle tok msg v with
        | Ok (Next v') => receive_loop t tok ch' v'
        | Ok (Stop v') => (Ok v', ch')
        | Raise e => (Raise e, ch')
        end
    end.
Proof.
  destruct ch as [|[wait msg|e] rest]; simpl; try done.
  by destruct (wait <=? t)%N.
Qed.

Lemma receive_loop_idle t tok wait m rest v :
  (wait ≤ t)%N → is_idle tok m = true →
  receive_loop t tok (Arrival wait m :: rest) v = (Ok v, rest).
Proof.
  intros Hw Hi. simpl. rewrite (proj2 (N.leb_le _ _) Hw).
  by rewrite (proj2 (handle_Stop tok m v v) (conj Hi eq_refl)).
Qed.

Lemma receive_loop_late t tok wait m rest v :
  (t < wait)%N →
  receive_loop t tok (Arrival wait m :: rest) v
  = (Ok v, Arrival (wait - t) m :: rest).
Proof. intros Hw. simpl. by rewrite (proj2 (N.leb_gt _ _) Hw). Qed.

(** When the loop ends normally, its variables are what [collect] reads
    off the notifications seen. *)
Lemma receive_loop_seen t tok ch v v' rest :
  receive_loop t tok ch v = (Ok v', rest) → v' = collect tok (seen t tok ch) v.
Proof.
  revert v. induction ch as [|[wait msg|e] ch IH]; intros v; simpl.
  - intros [= <- <-]. by rewrite collect_nil.
  - destruct (wait <=? t)%N; simpl; [|intros [= <- <-]; by rewrite collect_nil].
    destruct (handle tok msg v) as [[v1|v1]|e] eqn:Hh; [| |done].
    + assert (is_idle tok msg = false) as ->.
      { destruct (is_idle tok msg) eqn:Hi; [|done].
        assert (handle tok msg v = Ok (Stop v)) as Hs by by apply handle_Stop.
        congruence. }
      simpl. intros H.
      rewrite collect_cons, <- (handle_Next _ _ _ _ Hh). by apply IH.
    + apply handle_Stop in Hh as [-> ->]. simpl. intros [= <- <-].
      by rewrite collect_nil.
  - intros [= <- <-]. by rewrite collect_nil.
Qed.

(** A run of notifications that pass is consumed whole. *)
Lemma receive_loop_passes t tok pre tail v :
  Forall (λ x, passes t tok x = true) pre →
  receive_loop t tok (arrivals pre ++ tail) v
  = receive_loop t tok tail (collect tok pre.*2 v).
Proof.
  intros Hpre. revert v. induction Hpre as [|[wait m] pre Hp _ IH]; intros v.
  - by rewrite collect_nil.
  - unfold passes in Hp. simpl in Hp.
    apply andb_true_iff in Hp as [Hp Hi]. apply andb_true_iff in Hp as [Hw Hc].
    apply negb_true_iff in Hi.
    simpl. rewrite Hw.
    pose proof (conforms_handle tok m v Hc) as Hok.
    destruct (handle tok m v) as [[v1|v1]|e] eqn:Hh; [| |done].
    + rewrite IH, collect_cons. by rewrite <- (handle_Next _ _ _ _ Hh).
    + apply handle_Stop in Hh as [Hh _]. congruence.
Qed.

(** What follows the first receive that ends the loop does not matter. *)
Lemma receive_loop_tail t tok pre tail1 tail2 v :
  (∀ u, (receive_loop t tok tail1 u).1 = Ok u) →
  (∀ u, (receive_loop t tok tail2 u).1 = Ok u) →
  (receive_loop t tok (pre ++ tail1) v).1
  = (receive_loop t tok (pre ++ tail2) v).1.
Proof.
  intros H1 H2. revert v. induction pre as [|[wait m|e] pre IH]; intros v; simpl.
  - by rewrite H1, H2.
  - destruct (wait <=? t)%N; [|done].
    destruct (handle tok m v) as [[v1|v1]|e]; [apply IH|done..].
  - done.
Qed.

(** Notifications of other requests that are delivered in time can be
    struck off the channel. *)
Lemma receive_loop_drop_foreign t tok ch v :
  (receive_loop t tok (drop_foreign t tok ch) v).1 = (receive_loop t tok ch v).1.
Proof.
  revert v. induction ch as [|[wait m|e] ch IH]; intros v; [done| |done].
  unfold drop_foreign in *. rewrite filter_cons.
  destruct (decide (¬ foreign t tok (Arrival wait m))) as [Hf|Hf].
  - simpl. destruct (wait <=? t)%N; [|done].
    destruct (handle tok m v) as [[v1|v1]|e]; [apply IH|done..].
  - apply dec_stable in Hf as [Hw Hm].
    rewrite IH. simpl. rewrite (proj2 (N.leb_le _ _) Hw).
    by rewrite (handle_foreign _ _ _ (own_not_matching _ _ Hm)).
Qed.

(** Notifications that come before the completion signal, in the words of
    the specification, are those the loop passes over. *)
Lemma before_completion_passes t tok pre :
  Forall (before_completion t tok) pre →
  Forall (λ x, passes t tok x = true) pre.
Proof.
  intros Hpre. eapply Forall_impl; [exact Hpre|].
  intros [wait m] (Hw & Hc & Hn). unfold passes. simpl in *.
  rewrite (proj2 (N.leb_le _ _) Hw), Hc. simpl.
  destruct (is_idle tok m) eqn:Hi; [|done].
  by apply is_idle_completes in Hi.
Qed.

Lemma seen_prefix t tok ch : seen t tok ch `prefix_of` notifications ch.
Proof.
  induction ch as [|[wait m|e] ch IH]; simpl; [done| |apply prefix_nil].
  destruct ((wait <=? t)%N && negb (is_idle tok m)); [|apply prefix_nil].
  by apply prefix_cons.
Qed.

Lemma filter_prefix_length {A} (f : A → bool) (l k : list A) :
  l `prefix_of` k → (length (List.filter f l) ≤ length (List.filter f k))%nat.
Proof. intros [r ->]. rewrite List.filter_app, length_app. lia. Qed.

(** *** Building the output *)

Lemma append_empty_r (s : string) : s +:+ "" = s.
Proof.
  induction s as [|a s IH]; [done|].
  change (String a (s +:+ "") = String a s). by rewrite IH.
Qed.

Lemma concat_cons (s : string) ss :
  String.concat "" (s :: ss) = s +:+ String.concat "" ss.
Proof.
  destruct ss; [cbn [String.concat]; by rewrite append_empty_r | done].
Qed.

(** ["".join] returns the concatenation, and only on strings. *)
Lemma str_join_Ok parts s :
  str_join parts = Ok s → ∃ ss, parts = PStr <$> ss ∧ s = String.concat "" ss.
Proof.
  revert s. induction parts as [|x l IH]; intros s; simpl.
  - intros [= <-]. by exists [].
  - destruct x; try done.
    destruct (str_join l) as [t|] eqn:Ht; simpl; [|done].
    intros [= <-]. destruct (IH t eq_refl) as (ss & -> & ->).
    exists (s0 :: ss). by rewrite concat_cons.
Qed.

Lemma str_join_strs parts :
  Forall (λ x, is_str x = true) parts → is_Ok (str_join parts) = true.
Proof.
  induction 1 as [|x l Hx _ IH]; [done|]. destruct x; try done. simpl.
  by destruct (str_join l).
Qed.

Lemma conforms_stream_texts tok name ms :
  Forall (λ m, conforms m = true) ms →
  Forall (λ x, is_str x = true) (stream_texts tok name ms).
Proof.
  induction 1 as [|m ms Hm _ IH]; [constructor|].
  unfold stream_texts in *. simpl.
  destruct (answers tok "stream" m && field_is m "name" name) eqn:Ha; [|done].
  apply andb_true_iff in Ha as [Ha _]. unfold answers in Ha.
  apply andb_true_iff in Ha as [_ Hk].
  unfold conforms in Hm. rewrite Hk in Hm.
  apply andb_true_iff in Hm as [_ Ht]. apply has_Some in Ht as (x & Hx & Hs).
  rewrite fmap_cons. constructor; [|done]. by rewrite Hx.
Qed.

Lemma passes_conforms t tok pre :
  Forall (λ x, passes t tok x = true) pre →
  Forall (λ m, conforms m = true) pre.*2.
Proof.
  induction 1 as [|[wait m] pre Hp _ IH]; [constructor|].
  constructor; [|done]. unfold passes in Hp.
  apply andb_true_iff in Hp as [Hp _]. by apply andb_true_iff in Hp as [_ Hc].
Qed.

Lemma expected_Ok tok ms :
  Forall (λ m, conforms m = true) ms → ∃ out, expected tok ms = Ok out.
Proof.
  intros Hc. unfold expected, make_output, collect. simpl.
  pose proof (str_join_strs _ (conforms_stream_texts tok "stdout" ms Hc)) as H1.
  pose proof (str_join_strs _ (conforms_stream_texts tok "stderr" ms Hc)) as H2.
  destruct (str_join (stream_texts tok "stdout" ms)); [|done].
  destruct (str_join (stream_texts tok "stderr" ms)); [|done].
  simpl. eauto.
Qed.

Lemma make_output_Ok v out :
  make_output v = Ok out →
  str_join (Loop.stdout_parts v) = Ok (stdout out)
  ∧ str_join (Loop.stderr_parts v) = Ok (stderr out)
  ∧ result out = Loop.result v
  ∧ display_data out = Loop.display_data v
  ∧ error out = Loop.error v.
Proof.
  unfold make_output.
  destruct (str_join (Loop.stdout_parts v)); simpl; [|done].
  destruct (str_join (Loop.stderr_parts v)); simpl; [|done].
  by intros [= <-].
Qed.

(** *** [execute_code] *)

Lemma execute_code_unfold code c timeout tok ids :
  msg_ids c = tok :: ids →
  execute_code code c timeout =
    let '(r, ch) := receive_loop (py_or timeout 600) tok (iopub c) initial in
    (v ← r; make_output v, mkClient ids ch).
Proof. intros H. unfold execute_code, client_execute. by rewrite H. Qed.

(** A returned output is the one built from the notifications seen. *)
Lemma execute_code_Ok code c timeout tok ids out c' :
  msg_ids c = tok :: ids →
  execute_code code c timeout = (Ok out, c') →
  expected tok (seen (py_or timeout 600) tok (iopub c)) = Ok out.
Proof.
  intros Hids. rewrite (execute_code_unfold _ _ _ _ _ Hids).
  destruct (receive_loop _ tok (iopub c) initial) as [[v'|e] ch] eqn:Hl; simpl;
    [|done].
  intros [= Hout _]. unfold expected.
  by rewrite <- (receive_loop_seen _ _ _ _ _ _ Hl).
Qed.

(** On a channel whose notifications all follow the protocol the loop
    never raises, and [execute_code] returns an output. *)
Lemma receive_loop_conforms t tok ch v :
  Forall (λ m, conforms m = true) (notifications ch) →
  ∃ v' rest, receive_loop t tok ch v = (Ok v', rest).
Proof.
  revert v. induction ch as [|[wait m|e] ch IH]; intros v Hc; simpl.
  - by eauto.
  - apply Forall_cons in Hc as [Hm Hc].
    destruct (wait <=? t)%N; [|by eauto].
    pose proof (conforms_handle tok m v Hm) as Hok.
    destruct (handle tok m v) as [[v1|v1]|e]; [by apply IH | by eauto | done].
  - by eauto.
Qed.

Lemma execute_code_returns code c timeout tok ids :
  msg_ids c = tok :: ids →
  Forall (λ m, conforms m = true) (notifications (iopub c)) →
  ∃ out c', execute_code code c timeout = (Ok out, c').
Proof.
  intros Hids Hc. rewrite (execute_code_unfold _ _ _ _ _ Hids).
  destruct (receive_loop_conforms (py_or timeout 600) tok (iopub c) initial Hc)
    as (v' & rest & Hl).
  rewrite Hl. simpl. rewrite (receive_loop_seen _ _ _ _ _ _ Hl).
  destruct (seen_prefix (py_or timeout 600) tok (iopub c)) as [k Hk].
  rewrite Hk in Hc. apply Forall_app in Hc as [Hseen _].
  destruct (expected_Ok tok _ Hseen) as [out Hout].
  unfold expected in Hout. rewrite Hout. by eauto.
Qed.

(** After notifications that pass, a receive that ends the loop makes
    [execute_code] return what has been collected so far. *)
Lemma execute_code_partial code c timeout tok ids pre tail rest :
  msg_ids c = tok :: ids →
  iopub c = arrivals pre ++ tail →
  Forall (λ x, passes (py_or timeout 600) tok x = true) pre →
  (∀ v, receive_loop (py_or timeout 600) tok tail v = (Ok v, rest)) →
  ∃ out, execute_code code c timeout = (Ok out, mkClient ids rest)
         ∧ expected tok pre.*2 = Ok out.
Proof.
  intros Hids Hch Hpre Hend.
  destruct (expected_Ok tok pre.*2 (passes_conforms _ _ _ Hpre)) as [out Hout].
  exists out. split; [|done].
  rewrite (execute_code_unfold _ _ _ _ _ Hids), Hch.
  rewrite (receive_loop_passes _ _ _ _ _ Hpre), Hend. simpl.
  unfold expected in Hout. by rewrite Hout.
Qed.

(** C1, as amended. A notification whose back-reference is not the
    identifier returned by [client.execute] (another identifier, such as
    that of an earlier request, no identifier or no parent header at all)
    goes through [continue]: the loop body leaves every variable as it was
    and the loop goes on with the next receive. Hence two clients that
    hand out the same identifier and whose channels differ only in such
    notifications delivered within the receive timeout, every other
    receive finding what it found after the same wait, make
    [execute_code] return the same result. *)
Theorem foreign_notifications_discarded :
  (∀ tok m v, ¬ matching tok m → handle tok m v = Ok (Next v))
  ∧ (∀ t tok wait m rest v, (wait ≤ t)%N → ¬ matching tok m →
       receive_loop t tok (Arrival wait m :: rest) v
       = receive_loop t tok rest v)
  ∧ (∀ tok old m v, matching old m → old ≠ tok → handle tok m v = Ok (Next v))
  ∧ (∀ code timeout c1 c2 tok ids,
       msg_ids c1 = tok :: ids → msg_ids c2 = tok :: ids →
       drop_foreign (py_or timeout 600) tok (iopub c1)
       = drop_foreign (py_or timeout 600) tok (iopub c2) →
       (execute_code code c1 timeout).1 = (execute_code code c2 timeout).1).
Proof.
  assert (∀ tok m v, ¬ matching tok m → handle tok m v = Ok (Next v)) as Hbody.
  { intros tok m v Hm. by apply handle_foreign, own_not_matching. }
  split; [done|]. split; [|split].
  - intros t tok wait m rest v Hw Hm. simpl.
    by rewrite (proj2 (N.leb_le _ _) Hw), Hbody.
  - intros tok old m v Hold Hne. apply Hbody. unfold matching in *.
    rewrite Hold. by intros [= ->].
  - intros code timeout c1 c2 tok ids H1 H2 Heq.
    rewrite (execute_code_unfold _ _ _ _ _ H1), (execute_code_unfold _ _ _ _ _ H2).
    pose proof (receive_loop_drop_foreign (py_or timeout 600) tok (iopub c1)
                  initial) as E1.
    pose proof (receive_loop_drop_foreign (py_or timeout 600) tok (iopub c2)
                  initial) as E2.
    rewrite Heq in E1. rewrite E2 in E1.
    destruct (receive_loop _ tok (iopub c1) initial) as [r1 ch1].
    destruct (receive_loop _ tok (iopub c2) initial) as [r2 ch2].
    simpl in *. by subst.
Qed.

(** Request ["req-2"] gets its output, the one it gets on a channel of its
    own, when left-overs of request ["req-1"], a fragment without a parent
    header and an idle status without a back-reference are on its
    channel. *)
Lemma foreign_notifications_discarded_witness :
  handle "req-2" orphan initial = Ok (Next initial)
  ∧ receive_loop 600 "req-2" (Arrival 1 unprompted_idle :: alone) initial
    = receive_loop 600 "req-2" alone initial
  ∧ handle "req-2" (status_msg "req-1" "idle") initial = Ok (Next initial)
  ∧ (execute_code "6 * 7" (mkClient ["req-2"] noisy) None).1 = Ok answer_42.
Proof.
  destruct foreign_notifications_discarded as (Hbody & Hloop & Hold & Hrun).
  refine (conj _ (conj _ (conj _ _))).
  - apply Hbody. discriminate.
  - apply Hloop; [lia | discriminate].
  - apply (Hold "req-2" "req-1"); [reflexivity | discriminate].
  - rewrite (Hrun "6 * 7" None (mkClient ["req-2"] noisy)
               (mkClient ["req-2"] alone) "req-2" [] eq_refl eq_refl eq_refl).
    reflexivity.
Defined.

(** C1 as stated fails, because the timeout is that of one receive and a
    notification of another request restarts it. On [slow_with_leftover]
    and [slow] the notifications of ["req-2"] are the same and arrive at
    the same instants, 800 and 801: with the left-over at 400 no receive
    waits longer than 600 and the fragment is in the output, without it
    the first receive times out and the output is empty. On
    [prompt_after_leftover] and [prompt], which differ in one left-over
    and nothing else, it is the left-over, 700 time units away, that makes
    the receive time out. *)
Lemma foreign_notification_restarts_timeout :
  matching_arrivals "req-2" 0 slow_with_leftover
  = matching_arrivals "req-2" 0 slow
  ∧ execute_code "print(4)" (mkClient ["req-2"] slow_with_leftover) None
    = (Ok (mkCellOutput "4" "" PNone [] None), mkClient [] [])
  ∧ (execute_code "print(4)" (mkClient ["req-2"] slow) None).1
    = Ok (mkCellOutput "" "" PNone [] None)
  ∧ matching_only "req-2" prompt_after_leftover = prompt
  ∧ matching_only "req-2" prompt = prompt
  ∧ (execute_code "print(4)" (mkClient ["req-2"] prompt_after_leftover) None).1
    = Ok (mkCellOutput "" "" PNone [] None)
  ∧ execute_code "print(4)" (mkClient ["req-2"] prompt) None
    = (Ok (mkCellOutput "4" "" PNone [] None), mkClient [] []).
Proof. repeat split; reflexivity. Qed.

(** Nothing of a completed request shows in the output of the next one. *)
Lemma successive_requests :
  let '(first, c) := execute_code "print('one')" two_requests None in
  first = Ok (mkCellOutput "one" "" PNone [] None)
  ∧ execute_code "print('two')" c None
    = (Ok (mkCellOutput "two" "" PNone [] None), mkClient [] []).
Proof. split; reflexivity. Qed.

(** C2. The loop body ends with [break] exactly on a status notification
    that carries the token of the request and reports ["idle"], and then
    no variable has changed: the loop ends there, what is left on the
    channel is not read, and [execute_code] returns the output collected
    from the notifications before it. A status notification that reports
    another state, or that reports idle without carrying the token of the
    request, changes nothing and the loop goes on. *)
Theorem idle_status_ends_loop :
  (∀ tok m v v', handle tok m v = Ok (Stop v') ↔ completes tok m ∧ v' = v)
  ∧ (∀ t tok wait m rest v, (wait ≤ t)%N → completes tok m →
       receive_loop t tok (Arrival wait m :: rest) v = (Ok v, rest))
  ∧ (∀ t tok wait m rest v state,
       (wait ≤ t)%N → msg_type m = PStr "status" →
       content m !! "execution_state" = Some state →
       state ≠ PStr "idle" ∨ ¬ matching tok m →
       handle tok m v = Ok (Next v)
       ∧ receive_loop t tok (Arrival wait m :: rest) v
         = receive_loop t tok rest v)
  ∧ (∀ code c timeout tok ids pre wait m rest,
       msg_ids c = tok :: ids →
       iopub c = arrivals pre ++ Arrival wait m :: rest →
       Forall (before_completion (py_or timeout 600) tok) pre →
       (wait ≤ py_or timeout 600)%N → completes tok m →
       ∃ out, execute_code code c timeout = (Ok out, mkClient ids rest)
              ∧ expected tok pre.*2 = Ok out).
Proof.
  assert (∀ t tok wait m rest v, (wait ≤ t)%N → completes tok m →
            receive_loop t tok (Arrival wait m :: rest) v = (Ok v, rest))
    as Hloop.
  { intros t tok wait m rest v Hw Hc. apply receive_loop_idle; [done|].
    by apply is_idle_completes. }
  split; [|split; [done|split]].
  - intros tok m v v'. by rewrite handle_Stop, is_idle_completes.
  - intros t tok wait m rest v state Hw Hty Hst Hother.
    assert (handle tok m v = Ok (Next v)) as Hh.
    { destruct (decide (matching tok m)) as [Hm|Hm];
        [|by apply handle_foreign, own_not_matching].
      destruct Hother as [Hne|]; [|done].
      by apply (handle_other_status _ _ _ state). }
    split; [done|]. simpl. by rewrite (proj2 (N.leb_le _ _) Hw), Hh.
  - intros code c timeout tok ids pre wait m rest Hids Hch Hpre Hw Hi.
    apply before_completion_passes in Hpre.
    apply (execute_code_partial _ _ _ _ _ _ _ _ Hids Hch Hpre).
    intros v. by apply Hloop.
Qed.

(** The idle status of ["req-2"] ends the loop and leaves the late
    fragment unread; its busy status does not, and neither does the idle
    status of ["req-1"] nor one without a back-reference. *)
Lemma idle_status_ends_loop_witness :
  handle "req-2" idle_2 initial = Ok (Stop initial)
  ∧ receive_loop 600 "req-2" (Arrival 1 idle_2 :: too_late) initial
    = (Ok initial, too_late)
  ∧ (handle "req-2" (status_msg "req-2" "busy") initial = Ok (Next initial)
     ∧ receive_loop 600 "req-2" (Arrival 2 (status_msg "req-2" "busy") :: alone)
         initial
       = receive_loop 600 "req-2" alone initial)
  ∧ (handle "req-2" (status_msg "req-1" "idle") initial = Ok (Next initial)
     ∧ receive_loop 600 "req-2" (Arrival 1 (status_msg "req-1" "idle") :: alone)
         initial
       = receive_loop 600 "req-2" alone initial)
  ∧ execute_code "x"
      (mkClient ["req-2"] (arrivals overlapping ++ Arrival 1 idle_2 :: too_late))
      None
    = (Ok partial_4, mkClient [] too_late).
Proof.
  destruct idle_status_ends_loop as (Hbody & Hloop & Hother & Hrun).
  refine (conj _ (conj _ (conj _ (conj _ _)))).
  - apply Hbody. repeat split; reflexivity.
  - apply Hloop; [lia | repeat split; reflexivity].
  - apply (Hother _ _ _ _ _ _ (PStr "busy"));
      [lia | reflexivity | reflexivity | left; discriminate].
  - apply (Hother _ _ _ _ _ _ (PStr "idle"));
      [lia | reflexivity | reflexivity | right; discriminate].
  - destruct (Hrun "x"
                (mkClient ["req-2"]
                   (arrivals overlapping ++ Arrival 1 idle_2 :: too_late))
                None "req-2" [] overlapping 1%N idle_2 too_late)
      as (out & Hexec & Hout);
      [reflexivity | reflexivity | apply (bool_decide_unpack _); by vm_compute
      | simpl; lia | repeat split; reflexivity |].
    assert (Ok out = Ok partial_4) as Heq by (rewrite <- Hout; reflexivity).
    injection Heq as ->. exact Hexec.
Defined.




(** C4. On a channel whose notifications follow the protocol
    [execute_code] returns an output. In any output it returns, [stdout]
    is the concatenation, in arrival order, of the texts of the stream
    fragments tagged ["stdout"] among the notifications seen for the
    request, [stderr] the same for ["stderr"], and [display_data] is the
    list of the payloads of its display notifications, in arrival order. *)
Theorem output_fields_in_arrival_order code c timeout tok ids :
  msg_ids c = tok :: ids →
  (Forall (λ m, conforms m = true) (notifications (iopub c)) →
   ∃ out c', execute_code code c timeout = (Ok out, c'))
  ∧ (∀ out c',
       execute_code code c timeout = (Ok out, c') →
       let ms := seen (py_or timeout 600) tok (iopub c) in
       (∃ outs, stream_texts tok "stdout" ms = PStr <$> outs
                ∧ stdout out = String.concat "" outs)
       ∧ (∃ errs, stream_texts tok "stderr" ms = PStr <$> errs
                  ∧ stderr out = String.concat "" errs)
       ∧ display_data out = payloads tok "display_data" ms).
Proof.
  intros Hids. split; [by apply (execute_code_returns _ _ _ _ _ Hids)|].
  intros out c' Hrun ms.
  apply (execute_code_Ok _ _ _ _ _ _ _ Hids), make_output_Ok in Hrun.
  destruct Hrun as (Ho & He & _ & Hd & _). simpl in *.
  split; [by apply str_join_Ok|]. split; [by apply str_join_Ok|done].
Qed.

(** The fragments ["4"] and ["2"] of request ["req-2"] arrive in that
    order among other notifications and make up its [stdout]. *)
Lemma output_fields_in_arrival_order_witness :
  execute_code "6 * 7" (mkClient ["req-2"] crosstalk) None
  = (Ok answer_42, mkClient [] too_late)
  ∧ (let ms := seen 600 "req-2" crosstalk in
     (∃ outs, stream_texts "req-2" "stdout" ms = PStr <$> outs
              ∧ stdout answer_42 = String.concat "" outs)
     ∧ (∃ errs, stream_texts "req-2" "stderr" ms = PStr <$> errs
                ∧ stderr answer_42 = String.concat "" errs)
     ∧ display_data answer_42 = payloads "req-2" "display_data" ms)
  ∧ ∃ out c', execute_code "6 * 7" (mkClient ["req-2"] crosstalk) None
              = (Ok out, c').
Proof.
  destruct (output_fields_in_arrival_order "6 * 7"
              (mkClient ["req-2"] crosstalk) None "req-2" [] eq_refl)
    as [Hreturns Hfields].
  refine (conj eq_refl (conj (Hfields answer_42 (mkClient [] too_late) eq_refl) _)).
  apply Hreturns. repeat constructor.
Defined.

(** C9. When the channel holds at most one computed-value notification for
    the request, the loop assigns [result] at most once, and the [result]
    of the returned output is the payload of that notification when it was
    seen, [None] otherwise. The returned output carries at most one
    failure: the one of the last failure notification seen, if any. On a
    channel whose notifications follow the protocol an output is
    returned. *)
Theorem result_set_at_most_once code c timeout tok ids :
  msg_ids c = tok :: ids →
  (length (List.filter (answers tok "execute_result") (notifications (iopub c)))
   ≤ 1)%nat →
  (Forall (λ m, conforms m = true) (notifications (iopub c)) →
   ∃ out c', execute_code code c timeout = (Ok out, c'))
  ∧ (∀ out c',
       execute_code code c timeout = (Ok out, c') →
       let ms := seen (py_or timeout 600) tok (iopub c) in
       (length (payloads tok "execute_result" ms) ≤ 1)%nat
       ∧ result out = default PNone (head (payloads tok "execute_result" ms))
       ∧ error out = last (failures tok ms)).
Proof.
  intros Hids Hone. split; [by apply (execute_code_returns _ _ _ _ _ Hids)|].
  intros out c' Hrun ms.
  apply (execute_code_Ok _ _ _ _ _ _ _ Hids), make_output_Ok in Hrun.
  destruct Hrun as (_ & _ & Hr & _ & He). simpl in *. fold ms in Hr, He.
  assert (length (payloads tok "execute_result" ms) ≤ 1)%nat as Hlen.
  { unfold payloads. rewrite length_fmap.
    pose proof (filter_prefix_length (answers tok "execute_result") _ _
                  (seen_prefix (py_or timeout 600) tok (iopub c))) as Hpre.
    fold ms in Hpre. lia. }
  split; [done|]. split.
  - rewrite Hr.
    destruct (payloads tok "execute_result" ms) as [|x [|y l]]; simpl in *;
      [done..|lia].
  - rewrite He. by destruct (last (failures tok ms)).
Qed.

(** Request ["req-2"] has one computed value, 42; the 41 on its channel
    answers another request. *)
Lemma result_set_at_most_once_witness :
  (length (List.filter (answers "req-2" "execute_result")
             (notifications crosstalk)) ≤ 1)%nat
  ∧ execute_code "6 * 7" (mkClient ["req-2"] crosstalk) None
    = (Ok answer_42, mkClient [] too_late)
  ∧ (let ms := seen 600 "req-2" crosstalk in
     (length (payloads "req-2" "execute_result" ms) ≤ 1)%nat
     ∧ result answer_42 = default PNone (head (payloads "req-2" "execute_result" ms))
     ∧ error answer_42 = last (failures "req-2" ms))
  ∧ ∃ out c', execute_code "6 * 7" (mkClient ["req-2"] crosstalk) None
              = (Ok out, c').
Proof.
  assert (length (List.filter (answers "req-2" "execute_result")
                    (notifications crosstalk)) ≤ 1)%nat as Hone
    by (vm_compute; lia).
  destruct (result_set_at_most_once "6 * 7" (mkClient ["req-2"] crosstalk)
              None "req-2" [] eq_refl Hone) as [Hreturns Hresult].
  refine (conj Hone (conj eq_refl
            (conj (Hresult answer_42 (mkClient [] too_late) eq_refl) _))).
  apply Hreturns. repeat constructor.
Defined.

(** C10. Whatever exception the receive raises, the loop ends there and
    nothing of it reaches the caller: after notifications that were
    delivered in time, follow the protocol and are not the completion
    signal, [execute_code] returns the output collected so far. On any
    channel, the result is the same whether the receive fails or times
    out at that point. *)
Theorem receive_errors_swallowed :
  (∀ code c timeout tok ids pre e rest,
     msg_ids c = tok :: ids →
     iopub c = arrivals pre ++ Failure e :: rest →
     Forall (λ x, passes (py_or timeout 600) tok x = true) pre →
     ∃ out, execute_code code c timeout = (Ok out, mkClient ids rest)
            ∧ expected tok pre.*2 = Ok out)
  ∧ (∀ code timeout ids events e rest wait m rest',
       (py_or timeout 600 < wait)%N →
       (execute_code code (mkClient ids (events ++ Failure e :: rest)) timeout).1
       = (execute_code code (mkClient ids (events ++ Arrival wait m :: rest'))
            timeout).1).
Proof.
  split.
  - intros code c timeout tok ids pre e rest Hids Hch Hpre.
    by apply (execute_code_partial _ _ _ _ _ _ _ _ Hids Hch Hpre).
  - intros code timeout ids events e rest wait m rest' Hw.
    destruct ids as [|tok ids]; [done|].
    rewrite !(execute_code_unfold _ _ _ tok ids) by done. simpl.
    assert (∀ u, (receive_loop (py_or timeout 600) tok (Failure e :: rest) u).1
                 = Ok u) as H1 by done.
    assert (∀ u, (receive_loop (py_or timeout 600) tok
                    (Arrival wait m :: rest') u).1 = Ok u) as H2.
    { intros u. by rewrite receive_loop_late. }
    pose proof (receive_loop_tail (py_or timeout 600) tok events _ _ initial
                  H1 H2) as Ht.
    destruct (receive_loop _ tok (events ++ Failure e :: rest) initial)
      as [r1 ch1].
    destruct (receive_loop _ tok (events ++ Arrival wait m :: rest') initial)
      as [r2 ch2].
    simpl in *. by rewrite Ht.
Qed.

(** A socket error after three notifications gives the output a timeout
    at the same point gives. *)
Lemma receive_errors_swallowed_witness :
  execute_code "x"
    (mkClient ["req-2"] (arrivals started ++ Failure (OtherError "ZMQError") :: alone))
    (Some 5%N)
  = (Ok partial_4, mkClient [] alone)
  ∧ (execute_code "x"
       (mkClient ["req-2"] (arrivals started ++ Failure (KeyError "msg_type") :: alone))
       (Some 2%N)).1
    = (execute_code "x"
         (mkClient ["req-2"] (arrivals started ++ Arrival 3 idle_2 :: too_late))
         (Some 2%N)).1.
Proof.
  destruct receive_errors_swallowed as [Hpartial Hsame]. split.
  - destruct (Hpartial "x"
                (mkClient ["req-2"]
                   (arrivals started ++ Failure (OtherError "ZMQError") :: alone))
                (Some 5%N) "req-2" [] started (OtherError "ZMQError") alone)
      as (out & Hrun & Hout);
      [reflexivity | reflexivity | repeat constructor |].
    assert (Ok out = Ok partial_4) as Heq by (rewrite <- Hout; reflexivity).
    injection Heq as ->. exact Hrun.
  - apply Hsame. simpl. lia.
Defined.

End EngineTheory.

(** ** Session store: round trips *)

Module StoreLaws.
Import Samples.

(** X1. Saving a record and loading it right away gives the record back,
    whatever its three fields hold and whatever the state file held
    before, exactly when the null signal can be delivered to the recorded
    process id and the connection file exists; the machine is then the one
    [save_state] left. Otherwise the load undoes the save: it returns
    [None] and the state file is gone again (a process id outside the
    range of a C [int] apart). *)
Theorem save_state_load_state_round_trip (state : KernelState) (w : world) :
  (signalable w (pid state) = true →
   resolves w (connection_file state) = true →
   (save_state state;; load_state) w = (Ok (Some state), persisted state w))
  ∧ (as_pid (pid state) ≠ Raise OverflowError →
     signalable w (pid state) = false
     ∨ resolves w (connection_file state) = false →
     (save_state state;; load_state) w = (Ok None, forget w)).
Proof.
  assert ((save_state state;; load_state) w = load_state (persisted state w)) as ->
    by reflexivity.
  pose proof (proj2 (save_state_overwrites state w)) as Hrec.
  split.
  - intros Hs Hr. apply load_state_Some; [exact Hrec|exact Hs|exact Hr].
  - intros Hfit Hbad. rewrite load_state_unfold. cbn [persisted state_file].
    rewrite new_KernelState_asdict. unfold signalable in Hbad.
    change (procs (persisted state w)) with (procs w).
    change (forget (persisted state w)) with (forget w).
    change (resolves (persisted state w)) with (resolves w).
    destruct (as_pid (pid state)) as [z|[]]; try reflexivity.
    + destruct Hbad as [-> | ->]; [reflexivity|]. by case_bool_decide.
    + by destruct Hfit.
Qed.

(** The record of a live kernel comes back; the record of a kernel that is
    not there does not. *)
Lemma save_state_load_state_round_trip_witness :
  (save_state kernel_7;; load_state) spawned_7
  = (Ok (Some kernel_7), persisted kernel_7 spawned_7)
  ∧ (save_state kernel_4242;; load_state) idle_machine
    = (Ok None, forget idle_machine).
Proof.
  destruct (save_state_load_state_round_trip kernel_7 spawned_7) as [Hback _].
  destruct (save_state_load_state_round_trip kernel_4242 idle_machine)
    as [_ Hgone].
  refine (conj (Hback eq_refl eq_refl) (Hgone _ (or_introl eq_refl))).
  discriminate.
Defined.

(** X2. After [clear_state] no record can be loaded, whatever the state
    file held (a live kernel's record, text that is not JSON, a process id
    that does not fit): [load_state] returns [None] and
    [is_kernel_running] returns [False], both leaving the machine as
    [clear_state] left it; clearing twice is clearing once. No process
    and no connection file is touched. *)
Theorem clear_state_forgets (w : world) :
  clear_state w = (Ok (), forget w)
  ∧ (clear_state;; load_state) w = (Ok None, forget w)
  ∧ (clear_state;; is_kernel_running) w = (Ok false, forget w)
  ∧ (clear_state;; clear_state) w = clear_state w
  ∧ procs (forget w) = procs w ∧ paths (forget w) = paths w.
Proof.
  split; [reflexivity|]. split; [|split; [|split; [reflexivity|by split]]].
  - change ((clear_state;; load_state) w) with (load_state (forget w)).
    by apply load_state_absent.
  - change ((clear_state;; is_kernel_running) w)
      with (is_kernel_running (forget w)).
    by apply is_kernel_running_absent.
Qed.

(** X3. [is_kernel_running] is a query that can write: when it answers
    [True] the machine is unchanged and [load_state] returns a record on
    it; when it answers [False] the machine is left without its state
    file. Either way, asking again gives the same answer and changes
    nothing more. *)
Theorem is_kernel_running_stable (w : world) (b : bool) (w' : world) :
  is_kernel_running w = (Ok b, w') →
  (b = true → w' = w ∧ ∃ state, load_state w = (Ok (Some state), w))
  ∧ (b = false → w' = forget w)
  ∧ is_kernel_running w' = (Ok b, w').
Proof.
  unfold is_kernel_running. run.
  destruct (load_state w) as [[[state|]|e] w1] eqn:H; [| |discriminate].
  - intros [= <- <-]. destruct (load_state_Some_inv _ _ _ H) as (_ & _ & _ & ->).
    split; [eauto|]. split; [discriminate|]. by rewrite H.
  - intros [= <- <-]. rewrite (load_state_None_inv _ _ H).
    split; [discriminate|]. split; [reflexivity|]. by rewrite load_state_absent.
Qed.

Lemma is_kernel_running_stable_witness :
  is_kernel_running running = (Ok true, running)
  ∧ is_kernel_running (forget stale) = (Ok false, forget stale).
Proof.
  destruct (is_kernel_running_stable running true running eq_refl)
    as (_ & _ & Hup).
  destruct (is_kernel_running_stable stale false (forget stale) eq_refl)
    as (_ & _ & Hdown).
  exact (conj Hup Hdown).
Defined.

End StoreLaws.

(** ** Session supervisor: restart *)

Module LifecycleLaws.
Import Samples.

Section WithKernelManager.

Variable km_start_kernel : string → M (string * Z).
Variable km_shutdown_kernel : pyval → M unit.

(** A [stop_kernel] that returns leaves no state file. *)
Lemma stop_kernel_absent w b w1 :
  stop_kernel km_shutdown_kernel w = (Ok b, w1) → state_file w1 = None.
Proof.
  intros Hstop. destruct (load_state w) as [[[state|]|e] w0] eqn:H.
  - destruct (stop_kernel_running km_shutdown_kernel _ _ _ H) as [w3 Hs].
    rewrite Hs in Hstop. by injection Hstop as <- <-.
  - rewrite (stop_kernel_not_running _ _ _ H) in Hstop.
    injection Hstop as <- <-. by rewrite (load_state_None_inv _ _ H).
  - by rewrite (stop_kernel_raises _ _ _ _ H) in Hstop.
Qed.

(** X4. [restart_kernel] never fails because a kernel is running: once
    its [stop_kernel] has returned, the [start_kernel] that follows finds
    no record and goes on to the kernel manager. When the manager starts a
    process the new record is returned and the state file holds it,
    whatever was recorded before; when the manager raises, that exception
    is what [restart_kernel] raises. *)
Theorem restart_kernel_starts_afresh (name : string) (w : world) (b : bool)
    (w1 : world) :
  stop_kernel km_shutdown_kernel w = (Ok b, w1) →
  restart_kernel km_start_kernel km_shutdown_kernel name w =
    match km_start_kernel name w1 with
    | (Ok (file, child), w2) =>
        let state := mkKernelState (PStr file) (PStr name) (PInt child) in
        (Ok state, persisted state w2)
    | (Raise e, w2) => (Raise e, w2)
    end.
Proof.
  intros Hstop. pose proof (stop_kernel_absent _ _ _ Hstop) as Hf.
  unfold restart_kernel. unfold mbind at 1, M_bind. rewrite Hstop.
  unfold start_kernel. unfold mbind at 1, M_bind.
  rewrite (load_state_absent _ Hf).
  unfold mbind, M_bind.
  destruct (km_start_kernel name w1) as [[[file child]|e] w2]; reflexivity.
Qed.

End WithKernelManager.

(** Restarting [stubborn], whose teardown steps all fail: kernel 7 is
    started and recorded. *)
Lemma restart_kernel_starts_afresh_witness :
  restart_kernel spawn_7 shutdown_breaks "python3" stubborn
  = (Ok kernel_7,
     persisted kernel_7
       (World None {[ 7 := Ours ]}
          ({[ "/run/user/kernel-7.json" ]} ∪ {[ "/run/user/kernel-4242.json" ]})
          {[ "/run/user/kernel-4242.json" ]})).
Proof.
  exact (restart_kernel_starts_afresh spawn_7 shutdown_breaks "python3" stubborn
           true torn_down eq_refl).
Defined.

End LifecycleLaws.

(** ** Kernel client *)

Module TransportTheory.
Import Samples Wiring.

Section WithBlockingKernelClient.

Variable km_shutdown_kernel : pyval → M unit.
Variable connect : pyval → N → M client.
Variable stop_channels : client → M unit.

Lemma get_client_absent timeout w w1 :
  load_state w = (Ok None, w1) →
  get_client connect None timeout w = (Raise (RuntimeError no_kernel), w1).
Proof. intros H. unfold get_client. run. by rewrite H. Qed.

Lemma get_client_present timeout w state w1 :
  load_state w = (Ok (Some state), w1) →
  get_client connect None timeout w
  = connect (connection_file state) (py_or timeout 30) w.
Proof.
  intros H. destruct (load_state_Some_inv _ _ _ H) as (_ & _ & _ & ->).
  unfold get_client. run. by rewrite H.
Qed.

(** X5. Without a state argument [get_client] goes by the store. When
    [load_state] returns no record it raises the "No kernel is running"
    [RuntimeError] without connecting to anything, the machine being as
    [load_state] left it; that is the case after every [stop_kernel] that
    returned. When [load_state] returns a record it connects to the
    recorded connection file and waits for the kernel for [timeout or 30]:
    30 when no timeout is given and also when the timeout is 0. *)
Theorem get_client_needs_record (timeout : option N) (w : world) :
  (∀ w1, load_state w = (Ok None, w1) →
     get_client connect None timeout w = (Raise (RuntimeError no_kernel), w1))
  ∧ (∀ b w1, stop_kernel km_shutdown_kernel w = (Ok b, w1) →
       get_client connect None timeout w1
       = (Raise (RuntimeError no_kernel), w1))
  ∧ (∀ state w1, load_state w = (Ok (Some state), w1) →
       get_client connect None timeout w
       = connect (connection_file state)
           (match timeout with
            | Some t => if bool_decide (t = 0%N) then 30%N else t
            | None => 30%N
            end) w).
Proof.
  split; [|split].
  - intros w1. apply get_client_absent.
  - intros b w1 Hstop. apply get_client_absent, load_state_absent.
    by eapply LifecycleLaws.stop_kernel_absent.
  - intros state w1 H. rewrite (get_client_present _ _ _ _ H). f_equal.
    destruct timeout as [t|]; [|done]. simpl. case_bool_decide as Ht.
    + by rewrite Ht.
    + by apply N.eqb_neq in Ht as ->.
Qed.

(** X6. [execute_code] without a client. When [load_state] returns no
    record it raises the "No kernel is running" [RuntimeError]; nothing is
    connected, sent or stopped. When a client is obtained, the request
    runs on it as it does on a client of the caller, and whether that
    returns or raises the channels of the client are stopped afterwards:
    the outcome of the request is the outcome of [execute_code] when
    [stop_channels] returns, and the exception of [stop_channels] when it
    raises. *)
Theorem execute_code_own_client_closes (code : string) (timeout : option N)
    (w : world) :
  (∀ w1, load_state w = (Ok None, w1) →
     execute_code_own_client connect stop_channels code timeout w
     = (Raise (RuntimeError no_kernel), w1))
  ∧ (∀ state w1 c w2 r c',
       load_state w = (Ok (Some state), w1) →
       connect (connection_file state) (py_or timeout 30) w = (Ok c, w2) →
       execute_code code c timeout = (r, c') →
       (∀ w3, stop_channels c' w2 = (Ok (), w3) →
          execute_code_own_client connect stop_channels code timeout w = (r, w3))
       ∧ (∀ e w3, stop_channels c' w2 = (Raise e, w3) →
            execute_code_own_client connect stop_channels code timeout w
            = (Raise e, w3))).
Proof.
  split.
  - intros w1 H. unfold execute_code_own_client. unfold mbind at 1, M_bind.
    by rewrite (get_client_absent _ _ _ H).
  - intros state w1 c w2 r c' H Hc Hrun.
    assert (∀ out, stop_channels c' w2 = out →
              execute_code_own_client connect stop_channels code timeout w
              = match out with
                | (Ok _, w3) => (r, w3)
                | (Raise e, w3) => (Raise e, w3)
                end) as Hfin.
    { intros out <-. unfold execute_code_own_client. unfold mbind at 1, M_bind.
      rewrite (get_client_present _ _ _ _ H), Hc, Hrun. reflexivity. }
    split.
    + intros w3 Hs. by rewrite (Hfin _ Hs).
    + intros e w3 Hs. by rewrite (Hfin _ Hs).
Qed.

End WithBlockingKernelClient.

Lemma get_client_needs_record_witness :
  get_client attach None (Some 0%N) stale
  = (Raise (RuntimeError no_kernel), forget stale)
  ∧ get_client attach None (Some 0%N) torn_down
    = (Raise (RuntimeError no_kernel), torn_down)
  ∧ get_client attach None (Some 0%N) running
    = attach (PStr "/run/user/kernel-4242.json") 30%N running.
Proof.
  destruct (get_client_needs_record shutdown_breaks attach (Some 0%N) stale)
    as (Hnone & _ & _).
  destruct (get_client_needs_record shutdown_breaks attach (Some 0%N) stubborn)
    as (_ & Hstopped & _).
  destruct (get_client_needs_record shutdown_breaks attach (Some 0%N) running)
    as (_ & _ & Hsome).
  exact (conj (Hnone _ eq_refl)
           (conj (Hstopped true torn_down eq_refl)
              (Hsome kernel_4242 running eq_refl))).
Defined.

Lemma execute_code_own_client_closes_witness :
  execute_code_own_client attach detach "6 * 7" None idle_machine
  = (Raise (RuntimeError no_kernel), idle_machine)
  ∧ execute_code_own_client attach detach "6 * 7" None running
    = (Ok answer_42, running).
Proof.
  destruct (execute_code_own_client_closes attach detach "6 * 7" None
              idle_machine) as [Hnone _].
  destruct (execute_code_own_client_closes attach detach "6 * 7" None running)
    as [_ Hsome].
  destruct (Hsome kernel_4242 running (mkClient ["req-2"] alone) running
              (Ok answer_42) (mkClient [] too_late) eq_refl eq_refl eq_refl)
    as [Hclosed _].
  exact (conj (Hnone _ eq_refl) (Hclosed running eq_refl)).
Defined.

End TransportTheory.

(** ** Output handling *)

Module OutputTheory.
Import Gallery.

Lemma W_bind_inv {A B} (m : W A) (f : A → W B) r t :
  (m ≫= f) = (r, t) →
  (∃ e, m = (Raise e, t) ∧ r = Raise e)
  ∨ ∃ a t1 t2, m = (Ok a, t1) ∧ f a = (r, t2) ∧ t = t1 ++ t2.
Proof.
  unfold mbind, W_bind. destruct m as [[a|e] t1].
  - destruct (f a) as [r' t2] eqn:Hf. intros [= -> <-]. right. by eauto 6.
  - intros [= <- <-]. left. by eauto.
Qed.

Lemma wlift_bind_inv {A B} (r0 : res A) (f : A → W B) r t :
  (wlift r0 ≫= f) = (r, t) →
  (∃ e, r0 = Raise e ∧ r = Raise e ∧ t = [])
  ∨ ∃ a, r0 = Ok a ∧ f a = (r, t).
Proof.
  unfold mbind, W_bind, wlift. destruct r0 as [a|e].
  - destruct (f a) as [r' t2] eqn:Hf. intros [= -> <-]. right. by eauto.
  - intros [= <- <-]. left. by eauto.
Qed.

(** *** Paths *)

Lemma has_char_app c a b : has_char c (a +:+ b) = has_char c a || has_char c b.
Proof.
  induction a as [|x a IH]; [done|].
  change (String x a +:+ b) with (String x (a +:+ b)). simpl.
  by rewrite IH, orb_assoc.
Qed.

Lemma str_split_plain c s : has_char c s = false → str_split c s = [s].
Proof.
  induction s as [|a s IH]; [done|]. simpl.
  intros [Ha Hs]%orb_false_iff. apply bool_decide_eq_false in Ha.
  rewrite decide_False by done. by rewrite (IH Hs).
Qed.

Lemma anchor_plain s : has_char "/" s = false → anchor s = None.
Proof.
  intros Hs. unfold anchor. destruct s as [|a s]; [done|]. simpl in *.
  apply orb_false_iff in Hs as [Ha _]. apply bool_decide_eq_false in Ha.
  by rewrite decide_False.
Qed.

(** Joining a path with a plain name appends the name. *)
Lemma joinpath_name p s :
  has_char "/" s = false → s ≠ EmptyString → s ≠ "." →
  joinpath p s = p ++ [s].
Proof.
  intros Hs H1 H2. unfold joinpath, segments.
  rewrite (anchor_plain _ Hs), (str_split_plain _ _ Hs).
  rewrite filter_cons_True by done. by rewrite filter_nil.
Qed.

Lemma pretty_N_go_has_char c x s :
  (∀ d, pretty_N_char d ≠ c) → has_char c s = false →
  has_char c (pretty_N_go x s) = false.
Proof.
  intros Hc. revert s. induction (N.lt_wf_0 x) as [x _ IH]; intros s Hs.
  assert (x = 0 ∨ 0 < x)%N as [-> | Hx] by lia.
  - by rewrite pretty_N_go_0.
  - rewrite pretty_N_go_step by done. apply IH.
    { by apply N.div_lt. }
    simpl. rewrite Hs. by rewrite bool_decide_eq_false_2.
Qed.

Lemma pretty_N_has_char c (x : N) :
  (∀ d, pretty_N_char d ≠ c) → has_char c (pretty x) = false.
Proof.
  intros Hc. unfold pretty, pretty_N. case_decide.
  - simpl. rewrite bool_decide_eq_false_2; [done|].
    intros H0. by apply (Hc 0%N).
  - by apply pretty_N_go_has_char.
Qed.

Lemma pretty_N_go_nonempty x s :
  s ≠ EmptyString → pretty_N_go x s ≠ EmptyString.
Proof.
  revert s. induction (N.lt_wf_0 x) as [x _ IH]; intros s Hs.
  assert (x = 0 ∨ 0 < x)%N as [-> | Hx] by lia.
  - by rewrite pretty_N_go_0.
  - rewrite pretty_N_go_step by done. apply IH; [by apply N.div_lt|done].
Qed.

Lemma pretty_N_nonempty (x : N) : pretty x ≠ EmptyString.
Proof.
  unfold pretty, pretty_N. case_decide; [done|].
  assert (0 < x)%N as Hx by lia. rewrite pretty_N_go_step by done.
  by apply pretty_N_go_nonempty.
Qed.

Lemma digit_not_slash d : pretty_N_char d ≠ "/"%char.
Proof. unfold pretty_N_char. by repeat case_match. Qed.

Lemma digit_not_dot d : pretty_N_char d ≠ "."%char.
Proof. unfold pretty_N_char. by repeat case_match. Qed.

Lemma ext_plain mime ext : (mime, ext) ∈ MIME_TO_EXT → has_char "/" ext = false.
Proof.
  unfold MIME_TO_EXT. rewrite !elem_of_cons, elem_of_nil.
  intros H. repeat destruct H as [H|H]; try done; by injection H as -> ->.
Qed.

Lemma image_name_plain many i mime ext :
  (mime, ext) ∈ MIME_TO_EXT →
  has_char "/" (image_name many i ext) = false
  ∧ image_name many i ext ≠ EmptyString ∧ image_name many i ext ≠ ".".
Proof.
  intros Hext%ext_plain. unfold image_name. destruct many.
  - split; [|done]. rewrite !has_char_app, Hext.
    by rewrite (pretty_N_has_char _ _ digit_not_slash).
  - split; [|done]. by rewrite !has_char_app, Hext.
Qed.

Lemma joinpath_image dir many i mime ext :
  (mime, ext) ∈ MIME_TO_EXT →
  joinpath dir (image_name many i ext) = dir ++ [image_name many i ext].
Proof.
  intros H. destruct (image_name_plain many i _ _ H) as (H1 & H2 & H3).
  by apply joinpath_name.
Qed.


Lemma path_parent_snoc dir name :
  has_char "/" name = false → path_parent (dir ++ [name]) = dir.
Proof.
  intros Hn. destruct dir as [|a [|b dir]].
  - unfold path_parent. simpl. rewrite bool_decide_eq_false_2; [done|].
    by intros [-> | ->].
  - done.
  - exact (removelast_last (a :: b :: dir) name).
Qed.

Lemma append_dot_inj a b x y :
  has_char "." a = false → has_char "." b = false →
  a +:+ String "." x = b +:+ String "." y → a = b.
Proof.
  revert b. induction a as [|c a IH]; intros [|d b]; simpl; try done.
  - intros _ [Hd _]%orb_false_iff [= <- _]. by apply bool_decide_eq_false in Hd.
  - intros [Hc _]%orb_false_iff _ [= -> _]. by apply bool_decide_eq_false in Hc.
  - intros [_ Ha]%orb_false_iff [_ Hb]%orb_false_iff [= -> Heq].
    f_equal. by apply IH.
Qed.

(** Display items with different indices get different file names. *)
Lemma image_name_inj i j ext ext' :
  image_name true i ext = image_name true j ext' → i = j.
Proof.
  unfold image_name. intros [= Heq].
  apply (inj pretty). eapply append_dot_inj, Heq;
    apply pretty_N_has_char, digit_not_dot.
Qed.

(** *** The files of the display items *)

Lemma images_from_length dir many i items :
  (length (images_from dir many i items) ≤ length items)%nat.
Proof.
  revert i. induction items as [|data items IH]; intros i; simpl; [done|].
  rewrite length_app. specialize (IH (i + 1)%N).
  destruct (image_of dir many i data); simpl; lia.
Qed.

Lemma images_from_elem dir many i items p :
  p ∈ images_from dir many i items →
  ∃ j ext, (i ≤ j)%N ∧ p = dir ++ [image_name many j ext].
Proof.
  revert i. induction items as [|data items IH]; intros i; simpl.
  - by intros ?%elem_of_nil.
  - rewrite elem_of_app. intros [Hp|Hp].
    + unfold image_of in Hp. destruct data as [| | | | |d]; simpl in Hp;
        try by apply elem_of_nil in Hp.
      destruct (image_type d) as [[mime ext]|]; simpl in Hp;
        [|by apply elem_of_nil in Hp].
      apply list_elem_of_singleton in Hp as ->. exists i, ext. split; [lia|done].
    + destruct (IH _ Hp) as (j & ext & Hj & ->). exists j, ext. split; [lia|done].
Qed.

Lemma images_from_NoDup_many dir i items :
  NoDup (images_from dir true i items).
Proof.
  revert i. induction items as [|data items IH]; intros i; simpl.
  - constructor.
  - apply NoDup_app. split; [|split; [|apply IH]].
    + destruct (image_of dir true i data); simpl;
        [apply NoDup_singleton|constructor].
    + intros p Hp Hin. destruct (images_from_elem _ _ _ _ _ Hin)
        as (j & ext & Hj & ->).
      unfold image_of in Hp. destruct data as [| | | | |d]; simpl in Hp;
        try by apply elem_of_nil in Hp.
      destruct (image_type d) as [[mime ext']|]; simpl in Hp;
        [|by apply elem_of_nil in Hp].
      apply list_elem_of_singleton in Hp. apply app_inv_head in Hp.
      pose proof (f_equal (λ l, default EmptyString (head l)) Hp) as Hn.
      change (image_name true j ext = image_name true i ext') in Hn.
      apply image_name_inj in Hn. lia.
Qed.

Lemma images_from_NoDup dir items :
  NoDup (images_from dir (bool_decide (1 < length items)%nat) 0 items).
Proof.
  case_bool_decide as Hlen; [apply images_from_NoDup_many|].
  pose proof (images_from_length dir false 0 items) as Hl.
  destruct (images_from dir false 0 items) as [|p [|q l]];
    [constructor|apply NoDup_singleton|simpl in Hl; lia].
Qed.

(** *** The loop over the MIME table *)

Lemma find_first {A} (f : A → bool) l x :
  List.find f l = Some x ↔
  ∃ l1 l2, l = l1 ++ x :: l2 ∧ f x = true ∧ Forall (λ y, f y = false) l1.
Proof.
  induction l as [|a l IH]; simpl.
  - split; [done|]. by intros ([|??] & ? & ? & _).
  - destruct (f a) eqn:Ha.
    + split.
      * intros [= ->]. exists [], l. by repeat split.
      * intros ([|b l1] & l2 & Hl & Hx & Hl1); simplify_eq/=; [done|].
        apply Forall_cons in Hl1 as [Hb _]. congruence.
    + rewrite IH. split.
      * intros (l1 & l2 & -> & Hx & Hl1). exists (a :: l1), l2.
        split; [done|]. split; [done|]. by constructor.
      * intros ([|b l1] & l2 & Hl & Hx & Hl1); simplify_eq/=; [congruence|].
        apply Forall_cons in Hl1 as [_ Hl1]. by eauto.
Qed.

Lemma find_mime_dict table d :
  find_mime table (PDict d)
  = Ok (List.find (λ entry, bool_decide (is_Some (d !! entry.1))) table).
Proof.
  induction table as [|[mime ext] table IH]; [done|]. simpl.
  unfold mbind, res_bind. simpl. by case_bool_decide.
Qed.

Lemma find_mime_image_type d :
  find_mime MIME_TO_EXT (PDict d) = Ok (image_type d).
Proof. apply find_mime_dict. Qed.

Lemma find_mime_elem table data mime ext :
  find_mime table data = Ok (Some (mime, ext)) → (mime, ext) ∈ table.
Proof.
  induction table as [|[m e] table IH]; [done|]. simpl.
  destruct (py_in data m) as [[]|]; simpl; [|set_solver|done].
  intros [= -> ->]. set_solver.
Qed.


(** *** What [process_cell_output] saves *)

Ltac wrun :=
  repeat (unfold mbind, mret, W_bind, W_ret, res_bind, res_ret, emit, wlift,
            print, print_to, print_each in *;
          cbn beta iota zeta in *).

Lemma tidy_nil dir : tidy dir [].
Proof. by repeat split; constructor. Qed.

Lemma tidy_app dir t1 t2 : tidy dir t1 → tidy dir t2 → tidy dir (t1 ++ t2).
Proof.
  unfold tidy, written, made, removed. rewrite !omap_app.
  intros (H1 & H2 & ->) (H3 & H4 & ->). rewrite !Forall_app. done.
Qed.

Lemma silent_tidy dir t : silent t → tidy dir t.
Proof. intros (H1 & H2 & H3). unfold tidy. rewrite H1, H2. by repeat split. Qed.

Lemma silent_app t1 t2 : silent t1 → silent t2 → silent (t1 ++ t2).
Proof.
  unfold silent, written, made, removed. rewrite !omap_app.
  by intros (-> & -> & ->) (-> & -> & ->).
Qed.

Lemma quiet_ret {A} (a : A) : quiet (mret a).
Proof. done. Qed.

Lemma quiet_wlift {A} (r : res A) : quiet (wlift r).
Proof. done. Qed.

Lemma quiet_print text : quiet (print text).
Proof. done. Qed.

Lemma quiet_print_to to text : quiet (print_to to text).
Proof. done. Qed.

Lemma quiet_print_each v : quiet (print_each v).
Proof. by destruct v. Qed.

Lemma quiet_bind {A B} (m : W A) (f : A → W B) :
  quiet m → (∀ a, quiet (f a)) → quiet (m ≫= f).
Proof.
  unfold quiet, mbind, W_bind. destruct m as [[a|e] t1]; simpl; [|done].
  intros H1 H2. specialize (H2 a). destruct (f a) as [r t2]. simpl in *.
  by apply silent_app.
Qed.

Lemma quiet_bind_inv {A B} (m : W A) (f : A → W B) r t :
  (m ≫= f) = (r, t) → quiet m →
  (∃ e, r = Raise e ∧ silent t)
  ∨ ∃ a t1 t2, silent t1 ∧ f a = (r, t2) ∧ t = t1 ++ t2.
Proof.
  unfold quiet, mbind, W_bind. destruct m as [[a|e] t1]; simpl.
  - destruct (f a) as [r' t2] eqn:Hf. intros [= -> <-] Hs. right. by eauto 6.
  - intros [= <- <-] Hs. left. by eauto.
Qed.

Lemma quiet_if {A} (b : bool) (m1 m2 : W A) :
  quiet m1 → quiet m2 → quiet (if b then m1 else m2).
Proof. by destruct b. Qed.

Ltac quiet_tac :=
  repeat (first [apply quiet_bind; [|intros ?] | apply quiet_if
                | apply quiet_print | apply quiet_print_to
                | apply quiet_print_each | apply quiet_wlift
                | apply quiet_ret]).

Section WithEnvironment.

Variable home : Path.
Variable isatty : bool.
Variable b64decode : string → res (list Byte.byte).

Lemma save_image_inv data mime dir name r t :
  has_char "/" name = false →
  save_image b64decode data mime (dir ++ [name]) = (r, t) →
  tidy dir t ∧ ∀ p, r = Ok p → p = dir ++ [name] ∧ written t = [p].
Proof.
  intros Hn. unfold save_image. rewrite (path_parent_snoc _ _ Hn). wrun.
  assert (tidy dir [Mkdir dir]) as Hdir.
  { repeat split; by repeat constructor. }
  assert (∀ e, tidy dir [Mkdir dir; e] ↔ tidy dir [e]) as Hcons.
  { intros e. unfold tidy. simpl. rewrite Forall_cons.
    split; [by intros (H1 & [_ H2] & H3)|by intros (H1 & H2 & H3)]. }
  case_bool_decide; destruct data as [| | |s| |]; simpl;
    try (intros [= <- <-]; by split).
  - destruct (b64decode s) as [image_bytes|e]; simpl; intros [= <- <-].
    + split; [|by intros p [= <-]]. apply Hcons.
      repeat split; repeat constructor. by exists name.
    + by split.
  - intros [= <- <-]. split; [|by intros p [= <-]]. apply Hcons.
    repeat split; repeat constructor. by exists name.
Qed.

Lemma show_display_inv filename cell verbose many i data r t :
  show_display home b64decode filename cell verbose many i data = (r, t) →
  let dir := get_cell_cache_dir home filename cell in
  tidy dir t
  ∧ ∀ saved, r = Ok saved →
      saved = image_of dir many i data ∧ written t = option_list saved.
Proof.
  intros Hrun dir. unfold show_display in Hrun.
  apply wlift_bind_inv in Hrun as [(e & _ & -> & ->)|(hit & Hhit & Hrun)].
  { split; [apply tidy_nil|done]. }
  destruct hit as [[mime ext]|].
  - pose proof (find_mime_elem _ _ _ _ Hhit) as Helem.
    assert ((if many
             then joinpath dir ("output_" +:+ pretty i +:+ "." +:+ ext)
             else joinpath dir ("output." +:+ ext))
            = dir ++ [image_name many i ext]) as Hpath.
    { destruct many;
        [exact (joinpath_image dir true i _ _ Helem)
        |exact (joinpath_image dir false i _ _ Helem)]. }
    cbv zeta in Hrun. fold dir in Hrun. rewrite Hpath in Hrun.
    destruct (image_name_plain many i _ _ Helem) as (Hplain & _ & _).
    apply wlift_bind_inv in Hrun as [(e & _ & -> & ->)|(payload & Hget & Hrun)].
    { split; [apply tidy_nil|done]. }
    destruct data as [| | | | |d]; try discriminate Hget.
    rewrite find_mime_image_type in Hhit.
    assert (image_type d = Some (mime, ext)) as Hty by congruence.
    apply W_bind_inv in Hrun as [(e & Hsave & ->)|(p & t1 & t3 & Hsave & Hrun & ->)].
    { destruct (save_image_inv _ _ _ _ _ _ Hplain Hsave) as [Ht _]. by split. }
    destruct (save_image_inv _ _ _ _ _ _ Hplain Hsave) as [Ht Hp].
    destruct (Hp p eq_refl) as [-> Hw].
    assert (tidy dir t3 ∧ written t3 = []
            ∧ r = Ok (Some (dir ++ [image_name many i ext]))) as (Ht3 & Hw3 & ->).
    { destruct verbose; wrun; injection Hrun as <- <-;
        (split; [|done]); apply tidy_nil. }
    split; [by apply tidy_app|].
    intros saved [= <-]. unfold image_of. rewrite Hty.
    split; [done|]. unfold written in *. by rewrite omap_app, Hw, Hw3.
  - assert (image_of dir many i data = None) as Himg.
    { destruct data as [| | | | |d]; try done.
      rewrite find_mime_image_type in Hhit. unfold image_of.
      by replace (image_type d) with (@None (string * string)) by congruence. }
    rewrite Himg. clear Himg Hhit.
    destruct (py_in data "text/plain") as [[]|]; wrun.
    + destruct (py_getitem data "text/plain"); wrun; injection Hrun as <- <-;
        (split; [apply tidy_nil|]); by intros ? [= <-].
    + destruct (py_in data "text/html") as [[]|]; wrun; injection Hrun as <- <-;
        (split; [apply tidy_nil|]); by intros ? [= <-].
    + injection Hrun as <- <-. split; [apply tidy_nil|done].
Qed.

Lemma display_loop_inv filename cell verbose many items :
  let dir := get_cell_cache_dir home filename cell in
  ∀ i saved_images r t,
    display_loop home b64decode filename cell verbose many i items saved_images
    = (r, t) →
    tidy dir t
    ∧ ∀ paths, r = Ok paths →
        paths = saved_images ++ images_from dir many i items
        ∧ written t = images_from dir many i items.
Proof.
  intros dir. induction items as [|data items IH]; intros i saved_images r t.
  - intros [= <- <-]. split; [apply tidy_nil|].
    intros paths [= <-]. by rewrite app_nil_r.
  - cbn [display_loop].
    intros [(e & Hshow & ->)|(saved & t1 & t2 & Hshow & Hloop & ->)]%W_bind_inv.
    + by destruct (show_display_inv _ _ _ _ _ _ _ _ Hshow) as [Ht _].
    + destruct (show_display_inv _ _ _ _ _ _ _ _ Hshow) as [Ht1 Hsaved].
      destruct (Hsaved _ eq_refl) as [-> Hw1].
      destruct (IH _ _ _ _ Hloop) as [Ht2 Hpaths].
      split; [by apply tidy_app|].
      intros paths ->. destruct (Hpaths _ eq_refl) as [-> Hw2].
      cbn [images_from]. fold dir. rewrite <- (assoc_L (++)). split; [done|].
      unfold written in *. by rewrite omap_app, Hw1, Hw2.
Qed.

(** The prints before and after the loop leave the disk alone: what
    [process_cell_output] saves is what the loop over the display items
    saves. *)
Lemma process_cell_output_inv output cell filename verbose r t :
  process_cell_output home isatty b64decode output cell filename verbose
  = (r, t) →
  let dir := get_cell_cache_dir home filename cell in
  let many := bool_decide (1 < length (display_data output))%nat in
  tidy dir t
  ∧ ∀ paths, r = Ok paths →
      paths = images_from dir many 0 (display_data output)
      ∧ written t = paths.
Proof.
  intros Hrun dir many. unfold process_cell_output in Hrun. fold many in Hrun.
  set (Q := λ (r : res (list Path)) t,
         tidy dir t
         ∧ ∀ paths, r = Ok paths →
             paths = images_from dir many 0 (display_data output)
             ∧ written t = paths).
  assert (∀ e t, silent t → Q (Raise e) t) as Hraise.
  { intros e t' Hs. split; [by apply silent_tidy|done]. }
  assert (∀ r t1 t2, silent t1 → Q r t2 → Q r (t1 ++ t2)) as Hprefix.
  { intros r' t1 t2 Hs [Ht Hp]. split; [apply tidy_app; [by apply silent_tidy|done]|].
    intros paths Hr. destruct (Hp _ Hr) as [-> Hw]. split; [done|].
    destruct Hs as (Hs & _). unfold written in *. by rewrite omap_app, Hs. }
  change (Q r t).
  do 4 (apply quiet_bind_inv in Hrun
          as [(e & -> & Hs)|([] & t1 & ? & Hs & Hrun & ->)];
        [by apply Hraise| |by quiet_tac];
        apply Hprefix; [done|]; clear Hs t1).
  apply W_bind_inv in Hrun
    as [(e & Hloop & ->)|(saved & t1 & t3 & Hloop & Hrun & ->)].
  { by destruct (display_loop_inv _ _ _ _ _ _ _ _ _ Hloop) as [Ht _]. }
  destruct (display_loop_inv _ _ _ _ _ _ _ _ _ Hloop) as [Ht Hpaths].
  destruct (Hpaths _ eq_refl) as [-> Hw].
  apply quiet_bind_inv in Hrun
    as [(e & -> & Hs)|([] & t4 & t5 & Hs & [= <- <-] & ->)];
    [| |destruct (error output); by quiet_tac].
  - split; [|done]. apply tidy_app; [done|by apply silent_tidy].
  - split; [apply tidy_app; [done|]; rewrite app_nil_r; by apply silent_tidy|].
    intros paths [= <-]. split; [done|].
    destruct Hs as (Hs & _). unfold written in *.
    by rewrite omap_app, Hw, app_nil_r, Hs, app_nil_r.
Qed.

(** X7. The directory of a cell is named after its label, or after its
    index when the label is missing or empty; the two are not kept apart.
    A cell without a label gets the directory named by the decimal digits
    of its index, directly in the cache directory of the file, and a cell
    whose label reads as the index of such a cell gets that very
    directory: what one saves there under a name replaces what the other
    saved under it. *)
Theorem get_cell_cache_dir_shared (filename : string) :
  (∀ cell, label_of cell = None →
     get_cell_cache_dir home filename cell
     = get_file_cache_dir home filename ++ [pretty (index cell)])
  ∧ (∀ cell other,
       label cell = Some (pretty (index other)) → label_of other = None →
       get_cell_cache_dir home filename cell
       = get_cell_cache_dir home filename other).
Proof.
  split.
  - intros cell Hl. unfold get_cell_cache_dir, cell_id. rewrite Hl. simpl.
    apply joinpath_name.
    + apply pretty_N_has_char, digit_not_slash.
    + apply pretty_N_nonempty.
    + intros Hdot.
      pose proof (pretty_N_has_char "." (index cell) digit_not_dot) as H.
      by rewrite Hdot in H.
  - intros cell other Hl Ho. unfold get_cell_cache_dir, cell_id, label_of in *.
    rewrite Hl. rewrite bool_decide_eq_false_2 by apply pretty_N_nonempty.
    by destruct (label other) as [l|]; [case_bool_decide|].
Qed.

(** X8. When [process_cell_output] returns, the paths it returns are, in
    the order of the display items, one path for each item that is a
    mapping with an image type among its keys and none for any other
    item. The image type is the first entry of [MIME_TO_EXT], in the
    order of the table, whose MIME type is a key of the item (so PNG wins
    over JPEG, and both over SVG); the file is [output.<ext>] in the
    directory of the cell when there is a single display item, and
    [output_<i>.<ext>] with [i] the position of the item among all display
    items when there are several. Whether the cell failed, and [verbose],
    make no difference. *)
Theorem process_cell_output_saves_images output cell filename verbose paths t :
  process_cell_output home isatty b64decode output cell filename verbose
  = (Ok paths, t) →
  paths = images_from (get_cell_cache_dir home filename cell)
            (bool_decide (1 < length (display_data output))%nat) 0
            (display_data output)
  ∧ ∀ d mime ext,
      image_type d = Some (mime, ext) ↔
      ∃ before after,
        MIME_TO_EXT = before ++ (mime, ext) :: after
        ∧ is_Some (d !! mime)
        ∧ Forall (λ entry, d !! entry.1 = None) before.
Proof.
  intros Hrun. destruct (process_cell_output_inv _ _ _ _ _ _ Hrun) as [_ Hp].
  destruct (Hp _ eq_refl) as [Himg _]. split; [done|].
  intros d mime ext. unfold image_type. rewrite find_first.
  apply exist_proper; intros before. apply exist_proper; intros after.
  rewrite bool_decide_eq_true. simpl.
  split; intros (Ht & Hk & Hb); (split; [done|]); (split; [done|]);
    eapply Forall_impl; [exact Hb| |exact Hb|]; simpl; intros entry.
  - rewrite bool_decide_eq_false. by rewrite eq_None_not_Some.
  - rewrite bool_decide_eq_false. by rewrite eq_None_not_Some.
Qed.

(** X9. The images of one cell never overwrite each other: the paths
    [process_cell_output] returns are pairwise distinct, there is at most
    one for each display item, and each of them names a file directly in
    the cache directory of the cell. *)
Theorem process_cell_output_distinct_files output cell filename verbose paths t :
  process_cell_output home isatty b64decode output cell filename verbose
  = (Ok paths, t) →
  NoDup paths
  ∧ (length paths ≤ length (display_data output))%nat
  ∧ Forall (λ p, ∃ name, has_char "/" name = false
                         ∧ p = get_cell_cache_dir home filename cell ++ [name])
      paths.
Proof.
  intros Hrun. destruct (process_cell_output_inv _ _ _ _ _ _ Hrun) as [Ht Hp].
  destruct (Hp _ eq_refl) as [Himg Hw]. split; [|split].
  - rewrite Himg. apply images_from_NoDup.
  - rewrite Himg. apply images_from_length.
  - rewrite <- Hw. by destruct Ht.
Qed.

(** X10. What [process_cell_output] does to the disk, also when it
    raises half-way (a display item that is no mapping, a payload that
    is not base64 text, an error without a traceback): it removes
    nothing, the one directory it creates is the cache directory of the
    cell, and every file it writes is directly in that directory. When it
    returns, the files it has written are exactly the paths it returns,
    in that order. *)
Theorem process_cell_output_disk output cell filename verbose r t :
  process_cell_output home isatty b64decode output cell filename verbose
  = (r, t) →
  tidy (get_cell_cache_dir home filename cell) t
  ∧ ∀ paths, r = Ok paths → written t = paths.
Proof.
  intros Hrun. destruct (process_cell_output_inv _ _ _ _ _ _ Hrun) as [Ht Hp].
  split; [done|]. intros paths Hr. by destruct (Hp _ Hr).
Qed.

End WithEnvironment.

(** A figure, a text and a drawing: the figure is saved as PNG and the
    drawing as JPEG, although it has an SVG too. *)
Lemma process_cell_output_saves_images_witness :
  [fig_1_dir ++ ["output_0.png"]; fig_1_dir ++ ["output_2.jpg"]]
  = images_from (get_cell_cache_dir ada "report" fig_1) true 0
      (display_data plots).
Proof.
  exact (proj1 (process_cell_output_saves_images ada false decode_hi plots
                  fig_1 "report" true _
                  (process_cell_output ada false decode_hi plots fig_1
                     "report" true).2
                  eq_refl)).
Defined.

Lemma process_cell_output_distinct_files_witness :
  let paths := [fig_1_dir ++ ["output_0.png"]; fig_1_dir ++ ["output_2.jpg"]] in
  NoDup paths
  ∧ (length paths ≤ length (display_data plots))%nat
  ∧ Forall (λ p, ∃ name, has_char "/" name = false
                         ∧ p = get_cell_cache_dir ada "report" fig_1 ++ [name])
      paths.
Proof.
  exact (process_cell_output_distinct_files ada false decode_hi plots fig_1
           "report" true _
           (process_cell_output ada false decode_hi plots fig_1 "report" true).2
           eq_refl).
Defined.

(** The same cell when the second image cannot be decoded: the first
    image has been written, and nothing else has happened to the disk. *)
Lemma process_cell_output_disk_witness :
  tidy fig_1_dir
    (process_cell_output ada true decode_hi plots fig_1 "report" false).2
  ∧ written
      (process_cell_output ada true decode_hi plots fig_1 "report" false).2
    = [fig_1_dir ++ ["output_0.png"]; fig_1_dir ++ ["output_2.jpg"]]
  ∧ tidy fig_1_dir
      (process_cell_output ada true decode_hi garbled_plots fig_1 "report"
         false).2.
Proof.
  destruct (process_cell_output_disk ada true decode_hi plots fig_1 "report"
              false _ _ eq_refl) as [Ht Hw].
  destruct (process_cell_output_disk ada true decode_hi garbled_plots fig_1
              "report" false _ _ eq_refl) as [Hg _].
  exact (conj Ht (conj (Hw _ eq_refl) Hg)).
Defined.

Lemma get_cell_cache_dir_shared_witness :
  get_cell_cache_dir ada "report" third
  = ["/"; "home"; "ada"; ".cache"; "qkernel"; "report"; "3"]
  ∧ get_cell_cache_dir ada "report" labelled_3
    = get_cell_cache_dir ada "report" third.
Proof.
  destruct (get_cell_cache_dir_shared ada "report") as [Hindex Hshared].
  exact (conj (Hindex third eq_refl) (Hshared labelled_3 third eq_refl eq_refl)).
Defined.

End OutputTheory.

Module CliTheory.
Import Samples Wiring Gallery Studio.

Ltac io_run :=
  repeat (unfold mbind, mret, IO_bind, IO_ret, io_try_except, io_try_finally,
            on_machine, on_terminal, sys_exit, echo, echo_err, clear_file_cache,
            W_bind, W_ret, emit, wlift, print, print_to, outcome,
            machine_after in *;
          cbn beta iota zeta in *).

Section WithCollaborators.

Variable km_start_kernel : string → M (string * Z).
Variable km_shutdown_kernel : pyval → M unit.
Variable connect : pyval → N → M client.
Variable stop_channels : client → M unit.
Variable home : Path.
Variable isatty : bool.
Variable b64decode : string → res (list Byte.byte).
Variable get_file_stem : Path → string.
Variable parse_qmd : Path → res (list CodeCell).
Variable filter_cells : list CodeCell → list string → res (list CodeCell).

Abbreviation cli_run := (run km_start_kernel km_shutdown_kernel connect stop_channels
                   home isatty b64decode get_file_stem parse_qmd filter_cells).

Lemma is_kernel_running_present w state w1 :
  load_state w = (Ok (Some state), w1) → is_kernel_running w = (Ok true, w).
Proof.
  intros H. destruct (load_state_Some_inv _ _ _ H) as (_ & _ & _ & ->).
  unfold is_kernel_running. run. by rewrite H.
Qed.

Lemma is_kernel_running_missing w w1 :
  load_state w = (Ok None, w1) → is_kernel_running w = (Ok false, w1).
Proof. intros H. unfold is_kernel_running. run. by rewrite H. Qed.

(** X11. [status] never trips over a missing record. It asks
    [is_kernel_running] and then loads the state a second time: when the
    first load returns a record the second returns the same one, the three
    fields of which are printed, the machine being unchanged; when the
    first load returns none, "No kernel is running." is printed and the
    machine is as that load left it. In no case does the command raise
    [AttributeError]. *)
Theorem status_reports_store (w : world) :
  (∀ state w1, load_state w = (Ok (Some state), w1) →
     status w
     = (Return (),
        [ Print Stdout [Lit "Kernel is running:"; Lit nl];
          Print Stdout [Lit "  Name: "; Str (kernel_name state); Lit nl];
          Print Stdout [Lit "  PID: "; Str (pid state); Lit nl];
          Print Stdout [Lit "  Connection file: ";
                        Str (connection_file state); Lit nl] ],
        w))
  ∧ (∀ w1, load_state w = (Ok None, w1) →
       status w
       = (Return (), [Print Stdout [Lit "No kernel is running."; Lit nl]], w1))
  ∧ outcome status w ≠ Throw (OtherError "AttributeError").
Proof.
  assert (∀ state w1, load_state w = (Ok (Some state), w1) →
            status w
            = (Return (),
               [ Print Stdout [Lit "Kernel is running:"; Lit nl];
                 Print Stdout [Lit "  Name: "; Str (kernel_name state); Lit nl];
                 Print Stdout [Lit "  PID: "; Str (pid state); Lit nl];
                 Print Stdout [Lit "  Connection file: ";
                               Str (connection_file state); Lit nl] ],
               w)) as Hup.
  { intros state w1 H. unfold status. io_run.
    rewrite (is_kernel_running_present _ _ _ H).
    destruct (load_state_Some_inv _ _ _ H) as (_ & _ & _ & ->).
    by rewrite H. }
  assert (∀ w1, load_state w = (Ok None, w1) →
            status w
            = (Return (), [Print Stdout [Lit "No kernel is running."; Lit nl]],
               w1)) as Hdown.
  { intros w1 H. unfold status. io_run.
    by rewrite (is_kernel_running_missing _ _ H). }
  split; [done|]. split; [done|].
  destruct (load_state w) as [[[state|]|e] w1] eqn:H.
  - unfold outcome. by rewrite (Hup _ _ eq_refl).
  - unfold outcome. by rewrite (Hdown _ eq_refl).
  - destruct (load_state_raises _ _ _ H) as (-> & _ & He).
    assert (outcome status w = Throw e) as ->
      by (unfold outcome, status, is_kernel_running; io_run; run; by rewrite H).
    intros [= ->]. rewrite !elem_of_cons, elem_of_nil in He.
    destruct He as [He|[He|[He|[He|[He|[]]]]]]; discriminate He.
Qed.

Abbreviation cli_session := (session km_start_kernel km_shutdown_kernel connect
                               stop_channels home isatty b64decode).

Lemma outcome_bind {A B} (m : IO A) (f : A → IO B) w a t w' :
  m w = (Return a, t, w') → outcome (m ≫= f) w = outcome (f a) w'.
Proof.
  intros H. unfold outcome, mbind, IO_bind. rewrite H.
  by destruct (f a w') as [[r t'] w''].
Qed.

Lemma machine_after_bind {A B} (m : IO A) (f : A → IO B) w a t w' :
  m w = (Return a, t, w') → machine_after (m ≫= f) w = machine_after (f a) w'.
Proof.
  intros H. unfold machine_after, mbind, IO_bind. rewrite H.
  by destruct (f a w') as [[r t'] w''].
Qed.

(** A step that does not return ends the command. *)
Lemma outcome_bind_Exit {A B} (m : IO A) (f : A → IO B) w code t w' :
  m w = (Exit code, t, w') → outcome (m ≫= f) w = Exit code.
Proof. intros H. unfold outcome, mbind, IO_bind. by rewrite H. Qed.

Lemma outcome_bind_Throw {A B} (m : IO A) (f : A → IO B) w e t w' :
  m w = (Throw e, t, w') → outcome (m ≫= f) w = Throw e.
Proof. intros H. unfold outcome, mbind, IO_bind. by rewrite H. Qed.

Lemma machine_after_bind_Exit {A B} (m : IO A) (f : A → IO B) w code t w' :
  m w = (Exit code, t, w') → machine_after (m ≫= f) w = w'.
Proof. intros H. unfold machine_after, mbind, IO_bind. by rewrite H. Qed.

Lemma machine_after_bind_Throw {A B} (m : IO A) (f : A → IO B) w e t w' :
  m w = (Throw e, t, w') → machine_after (m ≫= f) w = w'.
Proof. intros H. unfold machine_after, mbind, IO_bind. by rewrite H. Qed.

Ltac io_step :=
  first [erewrite outcome_bind by reflexivity
        |erewrite machine_after_bind by reflexivity].

(** [run] written with [session] for its last part. *)
Lemma run_unfold file cells timeout kernel :
  cli_run file cells timeout kernel =
    (let file_path := joinpath [] file in
     let filename := get_file_stem file_path in
     echo [Lit ("Clearing cache for " +:+ filename +:+ "...")];;
     on_terminal (clear_file_cache home filename);;
     all_cells ← io_try_except (on_terminal (wlift (parse_qmd file_path)))
                   is_Exception
                   (λ e, echo_err [Lit ("Error parsing " +:+ file +:+ ": ");
                                   Why e];;
                         sys_exit 1);
     if bool_decide (all_cells = []) then
       echo [Lit ("No code cells found in " +:+ file)]
     else
       echo [Lit ("Found " +:+ pretty (length all_cells)
                  +:+ " code cell(s) in " +:+ file)];;
       cells_to_run ←
         match cells with
         | Some cells =>
             if truthy (PStr cells) then
               let selectors := str_strip <$> str_split "," cells in
               io_try_except
                 (on_terminal (wlift (filter_cells all_cells selectors)))
                 is_ValueError
                 (λ e, echo_err [Lit "Error: "; Why e];; sys_exit 1)
             else mret all_cells
         | None => mret all_cells
         end;
       echo [Lit ("Running " +:+ pretty (length cells_to_run)
                  +:+ " cell(s)...")];;
       cli_session filename timeout kernel cells_to_run).
Proof. reflexivity. Qed.

(** How the selection of the cells ends. *)
Lemma select_cells all_cells cells w :
  match cells with
  | Some cells =>
      if truthy (PStr cells) then
        let selectors := str_strip <$> str_split "," cells in
        io_try_except
          (on_terminal (wlift (filter_cells all_cells selectors)))
          is_ValueError
          (λ e, echo_err [Lit "Error: "; Why e];; sys_exit 1)
      else mret all_cells
  | None => mret all_cells
  end w
  = match selected filter_cells all_cells cells with
    | Ok cells_to_run => (Return cells_to_run, [], w)
    | Raise e =>
        if is_ValueError e
        then (Exit 1, [Print Stderr [Lit "Error: "; Why e; Lit nl]], w)
        else (Throw e, [], w)
    end.
Proof.
  unfold selected. destruct cells as [text|]; [|done].
  unfold truthy. destruct (bool_decide (text = EmptyString)); [done|].
  io_run. destruct (filter_cells _ _) as [cells_to_run|e]; [done|].
  by destruct (is_ValueError e).
Qed.

Lemma parse_file file w :
  io_try_except (on_terminal (wlift (parse_qmd (joinpath [] file))))
    is_Exception
    (λ e, echo_err [Lit ("Error parsing " +:+ file +:+ ": "); Why e];;
          sys_exit 1) w
  = match parse_qmd (joinpath [] file) with
    | Ok all_cells => (Return all_cells, [], w)
    | Raise e =>
        (Exit 1,
         [Print Stderr [Lit ("Error parsing " +:+ file +:+ ": "); Why e; Lit nl]],
         w)
    end.
Proof. io_run. by destruct (parse_qmd _). Qed.

(** How [run] ends and what it leaves, up to the session. *)
Lemma run_outcome file cells timeout kernel w :
  outcome (cli_run file cells timeout kernel) w =
    match parse_qmd (joinpath [] file) with
    | Raise _ => Exit 1
    | Ok all_cells =>
        if bool_decide (all_cells = []) then Return ()
        else match selected filter_cells all_cells cells with
             | Raise e => if is_ValueError e then Exit 1 else Throw e
             | Ok cells_to_run =>
                 outcome (cli_session (get_file_stem (joinpath [] file))
                            timeout kernel cells_to_run) w
             end
    end.
Proof.
  rewrite run_unfold. cbv zeta. do 2 io_step.
  pose proof (parse_file file) as Hp.
  destruct (parse_qmd (joinpath [] file)) as [all_cells|e].
  2:{ by erewrite outcome_bind_Exit. }
  erewrite outcome_bind by apply Hp.
  case_bool_decide; [done|]. io_step.
  pose proof (select_cells all_cells cells) as Hs.
  destruct (selected filter_cells all_cells cells) as [cells_to_run|e].
  - erewrite outcome_bind by apply Hs. by io_step.
  - destruct (is_ValueError e).
    + by erewrite outcome_bind_Exit.
    + by erewrite outcome_bind_Throw.
Qed.

Lemma run_machine_after file cells timeout kernel w :
  machine_after (cli_run file cells timeout kernel) w =
    match parse_qmd (joinpath [] file) with
    | Raise _ => w
    | Ok all_cells =>
        if bool_decide (all_cells = []) then w
        else match selected filter_cells all_cells cells with
             | Raise e => w
             | Ok cells_to_run =>
                 machine_after (cli_session (get_file_stem (joinpath [] file))
                                  timeout kernel cells_to_run) w
             end
    end.
Proof.
  rewrite run_unfold. cbv zeta. do 2 io_step.
  pose proof (parse_file file) as Hp.
  destruct (parse_qmd (joinpath [] file)) as [all_cells|e].
  2:{ by erewrite machine_after_bind_Exit. }
  erewrite machine_after_bind by apply Hp.
  case_bool_decide; [done|]. io_step.
  pose proof (select_cells all_cells cells) as Hs.
  destruct (selected filter_cells all_cells cells) as [cells_to_run|e].
  - erewrite machine_after_bind by apply Hs. by io_step.
  - destruct (is_ValueError e).
    + by erewrite machine_after_bind_Exit.
    + by erewrite machine_after_bind_Throw.
Qed.

Lemma session_keeps filename timeout kernel cells_to_run w state w1 :
  (∀ file ready w0, (connect file ready w0).2 = w0) →
  (∀ c w0, (stop_channels c w0).2 = w0) →
  load_state w = (Ok (Some state), w1) →
  machine_after (cli_session filename timeout kernel cells_to_run) w = w.
Proof.
  intros Hconnect Hstop Hload. unfold session, machine_after. io_run.
  rewrite (is_kernel_running_present _ _ _ Hload). cbn [negb]. io_run.
  rewrite (TransportTheory.get_client_present _ _ _ _ _ Hload).
  pose proof (Hconnect (connection_file state) (py_or timeout 30) w) as Hc.
  destruct (connect _ _ w) as [[c|e] w2]; simpl in Hc; subst w2; io_run.
  - destruct (run_cells _ _ _ _ _ _ _ _ _) as [[r t] c'].
    destruct r as [[imgs n]|e']; io_run;
      pose proof (Hstop c' w) as Hs;
      destruct (stop_channels c' w) as [[[]|e] w3]; simpl in Hs; subst w3;
      io_run; try done.
    destruct (print_summary (N.of_nat (length cells_to_run)) imgs n)
      as [[[]|e] t']; io_run; [|done].
    by case_bool_decide.
  - by destruct (is_RuntimeError e).
Qed.

Lemma run_cells_inv filename timeout cells :
  ∀ c imgs0 n0 imgs n t c',
    run_cells home isatty b64decode filename timeout cells c imgs0 n0
    = (Ok (imgs, n), t, c') →
    let outs := outputs timeout cells c in
    length outs = length cells
    ∧ n = (n0 + N.of_nat (length (filter (λ o, failed o = true) outs)))%N
    ∧ imgs = imgs0 ++ concat (zip_with (cell_images home filename) cells outs)
    ∧ written t = concat (zip_with (cell_images home filename) cells outs).
Proof.
  induction cells as [|cell cells IH]; intros c imgs0 n0 imgs n t c'.
  - intros [= <- <- <- <-]. simpl. rewrite app_nil_r.
    split; [done|]. split; [lia|]. by split.
  - cbn [run_cells outputs].
    destruct (execute_code (source cell) c timeout) as [[output|e] c1];
      [|discriminate].
    destruct (process_cell_output _ _ _ output cell filename true)
      as [[saved|e] t1] eqn:Hsave; [|discriminate].
    destruct (run_cells _ _ _ _ _ cells c1 _ _) as [[r t2] c2] eqn:Hrest.
    intros [= -> <- <-].
    destruct (OutputTheory.process_cell_output_inv _ _ _ _ _ _ _ _ _ Hsave)
      as [_ Hp].
    destruct (Hp _ eq_refl) as [Himg Hw].
    change (saved = cell_images home filename cell output) in Himg.
    destruct (IH _ _ _ _ _ _ _ Hrest) as (Hlen & Hn & Himgs & Hws).
    cbn zeta. cbn [length zip_with concat].
    rewrite filter_cons. split; [by rewrite Hlen|]. split; [|split].
    + rewrite Hn. destruct (failed output); [|by rewrite decide_False].
      rewrite decide_True by done. cbn [length]. lia.
    + rewrite Himgs, <- Himg. by rewrite (assoc_L (++)).
    + unfold written in *. rewrite omap_app, Hw, Hws. by rewrite Himg.
Qed.

Lemma start_kernel_absent name w :
  state_file w = None →
  start_kernel km_start_kernel name w =
    match km_start_kernel name w with
    | (Ok (file, child), w2) =>
        let state := mkKernelState (PStr file) (PStr name) (PInt child) in
        (Ok state, persisted state w2)
    | (Raise e, w2) => (Raise e, w2)
    end.
Proof.
  intros Hf. unfold start_kernel. unfold mbind at 1, M_bind.
  rewrite (load_state_absent _ Hf). unfold mbind, M_bind.
  by destruct (km_start_kernel name w) as [[[file child]|e] w2].
Qed.

Lemma load_state_persisted_fits state w e w' :
  is_Ok (as_pid (pid state)) = true →
  load_state (persisted state w) ≠ (Raise e, w').
Proof.
  intros Hfit. rewrite load_state_unfold. cbn [persisted state_file].
  rewrite new_KernelState_asdict.
  destruct (as_pid (pid state)) as [z|]; [|done].
  by repeat case_match.
Qed.

Lemma session_tears_down filename timeout kernel cells_to_run w :
  state_file w = None →
  (∀ name w0, state_file (km_start_kernel name w0).2 = state_file w0) →
  (∀ name w0 file child w',
     km_start_kernel name w0 = (Ok (file, child), w') →
     is_Ok (as_pid (PInt child)) = true) →
  (∀ file ready w0, (connect file ready w0).2 = w0) →
  (∀ file ready w0 e,
     (connect file ready w0).1 = Raise e → is_RuntimeError e = true) →
  (∀ c w0, stop_channels c w0 = (Ok (), w0)) →
  state_file (machine_after (cli_session filename timeout kernel cells_to_run) w)
  = None.
Proof.
  intros Hf Hkm Hpid Hconnect Hraise Hstop. unfold session, machine_after. io_run.
  rewrite (is_kernel_running_absent _ Hf). cbn [negb]. io_run.
  rewrite (start_kernel_absent _ _ Hf).
  pose proof (Hkm kernel w) as Hframe. pose proof (Hpid kernel w) as Hfit.
  destruct (km_start_kernel kernel w) as [[[file child]|e] w2]; cbn zeta; io_run.
  2:{ simpl in Hframe. destruct (is_RuntimeError e); io_run; simpl; congruence. }
  specialize (Hfit _ _ _ eq_refl).
  set (state := mkKernelState (PStr file) (PStr kernel) (PInt child)).
  set (p := persisted state w2).
  destruct (load_state p) as [[[state'|]|e] w3] eqn:Hload.
  - destruct (load_state_Some_inv _ _ _ Hload) as (_ & _ & _ & ->).
    destruct (stop_kernel_running km_shutdown_kernel _ _ _ Hload) as [w4 Hdown].
    rewrite (TransportTheory.get_client_present _ _ _ _ _ Hload).
    pose proof (Hconnect (connection_file state') (py_or timeout 30) p) as Hc.
    pose proof (Hraise (connection_file state') (py_or timeout 30) p) as He.
    destruct (connect _ _ p) as [[c|e] w5]; simpl in Hc, He; subst w5; io_run.
    + destruct (run_cells _ _ _ _ _ _ _ _ _) as [[r t] c'].
      destruct r as [[imgs n]|e']; io_run; rewrite Hstop; io_run;
        rewrite Hdown; io_run; [|done].
      destruct (print_summary (N.of_nat (length cells_to_run)) imgs n)
        as [[[]|e] t']; io_run; [|done].
      by case_bool_decide.
    + rewrite (He _ eq_refl). io_run. by rewrite Hdown.
  - rewrite (TransportTheory.get_client_absent _ _ _ _ Hload). io_run.
    assert (state_file w3 = None) as Hgone
      by by rewrite (load_state_None_inv _ _ Hload).
    rewrite (stop_kernel_not_running _ _ _ (load_state_absent _ Hgone)).
    by io_run.
  - by destruct (load_state_persisted_fits state w2 e w3 Hfit).
Qed.

Lemma outcome_bind_Return {A B} (m : IO A) (f : A → IO B) w b :
  outcome (m ≫= f) w = Return b →
  ∃ a t w', m w = (Return a, t, w') ∧ outcome (f a) w' = Return b.
Proof.
  unfold outcome, mbind, IO_bind.
  destruct (m w) as [[[a|e|code] t] w']; [|discriminate..].
  intros H. exists a, t, w'. split; [done|].
  by destruct (f a w') as [[r t'] w''].
Qed.

Lemma try_finally_Return {A} (r : res A) t cleanup w a t' w' :
  io_try_finally (on_terminal (r, t)) cleanup w = (Return a, t', w') →
  r = Ok a.
Proof.
  unfold io_try_finally, on_terminal.
  destruct r as [a0|e]; destruct (cleanup w) as [[[[]|e'|code] t1] w1];
    intros; by simplify_eq.
Qed.

Lemma get_client_Ok timeout w c w' :
  get_client connect None timeout w = (Ok c, w') →
  ∃ file ready w1, connect file ready w1 = (Ok c, w').
Proof.
  unfold get_client. run.
  destruct (load_state w) as [[[state|]|e] w1]; [|discriminate..].
  intros H. by eauto.
Qed.

(** A session that returns has connected a client and run every cell on
    it, none of them failing. *)
Lemma session_Return filename timeout kernel cells_to_run w :
  outcome (cli_session filename timeout kernel cells_to_run) w = Return () →
  ∃ file ready w1 c w2 imgs t c',
    connect file ready w1 = (Ok c, w2)
    ∧ run_cells home isatty b64decode filename timeout cells_to_run c [] 0%N
      = (Ok (imgs, 0%N), t, c').
Proof.
  intros H. unfold session in H.
  apply outcome_bind_Return in H as (had_kernel & t0 & w1 & _ & H).
  apply outcome_bind_Return in H as (temp_kernel & t1 & w2 & _ & H).
  apply outcome_bind_Return in H as (c & t2 & w3 & Hc & H).
  assert (get_client connect None timeout w2 = (Ok c, w3)) as Hget.
  { clear H. io_run.
    destruct (get_client connect None timeout w2) as [[c0|e] w']; io_run;
      [by injection Hc as -> _ ->|].
    destruct (is_RuntimeError e); [|discriminate].
    destruct temp_kernel; io_run; [|discriminate].
    by destruct (stop_kernel km_shutdown_kernel w') as [[b|e'] w'']. }
  destruct (get_client_Ok _ _ _ _ Hget) as (file & ready & w0 & Hconnect).
  destruct (run_cells _ _ _ _ _ _ c _ _) as [[r t] c'] eqn:Hrun.
  apply outcome_bind_Return in H as ([imgs n] & t3 & w4 & Hfin & H).
  assert (r = Ok (imgs, n)) as ->.
  { by apply try_finally_Return in Hfin. }
  apply outcome_bind_Return in H as ([] & t4 & w5 & _ & H).
  case_bool_decide as Hn; [discriminate|].
  assert (n = 0%N) as -> by lia. by eauto 10.
Qed.

Lemma session_leaks filename timeout kernel cells_to_run w conn child w2 e :
  state_file w = None →
  km_start_kernel kernel w = (Ok (conn, child), w2) →
  let state := mkKernelState (PStr conn) (PStr kernel) (PInt child) in
  signalable w2 (PInt child) = true → resolves w2 (PStr conn) = true →
  connect (PStr conn) (py_or timeout 30) (persisted state w2)
  = (Raise e, persisted state w2) →
  is_RuntimeError e = false →
  outcome (cli_session filename timeout kernel cells_to_run) w = Throw e
  ∧ machine_after (cli_session filename timeout kernel cells_to_run) w
    = persisted state w2.
Proof.
  intros Hf Hk state Hs Hr Hc He.
  assert (load_state (persisted state w2)
          = (Ok (Some state), persisted state w2)) as Hload.
  { apply load_state_Some; [|exact Hs|exact Hr].
    exact (proj2 (save_state_overwrites state w2)). }
  assert (get_client connect None timeout (persisted state w2)
          = (Raise e, persisted state w2)) as Hget.
  { rewrite (TransportTheory.get_client_present _ _ _ _ _ Hload). exact Hc. }
  subst state. unfold session, outcome, machine_after. io_run.
  rewrite (is_kernel_running_absent _ Hf). cbn [negb]. io_run.
  rewrite (start_kernel_absent _ _ Hf), Hk. cbn zeta. io_run.
  rewrite Hget. io_run. rewrite He. split; reflexivity.
Qed.

Lemma outcome_bind_Exit_inv {A B} (m : IO A) (f : A → IO B) w code :
  outcome (m ≫= f) w = Exit code →
  outcome m w = Exit code
  ∨ ∃ a t w', m w = (Return a, t, w') ∧ outcome (f a) w' = Exit code.
Proof.
  unfold outcome, mbind, IO_bind.
  destruct (m w) as [[[a|e|code'] t] w']; simpl.
  - intros H. right. exists a, t, w'. split; [done|].
    by destruct (f a w') as [[r t'] w''].
  - discriminate.
  - intros [= ->]. by left.
Qed.

Lemma on_machine_no_Exit {A} (m : M A) w code :
  outcome (on_machine m) w ≠ Exit code.
Proof. unfold outcome, on_machine. by destruct (m w) as [[a|e] w']. Qed.

Lemma on_terminal_no_Exit {A} (m : W A) w code :
  outcome (on_terminal m) w ≠ Exit code.
Proof. unfold outcome, on_terminal. by destruct m as [[a|e] t]. Qed.

(** [sys.exit] is only ever called with 1. *)
Lemma session_Exit filename timeout kernel cells_to_run w code :
  outcome (cli_session filename timeout kernel cells_to_run) w = Exit code →
  code = 1.
Proof.
  intros H. unfold session in H.
  apply outcome_bind_Exit_inv in H as [H|(had_kernel & t0 & w1 & _ & H)];
    [by apply on_machine_no_Exit in H|].
  apply outcome_bind_Exit_inv in H as [H|(temp_kernel & t1 & w2 & _ & H)].
  { destruct had_kernel; [discriminate|]. cbn [negb] in H. io_run.
    destruct (start_kernel km_start_kernel kernel w1) as [[state|e] w']; io_run;
      [discriminate|].
    destruct (is_RuntimeError e); io_run; [by injection H|discriminate]. }
  apply outcome_bind_Exit_inv in H as [H|(c & t2 & w3 & _ & H)].
  { io_run.
    destruct (get_client connect None timeout w2) as [[c|e] w']; io_run;
      [discriminate|].
    destruct (is_RuntimeError e); io_run; [|discriminate].
    destruct temp_kernel; io_run; [|by injection H].
    destruct (stop_kernel km_shutdown_kernel w') as [[b|e'] w'']; io_run;
      [by injection H|discriminate]. }
  destruct (run_cells _ _ _ _ _ _ c _ _) as [[r t] c'].
  apply outcome_bind_Exit_inv in H as [H|([imgs n] & t3 & w4 & _ & H)].
  { io_run. destruct r as [[imgs n]|e]; io_run;
      destruct (stop_channels c' w3) as [[[]|e'] w']; io_run; try discriminate;
      destruct temp_kernel; io_run; try discriminate;
      destruct (stop_kernel km_shutdown_kernel w') as [[b|e''] w'']; io_run;
      discriminate. }
  apply outcome_bind_Exit_inv in H as [H|([] & t4 & w5 & _ & H)];
    [by apply on_terminal_no_Exit in H|].
  case_bool_decide; [by injection H|discriminate].
Qed.

Lemma run_Exit file cells timeout kernel w code :
  outcome (cli_run file cells timeout kernel) w = Exit code → code = 1.
Proof.
  rewrite run_outcome. repeat case_match; try discriminate;
    try (by intros [= <-]). apply session_Exit.
Qed.

(** X12. Failures before the session do not touch the machine: when the
    file cannot be parsed, [run] exits with status 1; when it holds no
    code cell, [run] returns; when a selector is refused with a
    [ValueError], [run] exits with status 1. In all three cases no kernel
    is looked for, started or stopped, and the state file is not even
    read: the machine is exactly as it was. *)
Theorem run_setup_failures file cells timeout kernel w :
  (∀ e, parse_qmd (joinpath [] file) = Raise e →
     outcome (cli_run file cells timeout kernel) w = Exit 1
     ∧ machine_after (cli_run file cells timeout kernel) w = w)
  ∧ (parse_qmd (joinpath [] file) = Ok [] →
     outcome (cli_run file cells timeout kernel) w = Return ()
     ∧ machine_after (cli_run file cells timeout kernel) w = w)
  ∧ (∀ all_cells e,
       parse_qmd (joinpath [] file) = Ok all_cells → all_cells ≠ [] →
       selected filter_cells all_cells cells = Raise e →
       is_ValueError e = true →
       outcome (cli_run file cells timeout kernel) w = Exit 1
       ∧ machine_after (cli_run file cells timeout kernel) w = w).
Proof.
  rewrite run_outcome, run_machine_after. split; [|split].
  - by intros e ->.
  - by intros ->.
  - intros all_cells e -> Hcells -> ->.
    by rewrite bool_decide_eq_false_2.
Qed.

(** X13. The loop of [run] over the cells. When it gets to its end, every
    cell has been executed, in order, each on the client as the request
    before left it, whether or not earlier cells failed; [error_count] is
    the number of outputs that carry an error; and the saved images are
    those of the cells, cell by cell, which are exactly the files the loop
    has written. *)
Theorem run_cells_counts_failures filename timeout cells_to_run c imgs n t c' :
  run_cells home isatty b64decode filename timeout cells_to_run c [] 0%N
  = (Ok (imgs, n), t, c') →
  let outs := outputs timeout cells_to_run c in
  length outs = length cells_to_run
  ∧ n = N.of_nat (length (filter (λ output, failed output = true) outs))
  ∧ imgs = concat (zip_with (cell_images home filename) cells_to_run outs)
  ∧ written t = imgs.
Proof.
  intros Hrun outs.
  destruct (run_cells_inv _ _ _ _ _ _ _ _ _ _ Hrun) as (Hlen & Hn & Himgs & Hw).
  split; [done|]. split; [by rewrite Hn, N.add_0_l|]. split; [done|].
  by rewrite Hw, Himgs.
Qed.

(** X14. The exit status of [run]. [sys.exit] is only ever called with
    status 1; and the status is 0 only when the file holds no code cell,
    or when a client was connected and every cell to run was executed on
    it and none of the outputs carries an error. In every other case (a
    failing cell, an exception that gets out, a setup failure) the status
    is not 0. *)
Theorem run_exit_status_zero file cells timeout kernel w :
  (∀ code, outcome (cli_run file cells timeout kernel) w = Exit code → code = 1)
  ∧ (exit_status (outcome (cli_run file cells timeout kernel) w) = 0 →
     parse_qmd (joinpath [] file) = Ok []
     ∨ ∃ all_cells cells_to_run conn ready w1 c w2,
         parse_qmd (joinpath [] file) = Ok all_cells
         ∧ selected filter_cells all_cells cells = Ok cells_to_run
         ∧ connect conn ready w1 = (Ok c, w2)
         ∧ length (outputs timeout cells_to_run c) = length cells_to_run
         ∧ Forall (λ output, failed output = false)
             (outputs timeout cells_to_run c)).
Proof.
  split; [intros code; apply run_Exit|].
  intros Hstatus.
  assert (outcome (cli_run file cells timeout kernel) w = Return ()) as Hret.
  { destruct (outcome (cli_run file cells timeout kernel) w) as [[]|e|code]
      eqn:Hout; [done|discriminate|].
    apply run_Exit in Hout as ->. discriminate. }
  clear Hstatus. revert Hret. rewrite run_outcome.
  destruct (parse_qmd (joinpath [] file)) as [all_cells|e] eqn:Hparse;
    [|discriminate].
  case_bool_decide as Hcells; [intros _; left; by rewrite Hcells|].
  destruct (selected filter_cells all_cells cells) as [cells_to_run|e] eqn:Hsel;
    [|by destruct (is_ValueError e)].
  intros (conn & ready & w1 & c & w2 & imgs & t & c' & Hconnect & Hrun)
    %session_Return.
  destruct (run_cells_inv _ _ _ _ _ _ _ _ _ _ Hrun) as (Hlen & Hn & _ & _).
  right. exists all_cells, cells_to_run, conn, ready, w1, c, w2.
  do 4 (split; [done|]).
  assert (filter (λ o, failed o = true) (outputs timeout cells_to_run c) = [])
    as Hnone by (apply nil_length_inv; lia).
  apply Forall_forall. intros output Hin.
  destruct (failed output) eqn:Hfailed; [|done].
  assert (output ∈ filter (λ o, failed o = true)
                     (outputs timeout cells_to_run c)) as Hbad
    by by apply list_elem_of_filter.
  rewrite Hnone in Hbad. by apply elem_of_nil in Hbad.
Qed.

(** X15. [run] leaves a kernel that was running alone. When [load_state]
    returns a record at the start, and connecting a client and stopping
    its channels do not change the machine, then whatever the file, the
    selectors and the cells do ([run] may return, exit or raise), the
    machine is afterwards exactly as it was: no kernel was started or
    stopped, and the state file still holds the record. *)
Theorem run_keeps_running_kernel file cells timeout kernel w state w1 :
  (∀ conn ready w0, (connect conn ready w0).2 = w0) →
  (∀ c w0, (stop_channels c w0).2 = w0) →
  load_state w = (Ok (Some state), w1) →
  machine_after (cli_run file cells timeout kernel) w = w.
Proof.
  intros Hconnect Hstop Hload. rewrite run_machine_after.
  repeat case_match; try done. by eapply session_keeps.
Qed.

(** X16. [run] does not leave its temporary kernel on record. On a
    machine without a state file, when the kernel manager does not touch
    the state file and starts processes whose ids fit a C [int], when
    connecting does not change the machine and fails with a
    [RuntimeError] if it fails, and when stopping the channels works, then
    there is no state file after [run], however it ends: whether the file
    could be parsed, whether the kernel started and got ready, and
    whether the cells ran, failed or made the loop raise. *)
Theorem run_tears_down_temporary_kernel file cells timeout kernel w :
  state_file w = None →
  (∀ name w0, state_file (km_start_kernel name w0).2 = state_file w0) →
  (∀ name w0 conn child w',
     km_start_kernel name w0 = (Ok (conn, child), w') →
     is_Ok (as_pid (PInt child)) = true) →
  (∀ conn ready w0, (connect conn ready w0).2 = w0) →
  (∀ conn ready w0 e,
     (connect conn ready w0).1 = Raise e → is_RuntimeError e = true) →
  (∀ c w0, stop_channels c w0 = (Ok (), w0)) →
  state_file (machine_after (cli_run file cells timeout kernel) w) = None.
Proof.
  intros Hf Hkm Hpid Hconnect Hraise Hstop. rewrite run_machine_after.
  repeat case_match; try done. by apply session_tears_down.
Qed.

(** X17. The teardown of the temporary kernel depends on how connecting
    fails. When [run] has started a kernel that is up, with its connection
    file in place, and connecting then raises an exception that is not a
    [RuntimeError], no [except] clause applies: the exception gets out of
    [run], [stop_kernel] is not called, and the machine is left as
    [start_kernel] left it, the kernel running and on record. *)
Theorem run_leaks_temporary_kernel file cells timeout kernel w all_cells
    cells_to_run conn child w2 e :
  state_file w = None →
  parse_qmd (joinpath [] file) = Ok all_cells → all_cells ≠ [] →
  selected filter_cells all_cells cells = Ok cells_to_run →
  km_start_kernel kernel w = (Ok (conn, child), w2) →
  let state := mkKernelState (PStr conn) (PStr kernel) (PInt child) in
  signalable w2 (PInt child) = true → resolves w2 (PStr conn) = true →
  connect (PStr conn) (py_or timeout 30) (persisted state w2)
  = (Raise e, persisted state w2) →
  is_RuntimeError e = false →
  outcome (cli_run file cells timeout kernel) w = Throw e
  ∧ machine_after (cli_run file cells timeout kernel) w = persisted state w2
  ∧ load_state (persisted state w2) = (Ok (Some state), persisted state w2).
Proof.
  intros Hf Hparse Hcells Hsel Hk state Hs Hr Hc He.
  rewrite run_outcome, run_machine_after, Hparse, Hsel.
  rewrite bool_decide_eq_false_2 by exact Hcells.
  destruct (session_leaks (get_file_stem (joinpath [] file)) timeout kernel
              cells_to_run w conn child w2 e Hf Hk Hs Hr Hc He) as [Hout Hafter].
  split; [exact Hout|]. split; [exact Hafter|].
  apply load_state_Some; [|exact Hs|exact Hr].
  exact (proj2 (save_state_overwrites state w2)).
Qed.

End WithCollaborators.

Lemma status_reports_store_witness :
  status running
  = (Return (),
     [ Print Stdout [Lit "Kernel is running:"; Lit nl];
       Print Stdout [Lit "  Name: "; Str (PStr "python3"); Lit nl];
       Print Stdout [Lit "  PID: "; Str (PInt 4242); Lit nl];
       Print Stdout [Lit "  Connection file: ";
                     Str (PStr "/run/user/kernel-4242.json"); Lit nl] ],
     running)
  ∧ status stale
    = (Return (), [Print Stdout [Lit "No kernel is running."; Lit nl]],
       forget stale).
Proof.
  destruct (status_reports_store running) as (Hup & _ & _).
  destruct (status_reports_store stale) as (_ & Hdown & _).
  exact (conj (Hup kernel_4242 running eq_refl) (Hdown (forget stale) eq_refl)).
Defined.

(** A file that cannot be read, a file without code, and a selector that
    matches nothing, on a machine with a stale record: the record is
    still there afterwards. *)
Lemma run_setup_failures_witness :
  (outcome (run spawn_7 shutdown_4242 attach_two detach ada false decode_hi
              stem unreadable pick "report.qmd" None None "python3") stale
   = Exit 1
   ∧ machine_after (run spawn_7 shutdown_4242 attach_two detach ada false
                      decode_hi stem unreadable pick "report.qmd" None None
                      "python3") stale
     = stale)
  ∧ (outcome (run spawn_7 shutdown_4242 attach_two detach ada false decode_hi
                stem parse_nothing pick "report.qmd" None None "python3") stale
     = Return ()
     ∧ machine_after (run spawn_7 shutdown_4242 attach_two detach ada false
                        decode_hi stem parse_nothing pick "report.qmd" None
                        None "python3") stale
       = stale)
  ∧ (outcome (run spawn_7 shutdown_4242 attach_two detach ada false decode_hi
                stem parse_two pick "report.qmd" (Some "setup, 7") None
                "python3") stale
     = Exit 1
     ∧ machine_after (run spawn_7 shutdown_4242 attach_two detach ada false
                        decode_hi stem parse_two pick "report.qmd"
                        (Some "setup, 7") None "python3") stale
       = stale).
Proof.
  destruct (run_setup_failures spawn_7 shutdown_4242 attach_two detach ada
              false decode_hi stem unreadable pick "report.qmd" None None
              "python3" stale) as (Hparse & _ & _).
  destruct (run_setup_failures spawn_7 shutdown_4242 attach_two detach ada
              false decode_hi stem parse_nothing pick "report.qmd" None None
              "python3" stale) as (_ & Hempty & _).
  destruct (run_setup_failures spawn_7 shutdown_4242 attach_two detach ada
              false decode_hi stem parse_two pick "report.qmd"
              (Some "setup, 7") None "python3" stale) as (_ & _ & Hselect).
  refine (conj (Hparse _ eq_refl) (conj (Hempty eq_refl)
            (Hselect [setup; answer] (OtherError "ValueError") eq_refl _
               eq_refl eq_refl))).
  discriminate.
Defined.

(** Two cells, the first of which fails: both are executed and one error
    is counted. *)
Lemma run_cells_counts_failures_witness :
  length (outputs None [setup; answer] failing_first) = 2%nat
  ∧ 1%N = N.of_nat (length (filter (λ output, failed output = true)
                              (outputs None [setup; answer] failing_first)))
  ∧ [] = concat (zip_with (cell_images ada "report") [setup; answer]
                   (outputs None [setup; answer] failing_first))
  ∧ written (run_cells ada false decode_hi "report" None [setup; answer]
               failing_first [] 0%N).1.2
    = [].
Proof.
  exact (run_cells_counts_failures ada false decode_hi "report" None
           [setup; answer] failing_first [] 1%N
           (run_cells ada false decode_hi "report" None [setup; answer]
              failing_first [] 0%N).1.2
           (mkClient [] []) eq_refl).
Defined.

(** Running the second cell alone succeeds; running both fails with
    status 1. *)
Lemma run_exit_status_zero_witness :
  (1 = 1)
  ∧ (parse_two ["report.qmd"] = Ok []
     ∨ ∃ all_cells cells_to_run conn ready w1 c w2,
         parse_two ["report.qmd"] = Ok all_cells
         ∧ selected pick all_cells (Some "1") = Ok cells_to_run
         ∧ attach_two conn ready w1 = (Ok c, w2)
         ∧ length (outputs None cells_to_run c) = length cells_to_run
         ∧ Forall (λ output, failed output = false)
             (outputs None cells_to_run c)).
Proof.
  destruct (run_exit_status_zero spawn_7 shutdown_4242 attach_failing detach
              ada false decode_hi stem parse_two pick "report.qmd" None None
              "python3" running) as [Hcode _].
  destruct (run_exit_status_zero spawn_7 shutdown_4242 attach_two detach ada
              false decode_hi stem parse_two pick "report.qmd" (Some "1") None
              "python3" running) as [_ Hzero].
  exact (conj (Hcode 1 eq_refl) (Hzero eq_refl)).
Defined.

(** A batch with a failing cell on a machine with a running kernel. *)
Lemma run_keeps_running_kernel_witness :
  machine_after (run spawn_7 shutdown_4242 attach_failing detach ada false
                   decode_hi stem parse_two pick "report.qmd" None None
                   "python3") running
  = running.
Proof.
  exact (run_keeps_running_kernel spawn_7 shutdown_4242 attach_failing detach
           ada false decode_hi stem parse_two pick "report.qmd" None None
           "python3" running kernel_4242 running
           (λ _ _ _, eq_refl) (λ _ _, eq_refl) eq_refl).
Defined.

(** The same batch on a machine without a kernel. *)
Lemma run_tears_down_temporary_kernel_witness :
  state_file
    (machine_after (run spawn_7 shutdown_4242 attach_failing detach ada false
                      decode_hi stem parse_two pick "report.qmd" None None
                      "python3") idle_machine)
  = None.
Proof.
  refine (run_tears_down_temporary_kernel spawn_7 shutdown_4242 attach_failing
            detach ada false decode_hi stem parse_two pick "report.qmd" None
            None "python3" idle_machine eq_refl (λ _ _, eq_refl) _
            (λ _ _ _, eq_refl) _ (λ _ _, eq_refl)).
  - intros name w0 conn child w' [= _ <- _]. reflexivity.
  - intros conn ready w0 e H. discriminate H.
Defined.

(** A kernel is started for the batch and its connection file is then
    not found: kernel 7 stays on record. *)
Lemma run_leaks_temporary_kernel_witness :
  outcome (run spawn_7 shutdown_4242 attach_lost detach ada false decode_hi
             stem parse_two pick "report.qmd" None None "python3") idle_machine
  = Throw (OtherError "FileNotFoundError")
  ∧ machine_after (run spawn_7 shutdown_4242 attach_lost detach ada false
                     decode_hi stem parse_two pick "report.qmd" None None
                     "python3") idle_machine
    = persisted kernel_7 spawned_7
  ∧ load_state (persisted kernel_7 spawned_7)
    = (Ok (Some kernel_7), persisted kernel_7 spawned_7).
Proof.
  refine (run_leaks_temporary_kernel spawn_7 shutdown_4242 attach_lost detach
            ada false decode_hi stem parse_two pick "report.qmd" None None
            "python3" idle_machine [setup; answer] [setup; answer]
            "/run/user/kernel-7.json" 7 spawned_7
            (OtherError "FileNotFoundError")
            eq_refl eq_refl _ eq_refl eq_refl eq_refl eq_refl eq_refl eq_refl).
  discriminate.
Defined.

End CliTheory.
